(** * Instagram AI analytics: the aggregation layer of [instagram_analyzer.py]

    A shallow embedding of [InstagramAnalyzer] and of the pieces of the Python
    standard library it calls ([statistics.mean], [statistics.mode],
    [datetime.fromisoformat], [round], [sorted]), followed by the properties
    of the analysis report that the specification states.

    Conventions.
    - Python [int] is [Z]; a finite Python [float] is the rational [Q] it
      denotes. The aggregators are modelled twice where rounding matters:
      with exact operations on rationals, and with the binary64 operations
      as arguments (the definitions named [..._in]).
    - A Python call that may raise is a computation in the [result] monad.
    - A [dict] read with [.get] is a record with optional fields; a result
      [dict] of fixed shape is a record, and a result that is either an
      error object or a report is a two-constructor type.
    - The standard library is the one of Python 3.8 or later:
      [statistics.mode] returns the first mode it meets, [dict] keeps
      insertion order and [sorted] is stable.
    - The model inference of [clip_analysis.py] and [sentiment.py] is an
      [Extractor], a record of total functions; a sentiment classifier
      that may raise is the argument of [_analyze_sentiment_raising]. The
      clock and the random draws of the data source are passed in. *)

From Stdlib Require Import ZArith QArith Qround Qabs String Ascii List Bool Lia.
From Stdlib Require Import Sorted DecimalString Lqa Permutation.
From Stdlib Require HexadecimalString.
Import ListNotations.

Set Implicit Arguments.

(* ===================================================================== *)
(** ** Exceptions *)
(* ===================================================================== *)

Inductive exn : Type :=
| ValueError
| TypeError
| StatisticsError
| IndexError
| ZeroDivisionError.

Inductive result (A : Type) : Type :=
| Return (a : A)
| Raise (e : exn).

Arguments Return {A} a.
Arguments Raise {A} e.

Definition bind {A B : Type} (m : result A) (k : A -> result B) : result B :=
  match m with
  | Return a => k a
  | Raise e => Raise e
  end.

Declare Scope result_scope.
Delimit Scope result_scope with result.
Notation "x <- m ;; k" := (bind m (fun x => k))
  (at level 61, m at next level, right associativity) : result_scope.
Open Scope result_scope.

(** A list comprehension whose body may raise: elements are evaluated left to
    right and the first exception aborts the comprehension. *)
Fixpoint mapM {A B : Type} (f : A -> result B) (l : list A) : result (list B) :=
  match l with
  | [] => Return []
  | x :: xs =>
      y <- f x ;;
      ys <- mapM f xs ;;
      Return (y :: ys)
  end.

Definition returns {A : Type} (m : result A) : Prop :=
  exists a, m = Return a.

Definition is_empty {A : Type} (l : list A) : bool :=
  match l with [] => true | _ :: _ => false end.

(** [l[i]] *)
Definition index {A : Type} (l : list A) (i : nat) : result A :=
  match nth_error l i with
  | Some a => Return a
  | None => Raise IndexError
  end.

(** [range(lo, hi)] *)
Definition range (lo hi : nat) : list nat := seq lo (hi - lo).

(* ===================================================================== *)
(** ** Numbers *)
(* ===================================================================== *)

Definition Qgtb (x y : Q) : bool := negb (Qle_bool x y).
Definition Qltb (x y : Q) : bool := negb (Qle_bool y x).

(** Python's [max(a, b)]: the first argument unless the second is greater. *)
Definition py_max (a b : Q) : Q := if Qgtb b a then b else a.

(** [a / b] *)
Definition pydiv (a b : Q) : result Q :=
  if Qeq_bool b 0 then Raise ZeroDivisionError else Return (a / b)%Q.

(** [round(x)]: to the nearest integer, halves to the even neighbour. *)
Definition round_half_even (x : Q) : Z :=
  let f := Qfloor x in
  let r := (x - inject_Z f)%Q in
  if Qltb r (1 # 2) then f
  else if Qgtb r (1 # 2) then (f + 1)%Z
  else if Z.even f then f else (f + 1)%Z.

(** [round(x, ndigits)] *)
Definition round_ndigits (x : Q) (ndigits : nat) : Q :=
  let scale := inject_Z (10 ^ Z.of_nat ndigits) in
  (inject_Z (round_half_even (x * scale)) / scale)%Q.

Definition Qsum (l : list Q) : Q := fold_right Qplus 0%Q l.

(** The arithmetic mean, [sum(l) / len(l)]. *)
Definition average (l : list Q) : Q :=
  (Qsum l / inject_Z (Z.of_nat (length l)))%Q.

(** [statistics.mean]: raises [StatisticsError] on empty data. *)
Definition mean (data : list Q) : result Q :=
  match data with
  | [] => Raise StatisticsError
  | _ :: _ => Return (average data)
  end.

(* ===================================================================== *)
(** ** Input data *)
(* ===================================================================== *)

(** A post as the analyzer reads it: every key is read with [.get]. *)
Record Post : Type := {
  post_id : option string;
  image_url : option string;
  caption : option string;
  likes : option Z;
  comments : option Z;
  timestamp : option string
}.

Record Profile : Type := {
  username : option string;
  followers : option Z;
  following : option Z;
  posts : option (list Post)
}.

(** [d.get(key, default)] *)
Definition get {A : Type} (field : option A) (default : A) : A :=
  match field with
  | Some v => v
  | None => default
  end.

(** Truth value of [d.get(key)] for a string-valued key: present and
    non-empty. *)
Definition truthy (field : option string) : bool :=
  match field with
  | Some EmptyString => false
  | Some _ => true
  | None => false
  end.

(* ===================================================================== *)
(** ** Engagement *)
(* ===================================================================== *)

Record EngagementMetrics : Type := {
  avg_likes : Z;
  avg_comments : Z;
  engagement_rate : Q;
  engagement_trend : string
}.

Inductive EngagementAnalysis : Type :=
| EngagementError (error : string)
| EngagementReport (m : EngagementMetrics).

Definition likes_of (p : Post) : Z := get (likes p) 0%Z.
Definition comments_of (p : Post) : Z := get (comments p) 0%Z.

(** The likes and comments of one post, added up. *)
Definition engagement_of (p : Post) : Q :=
  inject_Z (likes_of p + comments_of p).

(** [[likes[i] + comments[i] for i in idx]] *)
Definition window (likes comments : list Z) (idx : list nat) : result (list Q) :=
  mapM (fun i =>
          l <- index likes i ;;
          c <- index comments i ;;
          Return (inject_Z (l + c))) idx.

Definition _analyze_engagement (posts : list Post) (followers : Z)
  : result EngagementAnalysis :=
  if is_empty posts then Return (EngagementError "No posts to analyze")
  else
    let likes := map likes_of posts in
    let comments := map comments_of posts in
    avg_likes <- (if is_empty likes then Return 0%Q
                  else mean (map inject_Z likes)) ;;
    avg_comments <- (if is_empty comments then Return 0%Q
                     else mean (map inject_Z comments)) ;;
    engagement_rate <-
      (if (0 <? followers)%Z
       then
         ratio <- pydiv (avg_likes + avg_comments) (inject_Z followers) ;;
         Return (ratio * 100)%Q
       else Return 0%Q) ;;
    recent <- window likes comments (range 0 (Nat.min 3 (length posts))) ;;
    recent_engagement <- mean recent ;;
    older <- window likes comments
               (range (Nat.max 0 (length posts - 3)) (length posts)) ;;
    older_engagement <- mean older ;;
    let trend :=
      if Qgtb recent_engagement older_engagement then "Increasing"%string
      else if Qltb recent_engagement older_engagement then "Decreasing"%string
      else "Stable"%string in
    Return (EngagementReport {|
      avg_likes := round_half_even avg_likes;
      avg_comments := round_half_even avg_comments;
      engagement_rate := round_ndigits engagement_rate 2;
      engagement_trend := trend |}).

(* ===================================================================== *)
(** ** Insertion-ordered dictionaries and counting *)
(* ===================================================================== *)

Section Dict.

Variable K : Type.
Variable eqb : K -> K -> bool.

(** A Python [dict] from keys to counts, keys in insertion order. *)
Definition dict : Type := list (K * nat).

Fixpoint dict_get (d : dict) (k : K) (default : nat) : nat :=
  match d with
  | [] => default
  | (k', v) :: d' => if eqb k' k then v else dict_get d' k default
  end.

(** [d[k] = v]: an existing key keeps its position, a new key goes last. *)
Fixpoint dict_set (d : dict) (k : K) (v : nat) : dict :=
  match d with
  | [] => [(k, v)]
  | (k', v') :: d' =>
      if eqb k' k then (k', v) :: d' else (k', v') :: dict_set d' k v
  end.

Definition keys (d : dict) : list K := map fst d.

(** [for x in data: d[x] = d.get(x, 0) + 1], which is also what
    [collections.Counter(data)] builds. *)
Definition count_step (d : dict) (x : K) : dict :=
  dict_set d x (dict_get d x 0 + 1)%nat.

Definition count_all (data : list K) : dict :=
  fold_left count_step data [].

(** [max(items, key=count)]: the first item whose count is maximal. *)
Fixpoint max_by_count (best : K * nat) (items : list (K * nat)) : K * nat :=
  match items with
  | [] => best
  | item :: rest =>
      max_by_count (if (snd best <? snd item)%nat then item else best) rest
  end.

(** [Counter(data).most_common(1)] *)
Definition most_common_1 (data : list K) : list (K * nat) :=
  match count_all data with
  | [] => []
  | item :: rest => [max_by_count item rest]
  end.

(** [statistics.mode]: the first mode met in the data; raises on empty
    data. *)
Definition mode (data : list K) : result K :=
  match most_common_1 data with
  | top :: _ => Return (fst top)
  | [] => Raise StatisticsError
  end.

(** [sorted(l, key=key, reverse=True)]: descending and stable, elements
    with equal keys keep their order in [l]. *)
Fixpoint insert_desc (key : K -> nat) (x : K) (l : list K) : list K :=
  match l with
  | [] => [x]
  | y :: l' =>
      if (key x <? key y)%nat then y :: insert_desc key x l' else x :: l
  end.

Definition sorted_reverse (key : K -> nat) (l : list K) : list K :=
  fold_right (insert_desc key) [] l.

(** The order a stable descending sort puts its result in: a greater key
    first, and among equal keys the order [before] of the input list. *)
Definition ranked_before (key : K -> nat) (before : K -> K -> Prop) (a b : K)
  : Prop :=
  (key b < key a)%nat \/ (key a = key b /\ before a b).

(** How often [x] occurs in [l]. *)
Definition occurrences (x : K) (l : list K) : nat :=
  length (filter (fun y => eqb y x) l).

(** The index at which [x] is first seen in [l] ([len(l)] when it never
    is). *)
Fixpoint position (x : K) (l : list K) : nat :=
  match l with
  | [] => 0%nat
  | y :: l' => if eqb y x then 0%nat else S (position x l')
  end.

End Dict.

(* ===================================================================== *)
(** ** The feature extractor (external collaborators) *)
(* ===================================================================== *)

(** [clip_analysis.extract_colors], [clip_analysis.analyze_image_clip] and
    [sentiment.analyze_sentiment]: model inference, taken as given. The two
    image functions catch every exception themselves. *)
Record Extractor : Type := {
  extract_colors : string -> list string;
  analyze_image_clip : string -> string -> Q;
  analyze_sentiment : string -> Q
}.

(* ===================================================================== *)
(** ** Brand consistency *)
(* ===================================================================== *)

Record BrandAnalysis : Type := {
  consistency_score : Q;
  dominant_colors : list string;
  color_variance : string;
  brand_alignment : string
}.

(** [numpy.mean] of a non-empty list. *)
Definition np_mean (l : list Q) : Q := average l.

(** One iteration of the loop over the posts. *)
Definition brand_step (E : Extractor) (acc : list string * list Q) (post : Post)
  : list string * list Q :=
  let (all_colors, aesthetic_scores) := acc in
  if truthy (image_url post) then
    let url := get (image_url post) ""%string in
    let colors := extract_colors E url in
    let aesthetic_score :=
      analyze_image_clip E url "brand consistent aesthetic professional" in
    (all_colors ++ colors, aesthetic_scores ++ [aesthetic_score])
  else acc.

Definition brand_features (E : Extractor) (posts : list Post)
  : list string * list Q :=
  fold_left (brand_step E) posts ([], []).

(** The ranking of the accumulated colours. *)
Definition rank_colors (all_colors : list string) : list string :=
  let color_frequency := count_all String.eqb all_colors in
  firstn 5 (sorted_reverse (fun x => dict_get String.eqb color_frequency x 0)
              (keys color_frequency)).

(** The score the labels are derived from (before rounding). *)
Definition raw_consistency_score (aesthetic_scores : list Q) : Q :=
  if is_empty aesthetic_scores then 0%Q
  else (np_mean aesthetic_scores * 100)%Q.

Definition color_variance_of (consistency_score : Q) : string :=
  if Qgtb consistency_score 80 then "Low"
  else if Qgtb consistency_score 60 then "Moderate"
  else "High".

Definition brand_alignment_of (consistency_score : Q) : string :=
  if Qgtb consistency_score 75 then "Strong"
  else if Qgtb consistency_score 50 then "Moderate"
  else "Weak".

Definition _analyze_brand_consistency (E : Extractor) (posts : list Post)
  : BrandAnalysis :=
  let (all_colors, aesthetic_scores) := brand_features E posts in
  let dominant_colors := rank_colors all_colors in
  let consistency_score := raw_consistency_score aesthetic_scores in
  {| consistency_score := round_ndigits consistency_score 1;
     dominant_colors := dominant_colors;
     color_variance := color_variance_of consistency_score;
     brand_alignment := brand_alignment_of consistency_score |}.

(* ===================================================================== *)
(** ** Sentiment *)
(* ===================================================================== *)

Record SentimentMetrics : Type := {
  overall : Q;
  sentiment_trend : string;
  emotional_tone : string
}.

Inductive SentimentAnalysis : Type :=
| SentimentError (error : string)
| SentimentReport (m : SentimentMetrics).

(** The scores of the posts that have a non-empty caption, in post order. *)
Fixpoint caption_sentiments (E : Extractor) (posts : list Post) : list Q :=
  match posts with
  | [] => []
  | post :: rest =>
      let caption := get (caption post) ""%string in
      if truthy (Some caption)
      then analyze_sentiment E caption :: caption_sentiments E rest
      else caption_sentiments E rest
  end.

Definition _analyze_sentiment (E : Extractor) (posts : list Post)
  : result SentimentAnalysis :=
  let sentiments := caption_sentiments E posts in
  if is_empty sentiments then Return (SentimentError "No captions to analyze")
  else
    avg_sentiment <- mean sentiments ;;
    let emotional_tone :=
      if Qgtb avg_sentiment (3 # 10) then "Very Positive"%string
      else if Qgtb avg_sentiment 0 then "Positive"%string
      else if Qgtb avg_sentiment (- (3 # 10)) then "Neutral"%string
      else "Negative"%string in
    Return (SentimentReport {|
      overall := round_ndigits avg_sentiment 2;
      sentiment_trend :=
        if Qgtb avg_sentiment 0 then "Positive"%string else "Negative"%string;
      emotional_tone := emotional_tone |}).

(* ===================================================================== *)
(** ** Insights and suggestions *)
(* ===================================================================== *)

(** [engagement_analysis.get('engagement_rate', 0)] *)
Definition get_engagement_rate (e : EngagementAnalysis) : Q :=
  match e with
  | EngagementReport m => engagement_rate m
  | EngagementError _ => 0%Q
  end.

(** [sentiment_analysis.get('overall', 0)] *)
Definition get_overall (s : SentimentAnalysis) : Q :=
  match s with
  | SentimentReport m => overall m
  | SentimentError _ => 0%Q
  end.

Definition _generate_insights (brand_analysis : BrandAnalysis)
    (engagement_analysis : EngagementAnalysis)
    (sentiment_analysis : SentimentAnalysis) : list string :=
  let insights := [] in
  let insights :=
    if Qgtb (consistency_score brand_analysis) 80
    then insights ++ ["Excellent brand consistency maintained across posts"%string]
    else if Qltb (consistency_score brand_analysis) 60
    then insights ++ ["Consider improving visual consistency for stronger brand identity"%string]
    else insights in
  let engagement_rate := get_engagement_rate engagement_analysis in
  let insights :=
    if Qgtb engagement_rate 3
    then insights ++ ["Outstanding engagement rate - well above industry average"%string]
    else if Qltb engagement_rate 1
    then insights ++ ["Engagement rate below average - consider more interactive content"%string]
    else insights in
  let insights :=
    if Qgtb (get_overall sentiment_analysis) (1 # 2)
    then insights ++ ["Very positive audience sentiment - maintain authentic voice"%string]
    else if Qltb (get_overall sentiment_analysis) 0
    then insights ++ ["Consider adjusting content tone to improve audience sentiment"%string]
    else insights in
  insights.

Definition general_suggestions : list string := [
  "Experiment with user-generated content to boost engagement";
  "Consider seasonal content adjustments while maintaining brand core";
  "Analyze competitor strategies for inspiration";
  "Plan content themes around trending topics in your niche"
]%string.

Definition _generate_mood_suggestions (brand_analysis : BrandAnalysis)
    (sentiment_analysis : SentimentAnalysis) : list string :=
  let suggestions := [] in
  let consistency_score := consistency_score brand_analysis in
  let sentiment_score := get_overall sentiment_analysis in
  let suggestions :=
    if Qgtb consistency_score 75
    then suggestions ++ ["Maintain current aesthetic direction - it's working well"%string]
    else suggestions ++ ["Develop a more cohesive visual style guide"%string] in
  let suggestions :=
    if Qgtb sentiment_score (3 # 10)
    then suggestions ++ ["Continue with positive, uplifting content themes"%string]
    else suggestions ++ ["Incorporate more inspirational and positive messaging"%string] in
  suggestions ++ general_suggestions.

(* ===================================================================== *)
(** ** Strings and number formatting *)
(* ===================================================================== *)

(** [s.replace(c, by)] for a one-character pattern. *)
Fixpoint replace (c : ascii) (by_ : string) (s : string) : string :=
  match s with
  | EmptyString => EmptyString
  | String a s' =>
      if Ascii.eqb a c then (by_ ++ replace c by_ s')%string
      else String a (replace c by_ s')
  end.

(** [str(n)] *)
Definition str (n : Z) : string := NilZero.string_of_int (Z.to_int n).

(** [f"{n:02d}"] *)
Definition format_02d (n : Z) : string :=
  let s := str n in
  if (String.length s <? 2)%nat then ("0" ++ s)%string else s.

(** [f"{x:.1f}"] *)
Definition format_1f (x : Q) : string :=
  let tenths := round_half_even (Qabs x * 10) in
  ((if Qltb x 0 then "-" else "") ++
   str (tenths / 10) ++ "." ++ str (tenths mod 10))%string.

(* ===================================================================== *)
(** ** Dates and times *)
(* ===================================================================== *)

(** A [datetime.datetime]; [utcoffset] is the offset east of UTC in minutes,
    [None] for a naive value. *)
Record datetime : Type := {
  year : Z;
  month : Z;
  day : Z;
  hour : Z;
  minute : Z;
  second : Z;
  microsecond : Z;
  utcoffset : option Z
}.

Definition is_leap (year : Z) : bool :=
  (year mod 4 =? 0)%Z && (negb (year mod 100 =? 0)%Z || (year mod 400 =? 0)%Z).

Definition days_in_month (year month : Z) : Z :=
  match month with
  | 2 => if is_leap year then 29 else 28
  | 4 | 6 | 9 | 11 => 30
  | _ => 31
  end%Z.

Definition days_before_year (year : Z) : Z :=
  let y := (year - 1)%Z in
  (y * 365 + y / 4 - y / 100 + y / 400)%Z.

Definition days_before_month (year month : Z) : Z :=
  (match month with
   | 1 => 0 | 2 => 31 | 3 => 59 | 4 => 90 | 5 => 120 | 6 => 151
   | 7 => 181 | 8 => 212 | 9 => 243 | 10 => 273 | 11 => 304 | _ => 334
   end + (if (2 <? month)%Z && is_leap year then 1 else 0))%Z.

Definition toordinal (d : datetime) : Z :=
  (days_before_year (year d) + days_before_month (year d) (month d) + day d)%Z.

(** The constructor [datetime(...)] checks the range of every field. *)
Definition make_datetime (y m d hh mm ss us : Z) (tz : option Z)
  : result datetime :=
  if ((1 <=? y) && (y <=? 9999) && (1 <=? m) && (m <=? 12) &&
      (1 <=? d) && (d <=? days_in_month y m) &&
      (hh <? 24) && (mm <? 60) && (ss <? 60))%Z
  then Return {| year := y; month := m; day := d; hour := hh; minute := mm;
                 second := ss; microsecond := us; utcoffset := tz |}
  else Raise ValueError.

Notation "' pat <- m ;; k" :=
  (bind m (fun x => match x with pat => k end))
  (at level 61, pat pattern, m at next level, right associativity)
  : result_scope.

Definition digit_value (c : ascii) : option Z :=
  let n := nat_of_ascii c in
  if ((48 <=? n) && (n <=? 57))%nat then Some (Z.of_nat (n - 48)) else None.

(** Reads exactly [n] decimal digits. *)
Fixpoint take_digits (n : nat) (acc : Z) (cs : list ascii)
  : result (Z * list ascii) :=
  match n with
  | O => Return (acc, cs)
  | S n' =>
      match cs with
      | c :: cs' =>
          match digit_value c with
          | Some d => take_digits n' (10 * acc + d)%Z cs'
          | None => Raise ValueError
          end
      | [] => Raise ValueError
      end
  end.

(** The rest of [cs] after a leading [c], if it starts with [c]. *)
Definition starts_with (c : ascii) (cs : list ascii) : option (list ascii) :=
  match cs with
  | c' :: cs' => if Ascii.eqb c' c then Some cs' else None
  | [] => None
  end.

Definition expect (c : ascii) (cs : list ascii) : result (list ascii) :=
  match starts_with c cs with
  | Some cs' => Return cs'
  | None => Raise ValueError
  end.

(** [.fff] or [.ffffff] *)
Definition parse_fraction (cs : list ascii) : result (Z * list ascii) :=
  match take_digits 6 0 cs with
  | Return r => Return r
  | Raise _ =>
      '(ms, cs) <- take_digits 3 0 cs ;;
      Return ((ms * 1000)%Z, cs)
  end.

(** [HH[:MM[:SS[.fff[fff]]]]] *)
Definition parse_hh_mm_ss_ff (cs : list ascii)
  : result (Z * Z * Z * Z * list ascii) :=
  '(hh, cs) <- take_digits 2 0 cs ;;
  match starts_with ":" cs with
  | Some cs1 =>
      '(mm, cs2) <- take_digits 2 0 cs1 ;;
      match starts_with ":" cs2 with
      | Some cs3 =>
          '(ss, cs4) <- take_digits 2 0 cs3 ;;
          match starts_with "." cs4 with
          | Some cs5 =>
              '(us, cs6) <- parse_fraction cs5 ;;
              Return (hh, mm, ss, us, cs6)
          | None => Return (hh, mm, ss, 0%Z, cs4)
          end
      | None => Return (hh, mm, 0%Z, 0%Z, cs2)
      end
  | None => Return (hh, 0%Z, 0%Z, 0%Z, cs)
  end.

(** Nothing, or [+HH:MM] / [-HH:MM] up to the end of the string. *)
Definition parse_tz (cs : list ascii) : result (option Z) :=
  match cs with
  | [] => Return None
  | sign :: cs =>
      sgn <- (if Ascii.eqb sign "+" then Return 1%Z
              else if Ascii.eqb sign "-" then Return (-1)%Z
              else Raise ValueError) ;;
      '(hh, cs) <- take_digits 2 0 cs ;;
      cs <- expect ":" cs ;;
      '(mm, cs) <- take_digits 2 0 cs ;;
      if (is_empty cs && (hh <? 24) && (mm <? 60))%Z
      then Return (Some (sgn * (hh * 60 + mm))%Z)
      else Raise ValueError
  end.

(** [datetime.fromisoformat] on the strings of the form
    [YYYY-MM-DD[(T| )HH[:MM[:SS[.fff[fff]]]][(+|-)HH:MM]]], which every
    version of the function reads the same way. A string of another shape is
    modelled as [ValueError]; a string of this shape with a field out of its
    range (month 13, day 0, hour 24) is a [ValueError] in Python too. *)
Definition fromisoformat (date_string : string) : result datetime :=
  let cs := list_ascii_of_string date_string in
  '(y, cs) <- take_digits 4 0 cs ;;
  cs <- expect "-" cs ;;
  '(m, cs) <- take_digits 2 0 cs ;;
  cs <- expect "-" cs ;;
  '(d, cs) <- take_digits 2 0 cs ;;
  match cs with
  | [] => make_datetime y m d 0 0 0 0 None
  | sep :: cs =>
      if Ascii.eqb sep "T" || Ascii.eqb sep " " then
        '(hh, mm, ss, us, cs) <- parse_hh_mm_ss_ff cs ;;
        tz <- parse_tz cs ;;
        make_datetime y m d hh mm ss us tz
      else Raise ValueError
  end.

(** Microseconds since the start of day 0 on the value's own clock. *)
Definition wall_clock (d : datetime) : Z :=
  ((((toordinal d * 24 + hour d) * 60 + minute d) * 60 + second d) * 1000000
   + microsecond d)%Z.

Definition aware (d : datetime) : bool :=
  match utcoffset d with
  | Some _ => true
  | None => false
  end.

(** The point in time a value denotes, in microseconds: its wall clock,
    moved to UTC when the value is aware. *)
Definition instant (d : datetime) : Z :=
  (wall_clock d - get (utcoffset d) 0 * 60000000)%Z.

(** All naive or all aware: any two of the values can be compared. *)
Definition comparable (l : list datetime) : bool :=
  forallb aware l || forallb (fun d => negb (aware d)) l.

(** [a - b], a [timedelta] in microseconds; mixing naive and aware values
    raises [TypeError]. *)
Definition datetime_sub (a b : datetime) : result Z :=
  match utcoffset a, utcoffset b with
  | None, None => Return (wall_clock a - wall_clock b)%Z
  | Some oa, Some ob =>
      Return ((wall_clock a - oa * 60000000) - (wall_clock b - ob * 60000000))%Z
  | _, _ => Raise TypeError
  end.

Definition datetime_gt (a b : datetime) : result bool :=
  td <- datetime_sub a b ;; Return (0 <? td)%Z.

Definition datetime_lt (a b : datetime) : result bool :=
  td <- datetime_sub a b ;; Return (td <? 0)%Z.

(** [timedelta.days] *)
Definition timedelta_days (td : Z) : Z := (td / 86400000000)%Z.

(** The loop of [max]: an item replaces the running maximum when it is
    greater. *)
Fixpoint max_from (best : datetime) (items : list datetime) : result datetime :=
  match items with
  | [] => Return best
  | item :: rest =>
      gt <- datetime_gt item best ;;
      max_from (if gt then item else best) rest
  end.

Fixpoint min_from (best : datetime) (items : list datetime) : result datetime :=
  match items with
  | [] => Return best
  | item :: rest =>
      lt <- datetime_lt item best ;;
      min_from (if lt then item else best) rest
  end.

Definition datetime_max (l : list datetime) : result datetime :=
  match l with
  | [] => Raise ValueError
  | d :: rest => max_from d rest
  end.

Definition datetime_min (l : list datetime) : result datetime :=
  match l with
  | [] => Raise ValueError
  | d :: rest => min_from d rest
  end.

(* ===================================================================== *)
(** ** Posting patterns *)
(* ===================================================================== *)

Record PostingAnalysis : Type := {
  frequency : string;
  optimal_time : string;
  posting_consistency : string
}.

(** The posts whose timestamp is present and non-empty. *)
Definition dated (posts : list Post) : list Post :=
  filter (fun post => truthy (timestamp post)) posts.

Definition parse_timestamp (post : Post) : result datetime :=
  fromisoformat (replace "Z" "+00:00" (get (timestamp post) ""%string)).

Definition post_dates_of (posts : list Post) : result (list datetime) :=
  mapM parse_timestamp (dated posts).

(** [len(posts) / max(date_range / 7, 1)] *)
Definition posts_per_week (post_count : nat) (date_range : Z) : result Q :=
  pydiv (inject_Z (Z.of_nat post_count)) (py_max (inject_Z date_range / 7) 1).

Definition consistency_of (frequency : Q) : string :=
  if Qle_bool 1 frequency && Qle_bool frequency 5 then "Good"
  else if Qltb frequency 1 then "Low"
  else "High".

Definition _analyze_posting_patterns (posts : list Post)
  : result PostingAnalysis :=
  if is_empty posts then
    Return {| frequency := "Unknown"; optimal_time := "Unknown";
              posting_consistency := "Unknown" |}
  else
    post_dates <- post_dates_of posts ;;
    if (length post_dates <? 2)%nat then
      Return {| frequency := "Insufficient data"; optimal_time := "Unknown";
                posting_consistency := "Unknown" |}
    else
      latest <- datetime_max post_dates ;;
      earliest <- datetime_min post_dates ;;
      td <- datetime_sub latest earliest ;;
      let date_range := timedelta_days td in
      frequency <- posts_per_week (length posts) date_range ;;
      let post_hours := map hour post_dates in
      optimal_hour <- (if is_empty post_hours then Return 12%Z
                       else mode Z.eqb post_hours) ;;
      Return {| frequency := (format_1f frequency ++ " posts/week")%string;
                optimal_time := (format_02d optimal_hour ++ ":00")%string;
                posting_consistency := consistency_of frequency |}.

(* ===================================================================== *)
(** ** The profile analysis *)
(* ===================================================================== *)

Record ProfileSummary : Type := {
  summary_username : option string;
  summary_followers : option Z;
  summary_following : option Z;
  posts_count : nat
}.

Record AnalysisReport : Type := {
  profile : ProfileSummary;
  branding : BrandAnalysis;
  engagement : EngagementAnalysis;
  sentiment : SentimentAnalysis;
  posting : PostingAnalysis;
  insights : list string;
  mood_suggestions : list string;
  generated_at : string
}.

Inductive ProfileAnalysis : Type :=
| AnalysisError (error : string)
| Analysis (report : AnalysisReport).

(** [now] stands for [datetime.now().isoformat()], read when the report is
    assembled. *)
Definition analyze_profile (E : Extractor) (now : string)
    (profile_data : Profile) : result ProfileAnalysis :=
  let posts_ := get (posts profile_data) [] in
  if is_empty posts_ then Return (AnalysisError "No posts found for analysis")
  else
    let brand_analysis := _analyze_brand_consistency E posts_ in
    engagement_analysis <-
      _analyze_engagement posts_ (get (followers profile_data) 0%Z) ;;
    sentiment_analysis <- _analyze_sentiment E posts_ ;;
    posting_analysis <- _analyze_posting_patterns posts_ ;;
    let insights_ :=
      _generate_insights brand_analysis engagement_analysis sentiment_analysis in
    let suggestions :=
      _generate_mood_suggestions brand_analysis sentiment_analysis in
    Return (Analysis {|
      profile := {| summary_username := username profile_data;
                    summary_followers := followers profile_data;
                    summary_following := following profile_data;
                    posts_count := length posts_ |};
      branding := brand_analysis;
      engagement := engagement_analysis;
      sentiment := sentiment_analysis;
      posting := posting_analysis;
      insights := insights_;
      mood_suggestions := suggestions;
      generated_at := now |}).

(* ===================================================================== *)
(** ** The data source ([scrape_creator.py]) *)
(* ===================================================================== *)

(** The draws of [random.randint] made while a profile is built. *)
Record Draws : Type := {
  draw_followers : Z;
  draw_following : Z;
  draw_likes : nat -> Z;
  draw_comments : nat -> Z
}.

(** The [i]-th post of the mock profile. *)
Definition scraped_post (R : Draws) (i : nat) : Post :=
  let n := Z.of_nat i in
  {| post_id := Some (str n);
     image_url := Some ("https://picsum.photos/400/400?random=" ++ str n)%string;
     caption := Some ("Sample post caption " ++ str n
                      ++ " with hashtags #brand #style #content")%string;
     likes := Some (draw_likes R i);
     comments := Some (draw_comments R i);
     timestamp := Some ("2025-08-" ++ format_02d (8 - n) ++ "T"
                        ++ str (10 + n) ++ ":00:00Z")%string |}.

(** [scrape_instagram_profile]; the keys [full_name] and [biography], which
    the analyzer never reads, are left out. *)
Definition scrape_instagram_profile (R : Draws) (username : string)
    (posts_limit : Z) : Profile :=
  {| username := Some username;
     followers := Some (draw_followers R);
     following := Some (draw_following R);
     posts := Some (map (scraped_post R)
                      (range 0 (Z.to_nat (Z.min posts_limit 12)))) |}.

(* ===================================================================== *)
(** ** Sample inputs *)
(* ===================================================================== *)

(** An extractor that answers the same palette and scores for every post. *)
Definition fixed_extractor (palette : list string) (alignment sentiment_ : Q)
  : Extractor :=
  {| extract_colors := fun _ => palette;
     analyze_image_clip := fun _ _ => alignment;
     analyze_sentiment := fun _ => sentiment_ |}.

(** A post with no key at all. *)
Definition bare_post : Post :=
  {| post_id := None; image_url := None; caption := None;
     likes := None; comments := None; timestamp := None |}.

Definition caption_post (text : string) : Post :=
  {| post_id := None; image_url := None; caption := Some text;
     likes := None; comments := None; timestamp := None |}.

Definition image_post (url : string) : Post :=
  {| post_id := None; image_url := Some url; caption := None;
     likes := None; comments := None; timestamp := None |}.

Definition counted_post (l c : Z) : Post :=
  {| post_id := None; image_url := None; caption := None;
     likes := Some l; comments := Some c; timestamp := None |}.

Definition timed_post (ts : string) : Post :=
  {| post_id := None; image_url := None; caption := None;
     likes := None; comments := None; timestamp := Some ts |}.

Definition fixed_draws : Draws :=
  {| draw_followers := 10000; draw_following := 500;
     draw_likes := fun _ => 1000%Z; draw_comments := fun _ => 100%Z |}.

(* ===================================================================== *)
(** ** The collaborators ([sentiment.py], [clip_analysis.py]) *)
(* ===================================================================== *)

(** [sentiment.analyze_sentiment]; [sentiment_model] stands for the
    classification pipeline, which answers a label and a score. *)
Definition analyze_sentiment_with (sentiment_model : string -> string * Q)
    (text : string) : Q :=
  let (label, score) := sentiment_model text in
  if String.eqb label "POSITIVE" then score else (- score)%Q.

(** [clip_analysis.analyze_image_clip]; [infer] stands for the image fetch
    and the CLIP inference inside the [try], which may raise. *)
Definition analyze_image_clip_with (infer : string -> string -> result Q)
    (image_url prompt : string) : Q :=
  match infer image_url prompt with
  | Return p => p
  | Raise _ => 0%Q
  end.

(** [f"{n:02x}"] *)
Definition format_02x (n : Z) : string :=
  let s := HexadecimalString.NilZero.string_of_int (Z.to_hex_int n) in
  if (String.length s <? 2)%nat then ("0" ++ s)%string else s.

(** ['#{:02x}{:02x}{:02x}'.format(color[0], color[1], color[2])] *)
Definition hex_color (color : Z * Z * Z) : string :=
  let '(r, g, b) := color in
  ("#" ++ format_02x r ++ format_02x g ++ format_02x b)%string.

Definition fallback_palette : list string :=
  ["#000000"; "#FFFFFF"; "#808080"]%string.

(** [clip_analysis.extract_colors]; [cluster] stands for the image fetch,
    the resize and the k-means clustering inside the [try], which may raise
    and otherwise answers the rounded cluster centres. *)
Definition extract_colors_with (cluster : string -> result (list (Z * Z * Z)))
    (image_url : string) : list string :=
  match cluster image_url with
  | Return colors => map hex_color colors
  | Raise _ => fallback_palette
  end.

(** The extractor that the three modules make up. *)
Definition extractor_with (sentiment_model : string -> string * Q)
    (infer : string -> string -> result Q)
    (cluster : string -> result (list (Z * Z * Z))) : Extractor :=
  {| extract_colors := extract_colors_with cluster;
     analyze_image_clip := analyze_image_clip_with infer;
     analyze_sentiment := analyze_sentiment_with sentiment_model |}.

(** A channel value as a byte. *)
Definition channel (n : Z) : Prop := (0 <= n < 256)%Z.

Definition rgb (color : Z * Z * Z) : Prop :=
  channel (fst (fst color)) /\ channel (snd (fst color)) /\ channel (snd color).

(* ===================================================================== *)
(** ** The service ([app.py]) *)
(* ===================================================================== *)

(** What a handler answers: its body, or the [HTTPException] it raises from
    the exception it caught. *)
Inductive Response (A : Type) : Type :=
| Success (body : A)
| HTTPException (status_code : Z) (detail : exn).

Arguments Success {A} body.
Arguments HTTPException {A} status_code detail.

(** [POST /analyze-profile]; the body stands for
    [{"analysis": analysis, "status": "success"}]. *)
Definition analyze_profile_endpoint (E : Extractor) (R : Draws) (now : string)
    (username_ : string) (posts_limit : Z) : Response ProfileAnalysis :=
  let profile_data := scrape_instagram_profile R username_ posts_limit in
  match analyze_profile E now profile_data with
  | Return analysis => Success analysis
  | Raise e => HTTPException 500 e
  end.

(* ===================================================================== *)
(** ** Vocabulary of the properties *)
(* ===================================================================== *)

Definition has_image (p : Post) : bool := truthy (image_url p).

Definition has_caption (p : Post) : bool := truthy (caption p).

(** The trend read in the other direction. *)
Definition opposite_trend (t : string) : string :=
  if String.eqb t "Increasing" then "Decreasing"
  else if String.eqb t "Decreasing" then "Increasing"
  else t.

(** The trend label of an engagement result, if it has one. *)
Definition trend_of (e : result EngagementAnalysis) : option string :=
  match e with
  | Return (EngagementReport m) => Some (engagement_trend m)
  | _ => None
  end.

(** The posting fields of a result, if it returned. *)
Definition optimal_time_of (r : result PostingAnalysis) : option string :=
  match r with
  | Return a => Some (optimal_time a)
  | Raise _ => None
  end.

(* ===================================================================== *)
(** ** The aggregators over binary64 arithmetic *)
(* ===================================================================== *)

(** A finite float is a rational number, and two floats compare as their
    values do. What numpy and the interpreter compute in binary64 (a mean,
    a quotient, a rounding, a formatted string) is taken here as given, so
    that a statement holds for the floats the program really computes; the
    exact operations on rationals used above are one instance. *)

Section Binary64.

(** [np.mean(aesthetic_scores) * 100] *)
Variable mean_times_100 : list Q -> Q.

(** [round(x, 1)] of a float *)
Variable round_1 : Q -> Q.

(** [a / b] *)
Variable fdiv : Q -> Q -> Q.

(** [f"{x:.1f}"] *)
Variable fmt_1f : Q -> string.

(** The score that the labels are read from: [consistency_score] before it
    is rounded for the report. *)
Definition unrounded_score (aesthetic_scores : list Q) : Q :=
  if is_empty aesthetic_scores then 0%Q
  else mean_times_100 aesthetic_scores.

(** [_analyze_brand_consistency]; without scores the score is the integer 0,
    which [round] leaves as it is. *)
Definition _analyze_brand_consistency_in (E : Extractor) (posts : list Post)
  : BrandAnalysis :=
  let (all_colors, aesthetic_scores) := brand_features E posts in
  let dominant_colors := rank_colors all_colors in
  let consistency_score := unrounded_score aesthetic_scores in
  {| consistency_score :=
       if is_empty aesthetic_scores then 0%Q else round_1 consistency_score;
     dominant_colors := dominant_colors;
     color_variance :=
       if Qgtb consistency_score 80 then "Low"
       else if Qgtb consistency_score 60 then "Moderate"
       else "High";
     brand_alignment :=
       if Qgtb consistency_score 75 then "Strong"
       else if Qgtb consistency_score 50 then "Moderate"
       else "Weak" |}.

(** [max(date_range / 7, 1)] *)
Definition weeks_of (date_range : Z) : Q :=
  py_max (fdiv (inject_Z date_range) 7) 1.

(** [len(posts) / max(date_range / 7, 1)] *)
Definition posts_per_week_in (post_count : nat) (date_range : Z) : result Q :=
  if Qeq_bool (weeks_of date_range) 0 then Raise ZeroDivisionError
  else Return (fdiv (inject_Z (Z.of_nat post_count)) (weeks_of date_range)).

(** [_analyze_posting_patterns] *)
Definition _analyze_posting_patterns_in (posts : list Post)
  : result PostingAnalysis :=
  if is_empty posts then
    Return {| frequency := "Unknown"; optimal_time := "Unknown";
              posting_consistency := "Unknown" |}
  else
    post_dates <- post_dates_of posts ;;
    if (length post_dates <? 2)%nat then
      Return {| frequency := "Insufficient data"; optimal_time := "Unknown";
                posting_consistency := "Unknown" |}
    else
      latest <- datetime_max post_dates ;;
      earliest <- datetime_min post_dates ;;
      td <- datetime_sub latest earliest ;;
      let date_range := timedelta_days td in
      frequency <- posts_per_week_in (length posts) date_range ;;
      let post_hours := map hour post_dates in
      optimal_hour <- (if is_empty post_hours then Return 12%Z
                       else mode Z.eqb post_hours) ;;
      Return {| frequency := (fmt_1f frequency ++ " posts/week")%string;
                optimal_time := (format_02d optimal_hour ++ ":00")%string;
                posting_consistency := consistency_of frequency |}.

End Binary64.

(** What binary64 division and formatting are relied on for: the result
    depends on the values only (the operands are floats, or integers far
    below 2^53: a number of posts, a number of days); a quotient of two
    integers up to 2^53 that is itself an integer is computed exactly; an
    integer up to 2^53 is printed with ".0". *)
Record float_laws (fdiv : Q -> Q -> Q) (fmt_1f : Q -> string) : Prop := {
  fdiv_compat :
    forall a a' b b', (a == a')%Q -> (b == b')%Q -> (fdiv a b == fdiv a' b')%Q;
  fdiv_exact :
    forall a b q : Z,
      (0 < b <= 2 ^ 53)%Z -> (Z.abs a <= 2 ^ 53)%Z -> (a = q * b)%Z ->
      (fdiv (inject_Z a) (inject_Z b) == inject_Z q)%Q;
  fmt_1f_compat :
    forall x y, (x == y)%Q -> fmt_1f x = fmt_1f y;
  fmt_1f_integer :
    forall n : Z,
      (0 <= n <= 2 ^ 53)%Z -> fmt_1f (inject_Z n) = (str n ++ ".0")%string
}.

Section Binary64Engagement.

(** The binary64 value nearest to an exact one. *)
Variable to_float : Q -> Q.

(** [round(((avg_likes + avg_comments) / followers) * 100, 2)] for
    [followers > 0] *)
Variable rounded_rate : Q -> Q -> Z -> Q.

Definition is_integer (x : Q) : bool := Qeq_bool x (inject_Z (Qfloor x)).

(** [statistics.mean(data)] for integer [data]: the sum and the quotient
    are exact; the result is an [int] when the quotient is an integer, and
    the float nearest to the quotient otherwise. *)
Definition mean_of_ints (data : list Q) : result Q :=
  exact_mean <- mean data ;;
  Return (if is_integer exact_mean then exact_mean
          else to_float exact_mean).

(** [_analyze_engagement] *)
Definition _analyze_engagement_in (posts : list Post) (followers : Z)
  : result EngagementAnalysis :=
  if is_empty posts then Return (EngagementError "No posts to analyze")
  else
    let likes := map likes_of posts in
    let comments := map comments_of posts in
    avg_likes <- (if is_empty likes then Return 0%Q
                  else mean_of_ints (map inject_Z likes)) ;;
    avg_comments <- (if is_empty comments then Return 0%Q
                     else mean_of_ints (map inject_Z comments)) ;;
    recent <- window likes comments (range 0 (Nat.min 3 (length posts))) ;;
    recent_engagement <- mean_of_ints recent ;;
    older <- window likes comments
               (range (Nat.max 0 (length posts - 3)) (length posts)) ;;
    older_engagement <- mean_of_ints older ;;
    let trend :=
      if Qgtb recent_engagement older_engagement then "Increasing"%string
      else if Qltb recent_engagement older_engagement then "Decreasing"%string
      else "Stable"%string in
    Return (EngagementReport {|
      avg_likes := round_half_even avg_likes;
      avg_comments := round_half_even avg_comments;
      engagement_rate :=
        if (0 <? followers)%Z
        then rounded_rate avg_likes avg_comments followers
        else 0%Q;
      engagement_trend := trend |}).

End Binary64Engagement.

(** What the conversion to binary64 is relied on for: it keeps the order,
    and an integer of magnitude at most 2^53 is converted exactly. *)
Record float_rounding (to_float : Q -> Q) : Prop := {
  to_float_monotone :
    forall x y, (x <= y)%Q -> (to_float x <= to_float y)%Q;
  to_float_integer :
    forall n : Z,
      (- 2 ^ 53 <= n <= 2 ^ 53)%Z -> (to_float (inject_Z n) == inject_Z n)%Q
}.

(* ===================================================================== *)
(** ** The sentiment aggregator with a classifier that may fail *)
(* ===================================================================== *)

(** [sentiment.analyze_sentiment] has no [try]: what the classifier raises
    goes through [_analyze_sentiment] unchanged. [classify] is that call. *)
Fixpoint caption_sentiments_raising (classify : string -> result Q)
    (posts : list Post) : result (list Q) :=
  match posts with
  | [] => Return []
  | post :: rest =>
      let caption := get (caption post) ""%string in
      if truthy (Some caption) then
        sentiment_score <- classify caption ;;
        sentiments <- caption_sentiments_raising classify rest ;;
        Return (sentiment_score :: sentiments)
      else caption_sentiments_raising classify rest
  end.

Definition _analyze_sentiment_raising (classify : string -> result Q)
    (posts : list Post) : result SentimentAnalysis :=
  sentiments <- caption_sentiments_raising classify posts ;;
  if is_empty sentiments then Return (SentimentError "No captions to analyze")
  else
    avg_sentiment <- mean sentiments ;;
    let emotional_tone :=
      if Qgtb avg_sentiment (3 # 10) then "Very Positive"%string
      else if Qgtb avg_sentiment 0 then "Positive"%string
      else if Qgtb avg_sentiment (- (3 # 10)) then "Neutral"%string
      else "Negative"%string in
    Return (SentimentReport {|
      overall := round_ndigits avg_sentiment 2;
      sentiment_trend :=
        if Qgtb avg_sentiment 0 then "Positive"%string else "Negative"%string;
      emotional_tone := emotional_tone |}).

(** The caption that the classifier is called on. *)
Definition caption_of (p : Post) : string := get (caption p) ""%string.

(* ===================================================================== *)
(** * Properties *)
(* ===================================================================== *)

(** ** Comparisons on rationals *)

Lemma Qgtb_true (x y : Q) : Qgtb x y = true <-> (y < x)%Q.
Proof.
  unfold Qgtb. rewrite negb_true_iff, <- not_true_iff_false, Qle_bool_iff.
  split; [apply Qnot_le_lt | apply Qlt_not_le].
Qed.

Lemma Qgtb_false (x y : Q) : Qgtb x y = false <-> (x <= y)%Q.
Proof.
  unfold Qgtb. rewrite negb_false_iff. apply Qle_bool_iff.
Qed.

Lemma Qltb_true (x y : Q) : Qltb x y = true <-> (x < y)%Q.
Proof. apply Qgtb_true. Qed.

Lemma Qltb_false (x y : Q) : Qltb x y = false <-> (y <= x)%Q.
Proof. apply Qgtb_false. Qed.

Lemma Qgtb_spec (x y : Q) : reflect (y < x)%Q (Qgtb x y).
Proof.
  destruct (Qgtb x y) eqn:H; constructor.
  - now apply Qgtb_true.
  - apply Qgtb_false in H. now apply Qle_not_lt.
Qed.

(** ** Suggestions *)

(** C10: the suggestion list always holds six strings: the branding one
    chosen by [consistency_score > 75], the sentiment one chosen by
    [overall > 0.3], then the four general suggestions in their fixed
    order; so it is never empty. *)
Theorem mood_suggestions_six (brand_analysis : BrandAnalysis)
    (sentiment_analysis : SentimentAnalysis) :
  let suggestions :=
    _generate_mood_suggestions brand_analysis sentiment_analysis in
  suggestions =
    [ if Qlt_le_dec 75 (consistency_score brand_analysis)
      then "Maintain current aesthetic direction - it's working well"
      else "Develop a more cohesive visual style guide";
      if Qlt_le_dec (3 # 10) (get_overall sentiment_analysis)
      then "Continue with positive, uplifting content themes"
      else "Incorporate more inspirational and positive messaging";
      "Experiment with user-generated content to boost engagement";
      "Consider seasonal content adjustments while maintaining brand core";
      "Analyze competitor strategies for inspiration";
      "Plan content themes around trending topics in your niche" ]%string
  /\ length suggestions = 6%nat
  /\ suggestions <> [].
Proof.
  cbv zeta. unfold _generate_mood_suggestions, general_suggestions.
  destruct (Qgtb_spec (consistency_score brand_analysis) 75) as [Hb | Hb];
    destruct (Qlt_le_dec 75 (consistency_score brand_analysis)) as [Hb' | Hb'];
    try (exfalso; (apply Hb; exact Hb') || (apply (Qlt_not_le _ _ Hb); exact Hb'));
    destruct (Qgtb_spec (get_overall sentiment_analysis) (3 # 10)) as [Hs | Hs];
    destruct (Qlt_le_dec (3 # 10) (get_overall sentiment_analysis)) as [Hs' | Hs'];
    try (exfalso; (apply Hs; exact Hs') || (apply (Qlt_not_le _ _ Hs); exact Hs'));
    simpl; repeat split; discriminate.
Qed.

(** ** Brand labels *)

Lemma brand_analysis_fields (E : Extractor) (posts : list Post) :
  let score := raw_consistency_score (snd (brand_features E posts)) in
  let r := _analyze_brand_consistency E posts in
  consistency_score r = round_ndigits score 1 /\
  dominant_colors r = rank_colors (fst (brand_features E posts)) /\
  color_variance r = color_variance_of score /\
  brand_alignment r = brand_alignment_of score.
Proof.
  unfold _analyze_brand_consistency.
  destruct (brand_features E posts) as [all_colors aesthetic_scores].
  simpl. repeat split.
Qed.

Lemma color_variance_cases (score : Q) :
  (color_variance_of score = "Low"%string <-> 80 < score) /\
  (color_variance_of score = "Moderate"%string <-> 60 < score /\ score <= 80) /\
  (color_variance_of score = "High"%string <-> score <= 60).
Proof.
  unfold color_variance_of.
  destruct (Qgtb_spec score 80) as [H80 | H80];
    [| destruct (Qgtb_spec score 60) as [H60 | H60]];
    repeat split; intros; try discriminate; try lra.
Qed.

Lemma brand_alignment_cases (score : Q) :
  (brand_alignment_of score = "Strong"%string <-> 75 < score) /\
  (brand_alignment_of score = "Moderate"%string <-> 50 < score /\ score <= 75) /\
  (brand_alignment_of score = "Weak"%string <-> score <= 50).
Proof.
  unfold brand_alignment_of.
  destruct (Qgtb_spec score 75) as [H75 | H75];
    [| destruct (Qgtb_spec score 50) as [H50 | H50]];
    repeat split; intros; try discriminate; try lra.
Qed.

(** ** Sentiment thresholds *)

Lemma analyze_sentiment_of_mean (E : Extractor) (posts : list Post) (avg : Q) :
  mean (caption_sentiments E posts) = Return avg ->
  _analyze_sentiment E posts =
    Return (SentimentReport {|
      overall := round_ndigits avg 2;
      sentiment_trend :=
        if Qgtb avg 0 then "Positive"%string else "Negative"%string;
      emotional_tone :=
        if Qgtb avg (3 # 10) then "Very Positive"%string
        else if Qgtb avg 0 then "Positive"%string
        else if Qgtb avg (- (3 # 10)) then "Neutral"%string
        else "Negative"%string |}).
Proof.
  intros H. unfold _analyze_sentiment.
  destruct (caption_sentiments E posts) as [| s sentiments]; [discriminate |].
  cbn [is_empty]. rewrite H. reflexivity.
Qed.

(** C2, as the code has it: an average of exactly 0.3 is "Positive", an
    average of exactly -0.3 is "Negative" (the Neutral band is strictly above
    -0.3), and an average of exactly 0 has trend "Negative". *)
Theorem sentiment_boundaries (E : Extractor) (posts : list Post) (avg : Q) :
  mean (caption_sentiments E posts) = Return avg ->
  exists m,
    _analyze_sentiment E posts = Return (SentimentReport m) /\
    (avg == 3 # 10 -> emotional_tone m = "Positive"%string) /\
    (avg == - (3 # 10) -> emotional_tone m = "Negative"%string) /\
    (avg == 0 -> sentiment_trend m = "Negative"%string).
Proof.
  intros H. eexists. split; [apply (analyze_sentiment_of_mean _ _ H) |].
  cbn [emotional_tone sentiment_trend].
  destruct (Qgtb_spec avg (3 # 10)), (Qgtb_spec avg 0),
    (Qgtb_spec avg (- (3 # 10)));
    repeat split; intros; try reflexivity; exfalso; lra.
Qed.

Lemma sentiment_boundaries_witness :
  exists m,
    _analyze_sentiment (fixed_extractor [] 0 (3 # 10)) [caption_post "sunny day"]
      = Return (SentimentReport m) /\
    emotional_tone m = "Positive"%string.
Proof.
  destruct (@sentiment_boundaries (fixed_extractor [] 0 (3 # 10))
              [caption_post "sunny day"] (3 # 10) eq_refl)
    as (m & Hm & Hpos & _).
  exists m. split; [exact Hm | apply Hpos; reflexivity].
Defined.

(** C2 fails where it says that an average of exactly -0.3 is "Neutral":
    one captioned post scored -0.3 is reported "Negative". *)
Lemma sentiment_minus_03_is_not_neutral :
  mean (caption_sentiments (fixed_extractor [] 0 (- (3 # 10)))
          [caption_post "rainy day"]) = Return (- (3 # 10)) /\
  exists m,
    _analyze_sentiment (fixed_extractor [] 0 (- (3 # 10)))
      [caption_post "rainy day"] = Return (SentimentReport m) /\
    emotional_tone m = "Negative"%string /\
    emotional_tone m <> "Neutral"%string.
Proof.
  split; [reflexivity |].
  eexists. split; [reflexivity |]. split; [reflexivity | discriminate].
Qed.

(** ** Engagement *)

Lemma is_empty_false {A : Type} (l : list A) : l <> [] -> is_empty l = false.
Proof. destruct l; [congruence | reflexivity]. Qed.

Lemma mean_nonempty (l : list Q) : l <> [] -> mean l = Return (average l).
Proof. destruct l; [congruence | reflexivity]. Qed.

Lemma map_nonempty {A B : Type} (f : A -> B) (l : list A) :
  l <> [] -> map f l <> [].
Proof. destruct l; [congruence | discriminate]. Qed.

Lemma pydiv_nonzero (a b : Q) : ~ b == 0 -> pydiv a b = Return (a / b)%Q.
Proof.
  intros H. unfold pydiv. destruct (Qeq_bool b 0) eqn:Hb; [| reflexivity].
  apply Qeq_bool_eq in Hb. contradiction.
Qed.

Lemma skipn_nth_error {A : Type} (l : list A) (a : nat) (x : A) :
  nth_error l a = Some x -> skipn a l = x :: skipn (S a) l.
Proof.
  revert l. induction a as [| a IH]; intros [| y l] H; try discriminate.
  - injection H as ->. reflexivity.
  - cbn [nth_error] in H. change (skipn (S a) (y :: l)) with (skipn a l).
    rewrite (IH l H). reflexivity.
Qed.

(** The index loop of a trend window reads the posts [a .. a+n-1]. *)
Lemma window_seq (posts : list Post) (n a : nat) :
  (a + n <= length posts)%nat ->
  window (map likes_of posts) (map comments_of posts) (seq a n)
  = Return (map engagement_of (firstn n (skipn a posts))).
Proof.
  revert a. induction n as [| n IH]; intros a Hle; [reflexivity |].
  destruct (nth_error posts a) as [p |] eqn:Hp.
  2:{ apply nth_error_None in Hp. lia. }
  unfold window in *. cbn [seq mapM].
  unfold index at 1 2. rewrite !nth_error_map, Hp. cbn [option_map bind].
  rewrite IH by lia. cbn [bind].
  rewrite (skipn_nth_error _ _ Hp). reflexivity.
Qed.

Lemma analyze_engagement_nonempty (posts : list Post) (followers : Z) :
  posts <> [] ->
  let n := Nat.min 3 (length posts) in
  let avg_l := average (map inject_Z (map likes_of posts)) in
  let avg_c := average (map inject_Z (map comments_of posts)) in
  let recent := average (map engagement_of (firstn n posts)) in
  let older := average (map engagement_of (skipn (length posts - n) posts)) in
  _analyze_engagement posts followers =
    Return (EngagementReport {|
      avg_likes := round_half_even avg_l;
      avg_comments := round_half_even avg_c;
      engagement_rate :=
        round_ndigits (if (0 <? followers)%Z
                       then (avg_l + avg_c) / inject_Z followers * 100
                       else 0) 2;
      engagement_trend :=
        if Qgtb recent older then "Increasing"%string
        else if Qltb recent older then "Decreasing"%string
        else "Stable"%string |}).
Proof.
  intros Hne n avg_l avg_c recent older.
  assert (Hlen : (0 < length posts)%nat)
    by (destruct posts; [congruence | cbn; lia]).
  unfold _analyze_engagement.
  rewrite (is_empty_false Hne).
  rewrite !is_empty_false by (now apply map_nonempty).
  rewrite !mean_nonempty by (now repeat apply map_nonempty).
  cbn [bind].
  assert (Hrate :
    (if (0 <? followers)%Z
     then ratio <- pydiv (avg_l + avg_c) (inject_Z followers) ;;
          Return (ratio * 100)%Q
     else Return 0%Q)
    = Return (if (0 <? followers)%Z
              then (avg_l + avg_c) / inject_Z followers * 100
              else 0)%Q).
  { destruct (0 <? followers)%Z eqn:Hf; [| reflexivity].
    apply Z.ltb_lt in Hf. rewrite pydiv_nonzero; [reflexivity |].
    unfold Qeq. cbn. lia. }
  fold avg_l avg_c. rewrite Hrate. cbn [bind].
  unfold range.
  replace (Nat.min 3 (length posts) - 0)%nat with n by (unfold n; lia).
  rewrite window_seq by (unfold n; lia). cbn [bind skipn].
  rewrite mean_nonempty.
  2:{ apply map_nonempty. destruct posts; [congruence |].
      unfold n. cbn. discriminate. }
  cbn [bind].
  replace (Nat.max 0 (length posts - 3)) with (length posts - n)%nat
    by (unfold n; lia).
  replace (length posts - (length posts - n))%nat with n by (unfold n; lia).
  rewrite window_seq by (unfold n; lia). cbn [bind].
  rewrite firstn_all2 by (rewrite length_skipn; unfold n; lia).
  rewrite mean_nonempty.
  2:{ apply map_nonempty. intros Hnil.
      apply (f_equal (@length Post)) in Hnil.
      rewrite length_skipn in Hnil. cbn [length] in Hnil. lia. }
  reflexivity.
Qed.

(** C8: the trend compares the mean of likes+comments over the first
    min(3, N) posts ("recent") with the mean over the last min(3, N) posts
    ("older"): Increasing when recent is greater, Decreasing when smaller,
    Stable when equal. One post with 100 likes and 10 comments on a profile
    of 10000 followers gives avg_likes 100, avg_comments 10, engagement_rate
    1.10 and trend Stable. *)
Theorem engagement_trend_windows :
  (forall (posts : list Post) (followers : Z),
     posts <> [] ->
     let n := Nat.min 3 (length posts) in
     let recent := average (map engagement_of (firstn n posts)) in
     let older :=
       average (map engagement_of (skipn (length posts - n) posts)) in
     exists m,
       _analyze_engagement posts followers = Return (EngagementReport m) /\
       (older < recent -> engagement_trend m = "Increasing"%string) /\
       (recent < older -> engagement_trend m = "Decreasing"%string) /\
       (recent == older -> engagement_trend m = "Stable"%string)) /\
  (exists m,
     _analyze_engagement [counted_post 100 10] 10000
       = Return (EngagementReport m) /\
     avg_likes m = 100%Z /\ avg_comments m = 10%Z /\
     engagement_rate m == 11 # 10 /\
     engagement_trend m = "Stable"%string).
Proof.
  split.
  - intros posts followers Hne n recent older.
    eexists. split; [apply (analyze_engagement_nonempty followers Hne) |].
    cbn [engagement_trend]. fold n. fold recent older.
    destruct (Qgtb_spec recent older) as [Hgt | Hgt].
    + repeat split; intros; try reflexivity; exfalso; lra.
    + destruct (Qltb recent older) eqn:Hlt.
      * apply Qltb_true in Hlt.
        repeat split; intros; try reflexivity; exfalso; lra.
      * apply Qltb_false in Hlt.
        repeat split; intros; try reflexivity; exfalso; lra.
  - eexists. split; [reflexivity |]. repeat split; reflexivity.
Qed.

Lemma engagement_trend_windows_witness :
  exists m,
    _analyze_engagement
      [counted_post 9 1; counted_post 5 0; counted_post 1 1; counted_post 0 0] 0
      = Return (EngagementReport m) /\
    engagement_trend m = "Increasing"%string.
Proof.
  destruct (proj1 engagement_trend_windows
              [counted_post 9 1; counted_post 5 0; counted_post 1 1;
               counted_post 0 0] 0%Z ltac:(discriminate))
    as (m & Hm & Hinc & _).
  exists m. split; [exact Hm | apply Hinc; reflexivity].
Defined.

Lemma analyze_engagement_returns (posts : list Post) (followers_ : Z) :
  returns (_analyze_engagement posts followers_).
Proof.
  destruct posts as [| p ps]; [eexists; reflexivity |].
  eexists. apply analyze_engagement_nonempty. discriminate.
Qed.

(** C4, as the code has it: the aggregator never raises (no division by
    zero); on an empty post list it returns the error object, which carries
    no averages; on a non-empty list with a follower count of zero or less
    the engagement rate is 0 whatever the likes and comments are. *)
Theorem engagement_guards (posts : list Post) (followers_ : Z) :
  returns (_analyze_engagement posts followers_) /\
  (posts = [] ->
   _analyze_engagement posts followers_
     = Return (EngagementError "No posts to analyze")) /\
  (posts <> [] -> (followers_ <= 0)%Z ->
   exists m,
     _analyze_engagement posts followers_ = Return (EngagementReport m) /\
     engagement_rate m == 0).
Proof.
  split; [| split].
  - apply analyze_engagement_returns.
  - intros ->. reflexivity.
  - intros Hne Hf. eexists.
    split; [apply (analyze_engagement_nonempty followers_ Hne) |].
    cbn [engagement_rate].
    replace (0 <? followers_)%Z with false by (symmetry; apply Z.ltb_ge; lia).
    reflexivity.
Qed.

(** C4 fails where it says that an empty post list yields averages of 0:
    the result is the error object and holds no averages at all. *)
Lemma engagement_empty_has_no_averages :
  _analyze_engagement [] 0 = Return (EngagementError "No posts to analyze") /\
  ~ (exists m,
       _analyze_engagement [] 0 = Return (EngagementReport m) /\
       avg_likes m = 0%Z /\ avg_comments m = 0%Z).
Proof.
  split; [reflexivity |]. intros (m & H & _). discriminate.
Qed.

(** ** Counting dictionaries, the mode and the stable sort *)

Section StronglySortedFacts.

Variable A : Type.
Variable R : A -> A -> Prop.

Lemma StronglySorted_snoc (l : list A) (x : A) :
  StronglySorted R l -> Forall (fun a => R a x) l ->
  StronglySorted R (l ++ [x]).
Proof.
  induction 1 as [| a l Hl IH Ha]; intros Hx; cbn.
  - constructor; constructor.
  - inversion Hx; subst. constructor; [now apply IH |].
    apply Forall_app. split; [assumption | now constructor].
Qed.

Lemma StronglySorted_weaken (R' : A -> A -> Prop) (l : list A) :
  (forall a b, In a l -> In b l -> R a b -> R' a b) ->
  StronglySorted R l -> StronglySorted R' l.
Proof.
  intros Himp Hs. induction Hs as [| a l Hl IH Ha]; constructor.
  - apply IH. intros x y Hx Hy. apply Himp; now right.
  - rewrite Forall_forall in *. intros x Hx.
    apply Himp; [now left | now right | now apply Ha].
Qed.

Lemma StronglySorted_split (l1 l2 : list A) (x : A) :
  StronglySorted R (l1 ++ x :: l2) ->
  Forall (fun a => R a x) l1 /\ Forall (R x) l2.
Proof.
  induction l1 as [| a l1 IH]; cbn; intros Hs.
  - apply StronglySorted_inv in Hs. split; [constructor | apply Hs].
  - apply StronglySorted_inv in Hs. destruct Hs as [Hs Ha].
    destruct (IH Hs) as [H1 H2]. split; [| assumption].
    constructor; [| assumption].
    rewrite Forall_forall in Ha. apply Ha. apply in_or_app. right. now left.
Qed.

Lemma StronglySorted_NoDup (l : list A) :
  (forall a, ~ R a a) -> StronglySorted R l -> NoDup l.
Proof.
  intros Hirr. induction 1 as [| a l Hl IH Ha]; constructor; [| assumption].
  intros Hin. rewrite Forall_forall in Ha. exact (Hirr a (Ha a Hin)).
Qed.

End StronglySortedFacts.

Section DictFacts.

Variable K : Type.
Variable eqb : K -> K -> bool.
Hypothesis eqb_spec : forall x y, reflect (x = y) (eqb x y).

Lemma eqb_refl_true (x : K) : eqb x x = true.
Proof. destruct (eqb_spec x x); congruence. Qed.

Lemma eqb_neq_false (x y : K) : x <> y -> eqb x y = false.
Proof. destruct (eqb_spec x y); congruence. Qed.

Lemma dict_get_set (d : dict K) (k x : K) (v default : nat) :
  dict_get eqb (dict_set eqb d k v) x default
  = if eqb k x then v else dict_get eqb d x default.
Proof.
  induction d as [| [k' v'] d IH]; cbn; [reflexivity |].
  destruct (eqb_spec k' k) as [-> | Hk]; cbn.
  - destruct (eqb k x); reflexivity.
  - destruct (eqb_spec k' x) as [-> | Hx].
    + rewrite eqb_neq_false by congruence. reflexivity.
    + apply IH.
Qed.

Lemma keys_set_old (d : dict K) (k : K) (v : nat) :
  In k (keys d) -> keys (dict_set eqb d k v) = keys d.
Proof.
  unfold keys. induction d as [| [k' v'] d IH]; cbn; [contradiction |].
  intros Hin. destruct (eqb_spec k' k) as [-> | Hk]; cbn; [reflexivity |].
  f_equal. apply IH. destruct Hin; [contradiction | assumption].
Qed.

Lemma keys_set_new (d : dict K) (k : K) (v : nat) :
  ~ In k (keys d) -> keys (dict_set eqb d k v) = keys d ++ [k].
Proof.
  unfold keys. induction d as [| [k' v'] d IH]; cbn; [reflexivity |].
  intros Hin. destruct (eqb_spec k' k) as [-> | Hk]; cbn.
  - exfalso. apply Hin. now left.
  - f_equal. apply IH. intros H. apply Hin. now right.
Qed.

Lemma In_dec_eqb (x : K) (l : list K) : {In x l} + {~ In x l}.
Proof.
  apply in_dec. intros a b. destruct (eqb_spec a b); [now left | now right].
Qed.

Lemma occurrences_snoc (x y : K) (l : list K) :
  occurrences eqb x (l ++ [y])
  = (occurrences eqb x l + if eqb y x then 1 else 0)%nat.
Proof.
  unfold occurrences. rewrite filter_app, length_app. cbn.
  destruct (eqb y x); reflexivity.
Qed.

Lemma position_lt (x : K) (l : list K) :
  In x l -> (position eqb x l < length l)%nat.
Proof.
  induction l as [| y l IH]; cbn; [contradiction |].
  intros Hin. destruct (eqb_spec y x) as [-> | Hy]; [lia |].
  destruct Hin; [contradiction |]. apply IH in H. lia.
Qed.

Lemma position_app_in (x : K) (l l' : list K) :
  In x l -> position eqb x (l ++ l') = position eqb x l.
Proof.
  induction l as [| y l IH]; cbn; [contradiction |].
  intros Hin. destruct (eqb_spec y x) as [-> | Hy]; [reflexivity |].
  destruct Hin; [contradiction |]. now rewrite IH.
Qed.

Lemma position_app_new (x : K) (l l' : list K) :
  ~ In x l ->
  position eqb x (l ++ l') = (length l + position eqb x l')%nat.
Proof.
  induction l as [| y l IH]; cbn; [reflexivity |].
  intros Hin. destruct (eqb_spec y x) as [-> | Hy].
  - exfalso. apply Hin. now left.
  - rewrite IH; [reflexivity |]. intros H. apply Hin. now right.
Qed.

(** What the counting loop has built after reading [data]: every count is
    the number of occurrences, and the keys are the distinct elements in the
    order in which they were first seen. *)
Lemma count_all_spec (data : list K) :
  (forall x, dict_get eqb (count_all eqb data) x 0 = occurrences eqb x data) /\
  (forall x, In x (keys (count_all eqb data)) <-> In x data) /\
  StronglySorted (fun a b => (position eqb a data < position eqb b data)%nat)
    (keys (count_all eqb data)).
Proof.
  induction data as [| y data IH] using rev_ind.
  - repeat split; try (cbn; tauto). constructor.
  - destruct IH as (Hget & Hin & Hsorted).
    unfold count_all in *. rewrite fold_left_app. cbn [fold_left].
    set (d := fold_left (count_step eqb) data []) in *.
    unfold count_step.
    split; [| split].
    + intros x. rewrite dict_get_set, occurrences_snoc, !Hget.
      destruct (eqb y x) eqn:E; [| lia].
      destruct (eqb_spec y x); [subst; reflexivity | discriminate].
    + intros x. rewrite in_app_iff. cbn [In].
      destruct (In_dec_eqb y (keys d)) as [Hy | Hy].
      * rewrite keys_set_old by assumption. rewrite Hin.
        split; [tauto |]. intros [H | [<- | []]]; [assumption |].
        now apply Hin.
      * rewrite keys_set_new by assumption. rewrite in_app_iff, Hin.
        cbn [In]. tauto.
    + destruct (In_dec_eqb y (keys d)) as [Hy | Hy].
      * rewrite keys_set_old by assumption.
        apply StronglySorted_weaken with (2 := Hsorted).
        intros a b Ha Hb. apply Hin in Ha, Hb.
        now rewrite !position_app_in by assumption.
      * rewrite keys_set_new by assumption.
        apply StronglySorted_snoc.
        -- apply StronglySorted_weaken with (2 := Hsorted).
           intros a b Ha Hb. apply Hin in Ha, Hb.
           now rewrite !position_app_in by assumption.
        -- apply Forall_forall. intros a Ha. apply Hin in Ha.
           rewrite position_app_in by assumption.
           rewrite position_app_new by (now rewrite <- Hin).
           pose proof (position_lt _ _ Ha). lia.
Qed.

(** An entry of the counting dictionary holds the count of its key. *)
Lemma count_all_entry (data : list K) (k : K) (v : nat) :
  In (k, v) (count_all eqb data) -> v = occurrences eqb k data /\ In k data.
Proof.
  destruct (count_all_spec data) as (Hget & Hin & Hsorted).
  intros H. split.
  2:{ apply Hin. unfold keys. now apply (in_map fst) in H. }
  rewrite <- Hget. clear Hget Hin.
  apply StronglySorted_NoDup in Hsorted; [| intros a; lia].
  revert Hsorted H. unfold keys.
  induction (count_all eqb data) as [| [k' v'] d IH]; cbn; [contradiction |].
  intros Hnd [Heq | Hin]; inversion Hnd; subst.
  - injection Heq as -> ->. now rewrite eqb_refl_true.
  - destruct (eqb_spec k' k) as [-> | Hk]; [| now apply IH].
    exfalso. apply H1. now apply (in_map fst) in Hin.
Qed.

(** [max] with a key returns the first maximal item. *)
Lemma max_by_count_first (best : K * nat) (items : list (K * nat)) :
  exists before after,
    best :: items = before ++ max_by_count best items :: after /\
    Forall (fun it => (snd it < snd (max_by_count best items))%nat) before /\
    Forall (fun it => (snd it <= snd (max_by_count best items))%nat) after.
Proof.
  revert best.
  induction items as [| item rest IH]; intros best; cbn [max_by_count].
  - exists [], []. repeat split; constructor.
  - destruct (Nat.ltb_spec (snd best) (snd item)) as [Hlt | Hge].
    + destruct (IH item) as (before & after & Heq & Hb & Ha).
      exists (best :: before), after. rewrite Heq. repeat split; try assumption.
      constructor; [| assumption].
      assert (Hitem : (snd item <= snd (max_by_count item rest))%nat).
      { destruct before as [| b before]; cbn in Heq.
        - injection Heq as Heq _. rewrite <- Heq. lia.
        - injection Heq as <- _. inversion Hb; subst. lia. }
      lia.
    + destruct (IH best) as (before & after & Heq & Hb & Ha).
      destruct before as [| b before]; cbn in Heq.
      * injection Heq as Hbest Hrest.
        exists [], (item :: after). rewrite <- Hbest in Ha |- *. rewrite Hrest.
        repeat split; [constructor |].
        constructor; [lia | assumption].
      * injection Heq as Hbest Hrest.
        apply Forall_cons_iff in Hb. destruct Hb as [Hb1 Hb2].
        rewrite <- Hbest in Hb1.
        exists (best :: item :: before), after.
        split; [cbn [app]; do 2 f_equal; exact Hrest | split; [| assumption]].
        constructor; [assumption |]. constructor; [lia | assumption].
Qed.

(** [statistics.mode] returns on non-empty data, and what it returns is a
    most frequent element, the first seen among the most frequent ones. *)
Lemma mode_spec (data : list K) :
  data <> [] ->
  exists m,
    mode eqb data = Return m /\
    In m data /\
    (forall x, In x data ->
       (occurrences eqb x data <= occurrences eqb m data)%nat /\
       (occurrences eqb x data = occurrences eqb m data ->
        (position eqb m data <= position eqb x data)%nat)).
Proof.
  intros Hne.
  destruct (count_all_spec data) as (Hget & Hin & Hsorted).
  pose proof (@count_all_entry data) as Hentry.
  unfold mode, most_common_1.
  destruct (count_all eqb data) as [| item rest] eqn:Hd.
  { destruct data as [| y data]; [congruence |].
    exfalso. apply (proj2 (Hin y)). now left. }
  destruct (max_by_count_first item rest) as (before & after & Heq & Hb & Ha).
  set (top := max_by_count item rest) in *.
  exists (fst top). split; [reflexivity |].
  assert (Htop : In top (item :: rest)).
  { rewrite Heq. apply in_or_app. right. now left. }
  destruct top as [m v] eqn:Etop. cbn [fst snd] in *.
  destruct (Hentry m v Htop) as [Hv Hm]. split; [assumption |].
  intros x Hx. apply Hin in Hx. unfold keys in Hx.
  apply in_map_iff in Hx. destruct Hx as ([x' c] & Hfst & Hx).
  cbn in Hfst. subst x'.
  destruct (Hentry x c Hx) as [Hc _]. rewrite <- Hc, <- Hv.
  unfold keys in Hsorted. rewrite Heq, map_app in Hsorted. cbn [map] in Hsorted.
  apply StronglySorted_split in Hsorted. destruct Hsorted as [_ Hafter].
  rewrite Heq in Hx. apply in_app_or in Hx. destruct Hx as [Hx | [Hx | Hx]].
  - rewrite Forall_forall in Hb. apply Hb in Hx. cbn in Hx. lia.
  - injection Hx as -> ->. lia.
  - split.
    + rewrite Forall_forall in Ha. apply Ha in Hx. cbn in Hx. lia.
    + intros _. rewrite Forall_forall in Hafter.
      apply (in_map fst) in Hx. apply Hafter in Hx. cbn in Hx. lia.
Qed.

(** *** The stable descending sort *)

Variable key : K -> nat.

Lemma insert_desc_In (x y : K) (l : list K) :
  In y (insert_desc key x l) <-> y = x \/ In y l.
Proof.
  induction l as [| z l IH]; cbn [insert_desc In]; [intuition congruence |].
  destruct (key x <? key z)%nat; cbn [In]; [rewrite IH |];
    intuition congruence.
Qed.

Lemma insert_desc_length (x : K) (l : list K) :
  length (insert_desc key x l) = S (length l).
Proof.
  induction l as [| z l IH]; cbn [insert_desc length]; [reflexivity |].
  destruct (key x <? key z)%nat; cbn [length]; [now rewrite IH | reflexivity].
Qed.

Lemma sorted_reverse_cons (x : K) (l : list K) :
  sorted_reverse key (x :: l) = insert_desc key x (sorted_reverse key l).
Proof. reflexivity. Qed.

Lemma sorted_reverse_In (y : K) (l : list K) :
  In y (sorted_reverse key l) <-> In y l.
Proof.
  induction l as [| x l IH]; [cbn; tauto |].
  rewrite sorted_reverse_cons, insert_desc_In, IH. cbn [In].
  intuition congruence.
Qed.

Lemma sorted_reverse_length (l : list K) :
  length (sorted_reverse key l) = length l.
Proof.
  induction l as [| x l IH]; [reflexivity |].
  rewrite sorted_reverse_cons, insert_desc_length, IH. reflexivity.
Qed.

Lemma insert_desc_sorted (before : K -> K -> Prop) (x : K) (l : list K) :
  StronglySorted (ranked_before key before) l ->
  Forall (before x) l ->
  StronglySorted (ranked_before key before) (insert_desc key x l).
Proof.
  induction 1 as [| z l Hl IH Hz]; intros Hx; cbn [insert_desc].
  - constructor; constructor.
  - inversion Hx as [| ? ? Hxz Hxl]; subst.
    destruct (Nat.ltb_spec (key x) (key z)) as [Hlt | Hge].
    + constructor; [now apply IH |].
      apply Forall_forall. intros y Hy. apply insert_desc_In in Hy.
      destruct Hy as [-> | Hy]; [now left |].
      rewrite Forall_forall in Hz. now apply Hz.
    + constructor; [now constructor |].
      apply Forall_forall. intros y [<- | Hy].
      * unfold ranked_before. destruct (Nat.eq_dec (key x) (key z)); [| lia].
        right. split; assumption.
      * rewrite Forall_forall in Hz, Hxl.
        pose proof (Hz y Hy) as Hzy. pose proof (Hxl y Hy) as Hxy.
        unfold ranked_before in *.
        destruct (Nat.eq_dec (key x) (key y)); [right; now split | left; lia].
Qed.

Lemma sorted_reverse_sorted (before : K -> K -> Prop) (l : list K) :
  StronglySorted before l ->
  StronglySorted (ranked_before key before) (sorted_reverse key l).
Proof.
  induction 1 as [| x l Hl IH Hx]; [constructor |].
  rewrite sorted_reverse_cons. apply insert_desc_sorted; [assumption |].
  apply Forall_forall. intros y Hy.
  apply (proj1 (sorted_reverse_In y l)) in Hy.
  rewrite Forall_forall in Hx. now apply Hx.
Qed.

End DictFacts.

(** ** Dominant colours *)

(** C6: the dominant colours are the first five of a ranking of the distinct
    accumulated colours in which a colour with more occurrences comes first
    and, among colours with equally many occurrences, the one seen first
    comes first. Such a ranking is unique, so the result is deterministic.
    For the accumulated sequence [A,A,B,C,C,C] it is [C,A,B]. *)
Theorem dominant_colors_ranking :
  (forall (E : Extractor) (posts : list Post),
     let all_colors := fst (brand_features E posts) in
     let count c := occurrences String.eqb c all_colors in
     let first_seen c := position String.eqb c all_colors in
     exists ranking,
       dominant_colors (_analyze_brand_consistency E posts) = firstn 5 ranking /\
       (forall c, In c ranking <-> In c all_colors) /\
       NoDup ranking /\
       StronglySorted
         (fun a b => (count b < count a)%nat \/
                     (count a = count b /\ (first_seen a < first_seen b)%nat))
         ranking /\
       (length (dominant_colors (_analyze_brand_consistency E posts)) <= 5)%nat)
  /\
  (forall A B C : string,
     A <> B -> A <> C -> B <> C ->
     rank_colors [A; A; B; C; C; C] = [C; A; B]).
Proof.
  split.
  - intros E posts all_colors count first_seen.
    destruct (brand_analysis_fields E posts) as (_ & Hdom & _).
    fold all_colors in Hdom. rewrite Hdom. unfold rank_colors.
    destruct (@count_all_spec _ _ String.eqb_spec all_colors)
      as (Hget & Hin & Hsorted).
    set (d := count_all String.eqb all_colors) in *.
    set (key := fun x => dict_get String.eqb d x 0).
    assert (Hrank :
      StronglySorted
        (fun a b => (count b < count a)%nat \/
                    (count a = count b /\ (first_seen a < first_seen b)%nat))
        (sorted_reverse key (keys d))).
    { apply StronglySorted_weaken
        with (2 := sorted_reverse_sorted key Hsorted).
      intros a b _ _. unfold ranked_before, key. rewrite !Hget. tauto. }
    exists (sorted_reverse key (keys d)). repeat split.
    + intros Hc. apply Hin. now apply sorted_reverse_In in Hc.
    + intros Hc. apply sorted_reverse_In. now apply Hin.
    + apply StronglySorted_NoDup with (2 := Hrank). intros a. lia.
    + exact Hrank.
    + rewrite length_firstn. lia.
  - intros A B C HAB HAC HBC.
    assert (EAB : String.eqb A B = false) by now apply String.eqb_neq.
    assert (EBA : String.eqb B A = false)
      by (apply String.eqb_neq; congruence).
    assert (EAC : String.eqb A C = false) by now apply String.eqb_neq.
    assert (ECA : String.eqb C A = false)
      by (apply String.eqb_neq; congruence).
    assert (EBC : String.eqb B C = false) by now apply String.eqb_neq.
    assert (ECB : String.eqb C B = false)
      by (apply String.eqb_neq; congruence).
    unfold rank_colors, count_all, count_step, keys, sorted_reverse.
    repeat (progress (cbn [fold_left fold_right dict_get dict_set map fst
                             insert_desc firstn Nat.add Nat.ltb Nat.leb];
                      rewrite ?String.eqb_refl, ?EAB, ?EBA, ?EAC, ?ECA,
                        ?EBC, ?ECB)).
    reflexivity.
Qed.

Lemma dominant_colors_ranking_witness :
  rank_colors ["#1a2b3c"; "#1a2b3c"; "#ffffff"; "#808080"; "#808080";
               "#808080"]%string
  = ["#808080"; "#1a2b3c"; "#ffffff"]%string.
Proof.
  apply (proj2 dominant_colors_ranking); discriminate.
Defined.

(** ** Dates *)

Lemma datetime_sub_same (a b : datetime) :
  aware a = aware b -> datetime_sub a b = Return (instant a - instant b)%Z.
Proof.
  unfold aware, datetime_sub, instant.
  destruct (utcoffset a), (utcoffset b); cbn [get]; intros H;
    try discriminate; f_equal; lia.
Qed.

Lemma comparable_same (l : list datetime) (a b : datetime) :
  comparable l = true -> In a l -> In b l -> aware a = aware b.
Proof.
  unfold comparable. intros H Ha Hb. apply orb_true_iff in H.
  destruct H as [H | H]; rewrite forallb_forall in H;
    pose proof (H a Ha) as H1; pose proof (H b Hb) as H2.
  - congruence.
  - apply negb_true_iff in H1, H2. congruence.
Qed.

(** On comparable values [max] returns, and returns a latest value. *)
Lemma max_from_spec (items : list datetime) (best : datetime) :
  (forall x, In x items -> aware x = aware best) ->
  exists m,
    max_from best items = Return m /\
    In m (best :: items) /\
    (forall x, In x (best :: items) -> (instant x <= instant m)%Z).
Proof.
  revert best. induction items as [| item rest IH]; intros best Hsame.
  - exists best. repeat split; [now left |].
    intros x [<- | []]. lia.
  - cbn [max_from]. unfold datetime_gt.
    rewrite datetime_sub_same by (apply Hsame; now left). cbn [bind].
    set (next := if (0 <? instant item - instant best)%Z then item else best).
    assert (Hnext : In next [item; best] /\
                    (instant item <= instant next)%Z /\
                    (instant best <= instant next)%Z).
    { unfold next.
      destruct (Z.ltb_spec 0 (instant item - instant best));
        (split; [cbn; tauto | lia]). }
    destruct Hnext as (Hin & Hi & Hb).
    destruct (IH next) as (m & Hm & Hmin & Hmax).
    { intros x Hx. transitivity (aware best); [apply Hsame; now right |].
      destruct Hin as [<- | [<- | []]];
        [symmetry; apply Hsame; now left | reflexivity]. }
    exists m. split; [exact Hm | split].
    + destruct Hmin as [<- | Hmin]; [| right; now right].
      destruct Hin as [<- | [<- | []]]; [right; now left | now left].
    + pose proof (Hmax next (or_introl eq_refl)) as Hn.
      intros x [<- | [<- | Hx]]; [lia | lia |].
      apply Hmax. now right.
Qed.

Lemma min_from_spec (items : list datetime) (best : datetime) :
  (forall x, In x items -> aware x = aware best) ->
  exists m,
    min_from best items = Return m /\
    In m (best :: items) /\
    (forall x, In x (best :: items) -> (instant m <= instant x)%Z).
Proof.
  revert best. induction items as [| item rest IH]; intros best Hsame.
  - exists best. repeat split; [now left |].
    intros x [<- | []]. lia.
  - cbn [min_from]. unfold datetime_lt.
    rewrite datetime_sub_same by (apply Hsame; now left). cbn [bind].
    set (next := if (instant item - instant best <? 0)%Z then item else best).
    assert (Hnext : In next [item; best] /\
                    (instant next <= instant item)%Z /\
                    (instant next <= instant best)%Z).
    { unfold next.
      destruct (Z.ltb_spec (instant item - instant best) 0);
        (split; [cbn; tauto | lia]). }
    destruct Hnext as (Hin & Hi & Hb).
    destruct (IH next) as (m & Hm & Hmin & Hmax).
    { intros x Hx. transitivity (aware best); [apply Hsame; now right |].
      destruct Hin as [<- | [<- | []]];
        [symmetry; apply Hsame; now left | reflexivity]. }
    exists m. split; [exact Hm | split].
    + destruct Hmin as [<- | Hmin]; [| right; now right].
      destruct Hin as [<- | [<- | []]]; [right; now left | now left].
    + pose proof (Hmax next (or_introl eq_refl)) as Hn.
      intros x [<- | [<- | Hx]]; [lia | lia |].
      apply Hmax. now right.
Qed.

Lemma py_max_ge_1 (a : Q) : 1 <= py_max a 1.
Proof.
  unfold py_max. destruct (Qgtb_spec 1 a) as [H | H]; lra.
Qed.

Lemma posts_per_week_returns (post_count : nat) (date_range : Z) :
  posts_per_week post_count date_range
  = Return (inject_Z (Z.of_nat post_count)
            / py_max (inject_Z date_range / 7) 1).
Proof.
  unfold posts_per_week. apply pydiv_nonzero.
  pose proof (py_max_ge_1 (inject_Z date_range / 7)). lra.
Qed.

Lemma consistency_cases (frequency : Q) :
  (consistency_of frequency = "Good"%string
   <-> 1 <= frequency /\ frequency <= 5) /\
  (consistency_of frequency = "Low"%string <-> frequency < 1) /\
  (consistency_of frequency = "High"%string <-> 5 < frequency).
Proof.
  unfold consistency_of.
  destruct (Qle_bool 1 frequency) eqn:H1;
    destruct (Qle_bool frequency 5) eqn:H5; cbn [andb];
    try apply Qle_bool_iff in H1; try apply Qle_bool_iff in H5;
    try (apply not_true_iff_false in H1; rewrite Qle_bool_iff in H1);
    try (apply not_true_iff_false in H5; rewrite Qle_bool_iff in H5);
    destruct (Qltb frequency 1) eqn:Hlt;
    try apply Qltb_true in Hlt; try apply Qltb_false in Hlt;
    repeat split; intros; try discriminate; try lra.
Qed.

(** *** Parsed hours *)

Lemma digit_value_nonneg (c : ascii) (d : Z) :
  digit_value c = Some d -> (0 <= d)%Z.
Proof.
  unfold digit_value.
  destruct ((48 <=? nat_of_ascii c) && (nat_of_ascii c <=? 57))%nat;
    [| discriminate].
  intros H. injection H as <-. apply Nat2Z.is_nonneg.
Qed.

Lemma take_digits_nonneg (n : nat) (acc : Z) (cs rest : list ascii) (v : Z) :
  take_digits n acc cs = Return (v, rest) -> (0 <= acc)%Z -> (0 <= v)%Z.
Proof.
  revert acc cs.
  induction n as [| n IH]; intros acc cs H Hacc; cbn [take_digits] in H.
  - injection H as <- _. assumption.
  - destruct cs as [| c cs]; [discriminate |].
    destruct (digit_value c) as [d |] eqn:Hd; [| discriminate].
    apply digit_value_nonneg in Hd. apply (IH _ _ H). lia.
Qed.

(** One step through a parser: the computation bound first has returned. *)
Ltac bind_inv H :=
  match type of H with
  | bind ?m _ = Return _ =>
      let E := fresh "E" in
      destruct m as [[] | ] eqn:E; cbn [bind] in H; [| discriminate H]
  | bind ?m _ = Return _ =>
      let E := fresh "E" in
      destruct m as [ | ] eqn:E; cbn [bind] in H; [| discriminate H]
  end.

Lemma parse_hh_mm_ss_ff_hour (cs rest : list ascii) (hh mm ss us : Z) :
  parse_hh_mm_ss_ff cs = Return (hh, mm, ss, us, rest) -> (0 <= hh)%Z.
Proof.
  unfold parse_hh_mm_ss_ff. intros H. bind_inv H.
  match goal with
  | E : take_digits 2 0 cs = Return _ |- _ =>
      apply take_digits_nonneg in E; [| lia]
  end.
  repeat match type of H with
         | match starts_with ?c ?l with _ => _ end = Return _ =>
             destruct (starts_with c l);
             [bind_inv H | injection H as <-; assumption]
         end.
  injection H as <-. assumption.
Qed.

Lemma make_datetime_hour (y m d hh mm ss us : Z) (tz : option Z)
    (dt : datetime) :
  make_datetime y m d hh mm ss us tz = Return dt ->
  hour dt = hh /\ (hh < 24)%Z.
Proof.
  unfold make_datetime.
  destruct ((1 <=? y) && (y <=? 9999) && (1 <=? m) && (m <=? 12) &&
            (1 <=? d) && (d <=? days_in_month y m) &&
            (hh <? 24) && (mm <? 60) && (ss <? 60))%Z eqn:Hrange;
    [| discriminate].
  intros H. injection H as <-. cbn [hour]. split; [reflexivity |].
  repeat (apply andb_true_iff in Hrange; destruct Hrange as [Hrange ?]).
  lia.
Qed.

(** A parsed timestamp has an hour of the day between 0 and 23. *)
Lemma fromisoformat_hour (s : string) (dt : datetime) :
  fromisoformat s = Return dt -> (0 <= hour dt < 24)%Z.
Proof.
  unfold fromisoformat. intros H.
  do 5 bind_inv H.
  match type of H with
  | match ?l with _ => _ end = Return _ => destruct l as [| sep cs]
  end.
  - apply make_datetime_hour in H. lia.
  - destruct (Ascii.eqb sep "T" || Ascii.eqb sep " "); [| discriminate].
    bind_inv H.
    match type of H with
    | match ?p with _ => _ end = Return _ => destruct p as [[[hh mm] ss] us]
    end.
    bind_inv H.
    match goal with
    | E : parse_hh_mm_ss_ff _ = Return _ |- _ =>
        apply parse_hh_mm_ss_ff_hour in E
    end.
    apply make_datetime_hour in H. lia.
Qed.

Lemma mapM_Forall {A B : Type} (f : A -> result B) (l : list A) (l' : list B) :
  mapM f l = Return l' ->
  Forall (fun y => exists x, In x l /\ f x = Return y) l'.
Proof.
  revert l'. induction l as [| x l IH]; intros l' H; cbn [mapM] in H.
  - injection H as <-. constructor.
  - destruct (f x) as [y |] eqn:Hy; cbn [bind] in H; [| discriminate].
    destruct (mapM f l) as [ys |]; cbn [bind] in H; [| discriminate].
    injection H as <-. constructor.
    + exists x. split; [now left | assumption].
    + apply Forall_impl with (2 := IH ys eq_refl).
      intros b (a & Ha & Hb). exists a. split; [now right | assumption].
Qed.

Lemma post_dates_hours (posts : list Post) (dates : list datetime) :
  post_dates_of posts = Return dates ->
  Forall (fun h => 0 <= h < 24)%Z (map hour dates).
Proof.
  intros H. apply mapM_Forall in H. apply Forall_map.
  apply Forall_impl with (2 := H).
  intros dt (post & _ & Hp). now apply fromisoformat_hour in Hp.
Qed.

(** An hour of the day is printed with two digits. *)
Lemma format_02d_hour (h : Z) :
  (0 <= h < 24)%Z ->
  format_02d h
  = String (ascii_of_nat (48 + Z.to_nat (h / 10)))
      (String (ascii_of_nat (48 + Z.to_nat (h mod 10))) EmptyString).
Proof.
  intros Hh.
  assert (Hcases : In h [0; 1; 2; 3; 4; 5; 6; 7; 8; 9; 10; 11; 12; 13; 14; 15;
                         16; 17; 18; 19; 20; 21; 22; 23]%Z).
  { assert (h = Z.of_nat (Z.to_nat h)) as -> by lia.
    assert (Hn : (Z.to_nat h < 24)%nat) by lia.
    revert Hn. generalize (Z.to_nat h). intros n Hn.
    do 24 (destruct n as [| n]; [cbn; tauto |]). lia. }
  cbn [In] in Hcases.
  repeat (destruct Hcases as [<- | Hcases]; [reflexivity |]).
  contradiction.
Qed.

(** ** Posting patterns *)

(** With at least two timestamps, all parsed and comparable, the aggregator
    returns the three computed fields. *)
Lemma analyze_posting_patterns_dated (posts : list Post)
    (dates : list datetime) :
  post_dates_of posts = Return dates ->
  (2 <= length dates)%nat ->
  comparable dates = true ->
  exists latest earliest optimal_hour,
    In latest dates /\ In earliest dates /\
    (forall d, In d dates ->
       (instant earliest <= instant d <= instant latest)%Z) /\
    mode Z.eqb (map hour dates) = Return optimal_hour /\
    _analyze_posting_patterns posts =
      Return
        (let freq :=
           inject_Z (Z.of_nat (length posts))
           / py_max (inject_Z (timedelta_days
                                 (instant latest - instant earliest)) / 7) 1 in
         {| frequency := (format_1f freq ++ " posts/week")%string;
            optimal_time := (format_02d optimal_hour ++ ":00")%string;
            posting_consistency := consistency_of freq |}).
Proof.
  intros Hd Hlen Hcmp.
  assert (Hne : is_empty posts = false).
  { destruct posts; [| reflexivity].
    cbn in Hd. injection Hd as <-. cbn in Hlen. lia. }
  destruct dates as [| d0 rest] eqn:Edates; [cbn in Hlen; lia |].
  destruct (@max_from_spec rest d0) as (latest & Hmax & Hmaxin & Hmaxle).
  { intros x Hx. apply (@comparable_same _ _ _ Hcmp); [now right | now left]. }
  destruct (@min_from_spec rest d0) as (earliest & Hmin & Hminin & Hminle).
  { intros x Hx. apply (@comparable_same _ _ _ Hcmp); [now right | now left]. }
  destruct (@mode_spec _ _ Z.eqb_spec (map hour (d0 :: rest)))
    as (h & Hmode & _); [discriminate |].
  exists latest, earliest, h.
  split; [assumption | split; [assumption | split; [| split]]].
  - intros d Hin. split; [now apply Hminle | now apply Hmaxle].
  - exact Hmode.
  - unfold _analyze_posting_patterns. rewrite Hne, Hd. cbn [bind].
    replace (length (d0 :: rest) <? 2)%nat with false
      by (symmetry; apply Nat.ltb_ge; exact Hlen).
    cbn [datetime_max datetime_min]. rewrite Hmax, Hmin. cbn [bind].
    rewrite datetime_sub_same by (now apply (@comparable_same _ _ _ Hcmp)).
    cbn [bind]. rewrite posts_per_week_returns. cbn [bind].
    cbn [map is_empty] in *. rewrite Hmode. reflexivity.
Qed.

Lemma analyze_posting_patterns_few (posts : list Post)
    (dates : list datetime) :
  posts <> [] ->
  post_dates_of posts = Return dates ->
  (length dates < 2)%nat ->
  _analyze_posting_patterns posts =
    Return {| frequency := "Insufficient data";
              optimal_time := "Unknown";
              posting_consistency := "Unknown" |}.
Proof.
  intros Hne Hd Hlen. unfold _analyze_posting_patterns.
  rewrite (is_empty_false Hne), Hd. cbn [bind].
  apply Nat.ltb_lt in Hlen. rewrite Hlen. reflexivity.
Qed.

(** C3, as the code has it: with fewer than two timestamps on a non-empty
    post list (all of them parsed), only the frequency reads "Insufficient
    data"; the optimal time and the consistency read "Unknown". On an empty
    post list all three fields read "Unknown". *)
Theorem posting_insufficient_data :
  (forall (posts : list Post) (dates : list datetime),
     posts <> [] ->
     post_dates_of posts = Return dates ->
     (length dates < 2)%nat ->
     _analyze_posting_patterns posts =
       Return {| frequency := "Insufficient data";
                 optimal_time := "Unknown";
                 posting_consistency := "Unknown" |}) /\
  _analyze_posting_patterns [] =
    Return {| frequency := "Unknown";
              optimal_time := "Unknown";
              posting_consistency := "Unknown" |}.
Proof.
  split; [| reflexivity].
  intros posts dates. apply analyze_posting_patterns_few.
Qed.

Lemma posting_insufficient_data_witness :
  _analyze_posting_patterns
    [bare_post; timed_post "2025-08-08T10:00:00Z"] =
    Return {| frequency := "Insufficient data";
              optimal_time := "Unknown";
              posting_consistency := "Unknown" |}.
Proof.
  apply (proj1 posting_insufficient_data
           [bare_post; timed_post "2025-08-08T10:00:00Z"]
           [{| year := 2025; month := 8; day := 8; hour := 10; minute := 0;
               second := 0; microsecond := 0; utcoffset := Some 0%Z |}]).
  - discriminate.
  - reflexivity.
  - cbn. lia.
Defined.

(** C3 fails where it says that every field reads "Insufficient data": for
    one post without a timestamp only the frequency does. *)
Lemma insufficient_data_only_in_frequency :
  post_dates_of [bare_post] = Return [] /\
  exists r,
    _analyze_posting_patterns [bare_post] = Return r /\
    frequency r = "Insufficient data"%string /\
    optimal_time r <> "Insufficient data"%string /\
    posting_consistency r <> "Insufficient data"%string.
Proof.
  split; [reflexivity |].
  eexists. split; [reflexivity |].
  split; [reflexivity | split; discriminate].
Qed.

(** C5, as the code has it: with at least two parsed timestamps the optimal
    time is the most frequent hour of the day, a tie going to the hour that
    occurs first in post order, printed as two digits followed by ":00". *)
Theorem optimal_time_first_mode (posts : list Post) (dates : list datetime) :
  post_dates_of posts = Return dates ->
  (2 <= length dates)%nat ->
  comparable dates = true ->
  let hours := map hour dates in
  exists r h,
    _analyze_posting_patterns posts = Return r /\
    In h hours /\
    (forall x, In x hours ->
       (occurrences Z.eqb x hours <= occurrences Z.eqb h hours)%nat /\
       (occurrences Z.eqb x hours = occurrences Z.eqb h hours ->
        (position Z.eqb h hours <= position Z.eqb x hours)%nat)) /\
    (0 <= h < 24)%Z /\
    optimal_time r
    = String (ascii_of_nat (48 + Z.to_nat (h / 10)))
        (String (ascii_of_nat (48 + Z.to_nat (h mod 10))) ":00").
Proof.
  intros Hd Hlen Hcmp hours.
  destruct (@analyze_posting_patterns_dated _ _ Hd Hlen Hcmp)
    as (latest & earliest & h & _ & _ & _ & Hmode & Hr).
  destruct (@mode_spec _ _ Z.eqb_spec hours) as (h' & Hmode' & Hin & Hmost).
  { unfold hours. destruct dates; [cbn in Hlen; lia | discriminate]. }
  fold hours in Hmode. rewrite Hmode in Hmode'. injection Hmode' as <-.
  assert (Hh : (0 <= h < 24)%Z).
  { pose proof (@post_dates_hours _ _ Hd) as Hall.
    rewrite Forall_forall in Hall. now apply Hall. }
  eexists. exists h. split; [exact Hr |].
  repeat split; try assumption; try apply Hmost; try lia; try assumption.
  cbn [optimal_time]. rewrite (format_02d_hour Hh). reflexivity.
Qed.

Lemma optimal_time_first_mode_witness :
  exists r,
    _analyze_posting_patterns
      [timed_post "2025-08-08T09:15:00Z"; timed_post "2025-08-09T21:30:00Z";
       timed_post "2025-08-10T21:45:00Z"] = Return r /\
    optimal_time r = "21:00"%string.
Proof.
  destruct (@optimal_time_first_mode
              [timed_post "2025-08-08T09:15:00Z";
               timed_post "2025-08-09T21:30:00Z";
               timed_post "2025-08-10T21:45:00Z"] _ eq_refl
              ltac:(cbn; lia) eq_refl) as (r & h & Hr & _).
  exists r. split; [exact Hr |].
  cbv in Hr. injection Hr as <-. reflexivity.
Defined.

(** C5 fails where it says that a tie goes to the smallest hour: with one
    post at 18h followed by one post at 10h, both hours are equally frequent
    and the optimal time is the first of them, 18:00. *)
Lemma optimal_time_tie_is_not_smallest_hour :
  exists dates r,
    post_dates_of [timed_post "2025-08-08T18:00:00Z";
                   timed_post "2025-08-07T10:00:00Z"] = Return dates /\
    map hour dates = [18; 10]%Z /\
    _analyze_posting_patterns [timed_post "2025-08-08T18:00:00Z";
                               timed_post "2025-08-07T10:00:00Z"] = Return r /\
    optimal_time r = "18:00"%string /\
    optimal_time r <> "10:00"%string.
Proof.
  eexists. eexists. split; [reflexivity |]. split; [reflexivity |].
  split; [vm_compute; reflexivity |]. split; [reflexivity | discriminate].
Qed.

(** ** The profile analysis *)

Lemma analyze_sentiment_returns (E : Extractor) (posts : list Post) :
  returns (_analyze_sentiment E posts).
Proof.
  unfold _analyze_sentiment.
  destruct (caption_sentiments E posts) as [| s sentiments] eqn:Hs.
  - eexists. reflexivity.
  - cbn [is_empty]. rewrite mean_nonempty by discriminate.
    eexists. reflexivity.
Qed.

(** The profile analysis raises exactly what the posting aggregator
    raises. *)
Lemma analyze_profile_posting_raise (E : Extractor) (now : string)
    (profile_data : Profile) (e : exn) :
  get (posts profile_data) [] <> [] ->
  _analyze_posting_patterns (get (posts profile_data) []) = Raise e ->
  analyze_profile E now profile_data = Raise e.
Proof.
  intros Hne Hraise. unfold analyze_profile.
  rewrite (is_empty_false Hne).
  destruct (analyze_engagement_returns (get (posts profile_data) [])
              (get (followers profile_data) 0%Z)) as [ea Hea].
  destruct (analyze_sentiment_returns E (get (posts profile_data) []))
    as [sa Hsa].
  rewrite Hea, Hsa, Hraise. reflexivity.
Qed.

(** Without posts the analysis is the error object; with posts whose
    timestamps, where present, are parsed and comparable, it is a full
    report, whatever other keys the posts lack. *)
Lemma analyze_profile_returns (E : Extractor) (now : string)
    (profile_data : Profile) (dates : list datetime) :
  post_dates_of (get (posts profile_data) []) = Return dates ->
  comparable dates = true ->
  (get (posts profile_data) [] = [] ->
   analyze_profile E now profile_data
     = Return (AnalysisError "No posts found for analysis")) /\
  (get (posts profile_data) [] <> [] ->
   exists report, analyze_profile E now profile_data = Return (Analysis report)).
Proof.
  intros Hd Hcmp. split.
  - intros Hnil. unfold analyze_profile. rewrite Hnil. reflexivity.
  - intros Hne. unfold analyze_profile. rewrite (is_empty_false Hne).
    destruct (analyze_engagement_returns (get (posts profile_data) [])
                (get (followers profile_data) 0%Z)) as [ea Hea].
    destruct (analyze_sentiment_returns E (get (posts profile_data) []))
      as [sa Hsa].
    rewrite Hea, Hsa. cbn [bind].
    destruct (Nat.lt_ge_cases (length dates) 2) as [Hfew | Hmany].
    + rewrite (analyze_posting_patterns_few Hne Hd Hfew).
      eexists. reflexivity.
    + destruct (@analyze_posting_patterns_dated _ _ Hd Hmany Hcmp)
        as (latest & earliest & h & _ & _ & _ & _ & Hr).
      rewrite Hr. eexists. reflexivity.
Qed.

(** Timestamps that parse can still make the aggregator raise: [max] cannot
    compare a value with an offset to a value without one. *)
Example mixed_awareness_raises :
  _analyze_posting_patterns
    [timed_post "2025-08-01T10:00:00Z"; timed_post "2025-08-02T10:00:00"]
  = Raise TypeError.
Proof. reflexivity. Qed.

(** C1 on the profile that the repository's own data source hands to the
    analyzer: from the ninth post on, the generated timestamp has a day
    that is no day ("2025-08-00T18:00:00Z", then "2025-08--1T19:00:00Z"),
    [fromisoformat] raises [ValueError] on it and so does the whole
    analysis, for every request of nine posts or more. *)
Theorem analyze_profile_raises_on_scraped_profile (E : Extractor) (R : Draws)
    (now username_ : string) (posts_limit : Z) :
  (9 <= posts_limit)%Z ->
  timestamp (scraped_post R 8) = Some "2025-08-00T18:00:00Z"%string /\
  parse_timestamp (scraped_post R 8) = Raise ValueError /\
  analyze_profile E now (scrape_instagram_profile R username_ posts_limit)
    = Raise ValueError.
Proof.
  intros Hlimit. split; [reflexivity | split; [reflexivity |]].
  assert (Hn : exists k, (k <= 3)%nat /\
                         Z.to_nat (Z.min posts_limit 12) = (9 + k)%nat).
  { exists (Z.to_nat (Z.min posts_limit 12) - 9)%nat. lia. }
  destruct Hn as (k & Hk & Hn).
  apply analyze_profile_posting_raise;
    cbn [scrape_instagram_profile posts get]; rewrite Hn.
  - destruct k; discriminate.
  - do 4 (destruct k as [| k]; [vm_compute; reflexivity |]). lia.
Qed.

Lemma analyze_profile_raises_on_scraped_profile_witness :
  analyze_profile (fixed_extractor ["#000000"; "#FFFFFF"; "#808080"]%string
                     (4 # 5) (9 # 10))
    "2025-08-08T12:00:00" (scrape_instagram_profile fixed_draws "nasa" 12)
  = Raise ValueError.
Proof.
  apply (@analyze_profile_raises_on_scraped_profile
           (fixed_extractor ["#000000"; "#FFFFFF"; "#808080"]%string
              (4 # 5) (9 # 10))
           fixed_draws "2025-08-08T12:00:00" "nasa" 12).
  lia.
Defined.

(* ===================================================================== *)
(** * Further properties of the code *)
(* ===================================================================== *)

(** ** Rounding and averaging *)

Lemma Qgtb_compat (x x' y y' : Q) :
  x == x' -> y == y' -> Qgtb x y = Qgtb x' y'.
Proof.
  intros Hx Hy. unfold Qgtb. f_equal. apply eq_true_iff_eq.
  rewrite !Qle_bool_iff, Hx, Hy. reflexivity.
Qed.

Lemma Qltb_compat (x x' y y' : Q) :
  x == x' -> y == y' -> Qltb x y = Qltb x' y'.
Proof. intros Hx Hy. apply (Qgtb_compat Hy Hx). Qed.

Lemma Qgtb_irrefl (x y : Q) : x == y -> Qgtb x y = false.
Proof. intros H. apply Qgtb_false. lra. Qed.

Lemma round_half_even_compat (x y : Q) :
  x == y -> round_half_even x = round_half_even y.
Proof.
  intros H. unfold round_half_even. rewrite (Qfloor_comp _ _ H).
  assert (Hr : x - inject_Z (Qfloor y) == y - inject_Z (Qfloor y))
    by (rewrite H; reflexivity).
  rewrite (Qltb_compat Hr (Qeq_refl (1 # 2))).
  rewrite (Qgtb_compat Hr (Qeq_refl (1 # 2))). reflexivity.
Qed.

Lemma round_ndigits_compat (x y : Q) (n : nat) :
  x == y -> round_ndigits x n = round_ndigits y n.
Proof.
  intros H. unfold round_ndigits.
  rewrite (@round_half_even_compat (x * inject_Z (10 ^ Z.of_nat n))
             (y * inject_Z (10 ^ Z.of_nat n))) by (rewrite H; reflexivity).
  reflexivity.
Qed.

(** Rounding to an integer never leaves an interval with integer ends. *)
Lemma round_half_even_ge (lo : Z) (x : Q) :
  inject_Z lo <= x -> (lo <= round_half_even x)%Z.
Proof.
  intros H. apply Qfloor_resp_le in H. rewrite Qfloor_Z in H.
  unfold round_half_even.
  destruct (Qltb _ _); [assumption |].
  destruct (Qgtb _ _); [lia |]. destruct (Z.even _); lia.
Qed.

Lemma round_half_even_le (hi : Z) (x : Q) :
  x <= inject_Z hi -> (round_half_even x <= hi)%Z.
Proof.
  intros H. pose proof (Qfloor_le x) as Hf.
  assert (Hfloor : (Qfloor x <= hi)%Z) by (rewrite Zle_Qle; lra).
  unfold round_half_even.
  destruct (Qltb (x - inject_Z (Qfloor x)) (1 # 2)) eqn:Hlt; [assumption |].
  apply Qltb_false in Hlt.
  assert (Hstrict : (Qfloor x < hi)%Z) by (rewrite Zlt_Qlt; lra).
  destruct (Qgtb _ _); [lia |]. destruct (Z.even _); lia.
Qed.

Lemma round_ndigits_bounds (lo hi : Z) (x : Q) (n : nat) :
  inject_Z lo <= x -> x <= inject_Z hi ->
  inject_Z lo <= round_ndigits x n /\ round_ndigits x n <= inject_Z hi.
Proof.
  intros Hlo Hhi. unfold round_ndigits.
  set (s := (10 ^ Z.of_nat n)%Z).
  assert (Hs : (0 < s)%Z) by (apply Z.pow_pos_nonneg; lia).
  assert (Hsq : 0 < inject_Z s) by (change 0 with (inject_Z 0); now rewrite <- Zlt_Qlt).
  split.
  - apply Qle_shift_div_l; [assumption |].
    rewrite <- inject_Z_mult, <- Zle_Qle. apply round_half_even_ge.
    rewrite inject_Z_mult. now apply Qmult_le_compat_r; [| lra].
  - apply Qle_shift_div_r; [assumption |].
    rewrite <- inject_Z_mult, <- Zle_Qle. apply round_half_even_le.
    rewrite inject_Z_mult. now apply Qmult_le_compat_r; [| lra].
Qed.

Lemma length_pos_Q {A : Type} (l : list A) :
  l <> [] -> 0 < inject_Z (Z.of_nat (length l)).
Proof.
  intros H. change 0 with (inject_Z 0). rewrite <- Zlt_Qlt.
  destruct l; [congruence | cbn [length]; lia].
Qed.

Lemma Qsum_bounds (lo hi : Q) (l : list Q) :
  (forall x, In x l -> lo <= x /\ x <= hi) ->
  lo * inject_Z (Z.of_nat (length l)) <= Qsum l /\
  Qsum l <= hi * inject_Z (Z.of_nat (length l)).
Proof.
  induction l as [| y l IH]; intros H.
  - unfold Qsum. cbn [length fold_right].
    change (inject_Z (Z.of_nat 0)) with 0. lra.
  - destruct (H y (or_introl eq_refl)) as [Hy1 Hy2].
    destruct IH as [IH1 IH2]; [intros x Hx; apply H; now right |].
    cbn [length Qsum fold_right]. fold (Qsum l).
    rewrite Nat2Z.inj_succ, <- Z.add_1_r, inject_Z_plus.
    change (inject_Z 1) with 1. lra.
Qed.

(** A mean lies between the bounds of what it averages. *)
Lemma average_bounds (lo hi : Q) (l : list Q) :
  l <> [] ->
  (forall x, In x l -> lo <= x /\ x <= hi) ->
  lo <= average l /\ average l <= hi.
Proof.
  intros Hne H. pose proof (length_pos_Q Hne) as Hlen.
  destruct (@Qsum_bounds lo hi l H) as [H1 H2]. unfold average. split.
  - now apply Qle_shift_div_l.
  - now apply Qle_shift_div_r.
Qed.

Lemma Qsum_cons (x : Q) (l : list Q) : Qsum (x :: l) = x + Qsum l.
Proof. reflexivity. Qed.

Lemma Qsum_Permutation (l l' : list Q) :
  Permutation l l' -> Qsum l == Qsum l'.
Proof.
  induction 1 as [| x l l' _ IH | x y l | l l' l'' _ IH1 _ IH2].
  - reflexivity.
  - rewrite !Qsum_cons, IH. reflexivity.
  - rewrite !Qsum_cons. ring.
  - now rewrite IH1.
Qed.

Lemma average_Permutation (l l' : list Q) :
  Permutation l l' -> average l == average l'.
Proof.
  intros H. unfold average.
  rewrite (@Qsum_Permutation l l' H), (Permutation_length H). reflexivity.
Qed.

(** ** Insights *)

(** X1: the insight list holds at most one message per topic, hence at most
    three, the brand message first and the sentiment message last; each
    message is present exactly when its threshold is passed, and the list is
    empty exactly when the three readings are all in their middle band. *)
Theorem insights_by_threshold (b : BrandAnalysis) (e : EngagementAnalysis)
    (s : SentimentAnalysis) :
  let score := consistency_score b in
  let rate := get_engagement_rate e in
  let mood := get_overall s in
  let out := _generate_insights b e s in
  (length out <= 3)%nat /\
  (In "Excellent brand consistency maintained across posts"%string out
   <-> 80 < score) /\
  (In "Consider improving visual consistency for stronger brand identity"%string
      out <-> score < 60) /\
  (In "Outstanding engagement rate - well above industry average"%string out
   <-> 3 < rate) /\
  (In "Engagement rate below average - consider more interactive content"%string
      out <-> rate < 1) /\
  (In "Very positive audience sentiment - maintain authentic voice"%string out
   <-> 1 # 2 < mood) /\
  (In "Consider adjusting content tone to improve audience sentiment"%string
      out <-> mood < 0) /\
  (out = [] <-> (60 <= score /\ score <= 80) /\ (1 <= rate /\ rate <= 3) /\
                (0 <= mood /\ mood <= 1 # 2)).
Proof.
  cbv zeta. unfold _generate_insights.
  destruct (Qgtb_spec (consistency_score b) 80) as [B1 | B1];
    [| destruct (Qltb (consistency_score b) 60) eqn:B2;
       [apply Qltb_true in B2 | apply Qltb_false in B2]];
    (destruct (Qgtb_spec (get_engagement_rate e) 3) as [E1 | E1];
     [| destruct (Qltb (get_engagement_rate e) 1) eqn:E2;
        [apply Qltb_true in E2 | apply Qltb_false in E2]]);
    (destruct (Qgtb_spec (get_overall s) (1 # 2)) as [S1 | S1];
     [| destruct (Qltb (get_overall s) 0) eqn:S2;
        [apply Qltb_true in S2 | apply Qltb_false in S2]]);
    cbn [app length In];
    repeat match goal with |- _ /\ _ => split end;
    try lia;
    (split; intros H;
     [ try lra;
       repeat match type of H with
              | _ \/ _ => destruct H as [H | H]
              end;
       try discriminate H; try contradiction; try lra
     | try (exfalso; lra); try tauto; try reflexivity ]).
Qed.

(** X2: the insights and the suggestions never contradict each other: praise
    for the brand or the sentiment comes with the "keep going" suggestion,
    a warning with the "improve" suggestion. *)
Theorem insights_agree_with_suggestions (b : BrandAnalysis)
    (e : EngagementAnalysis) (s : SentimentAnalysis) :
  let out := _generate_insights b e s in
  let advice := _generate_mood_suggestions b s in
  (In "Excellent brand consistency maintained across posts"%string out ->
   nth_error advice 0
   = Some "Maintain current aesthetic direction - it's working well"%string) /\
  (In "Consider improving visual consistency for stronger brand identity"%string
      out ->
   nth_error advice 0
   = Some "Develop a more cohesive visual style guide"%string) /\
  (In "Very positive audience sentiment - maintain authentic voice"%string out ->
   nth_error advice 1
   = Some "Continue with positive, uplifting content themes"%string) /\
  (In "Consider adjusting content tone to improve audience sentiment"%string
      out ->
   nth_error advice 1
   = Some "Incorporate more inspirational and positive messaging"%string).
Proof.
  cbv zeta. unfold _generate_insights, _generate_mood_suggestions.
  destruct (Qgtb_spec (consistency_score b) 80) as [B1 | B1];
    [| destruct (Qltb (consistency_score b) 60) eqn:B2;
       [apply Qltb_true in B2 | apply Qltb_false in B2]];
    (destruct (Qgtb (get_engagement_rate e) 3);
     [| destruct (Qltb (get_engagement_rate e) 1)]);
    (destruct (Qgtb_spec (get_overall s) (1 # 2)) as [S1 | S1];
     [| destruct (Qltb (get_overall s) 0) eqn:S2;
        [apply Qltb_true in S2 | apply Qltb_false in S2]]);
    destruct (Qgtb_spec (consistency_score b) 75) as [B | B];
    destruct (Qgtb_spec (get_overall s) (3 # 10)) as [S | S];
    try (exfalso; lra);
    cbn [app nth_error In];
    repeat split; intros H; try reflexivity; exfalso;
    repeat match type of H with
           | _ \/ _ => destruct H as [H | H]
           end;
    try discriminate H; contradiction.
Qed.

(** ** Brand labels taken together *)

(** X3: both labels come from one score, so only five of the nine pairs occur;
    a Low variance is always a Strong alignment and a Weak alignment is
    always a High variance. *)
Theorem brand_labels_agree (E : Extractor) (posts : list Post) :
  let r := _analyze_brand_consistency E posts in
  In (color_variance r, brand_alignment r)
     [("Low", "Strong"); ("Moderate", "Strong"); ("Moderate", "Moderate");
      ("High", "Moderate"); ("High", "Weak")]%string /\
  (color_variance r = "Low"%string -> brand_alignment r = "Strong"%string) /\
  (brand_alignment r = "Weak"%string -> color_variance r = "High"%string).
Proof.
  intros r. destruct (brand_analysis_fields E posts) as (_ & _ & Hv & Ha).
  fold r in Hv, Ha. rewrite Hv, Ha.
  set (score := raw_consistency_score (snd (brand_features E posts))).
  unfold color_variance_of, brand_alignment_of.
  destruct (Qgtb_spec score 80), (Qgtb_spec score 60),
    (Qgtb_spec score 75), (Qgtb_spec score 50);
    try (exfalso; lra);
    (split; [cbn; tauto | split; intros H; (reflexivity || discriminate H)]).
Qed.

(** ** Sentiment over the captions *)

Lemma caption_sentiments_filter (E : Extractor) (posts : list Post) :
  caption_sentiments E posts
  = map (fun p => analyze_sentiment E (get (caption p) ""%string))
      (filter has_caption posts).
Proof.
  induction posts as [| p posts IH]; [reflexivity |].
  cbn [caption_sentiments filter]. unfold has_caption at 1.
  destruct (caption p) as [[| c text] |] eqn:Hc; cbn [get truthy map];
    rewrite ?Hc; cbn [get]; rewrite IH; reflexivity.
Qed.

Lemma filter_has_caption_idem (posts : list Post) :
  filter has_caption (filter has_caption posts) = filter has_caption posts.
Proof.
  induction posts as [| p posts IH]; [reflexivity |].
  cbn [filter]. destruct (has_caption p) eqn:Hp; [| assumption].
  cbn [filter]. rewrite Hp, IH. reflexivity.
Qed.

Lemma analyze_sentiment_cases (E : Extractor) (posts : list Post) :
  (caption_sentiments E posts = [] /\
   _analyze_sentiment E posts = Return (SentimentError "No captions to analyze"))
  \/
  (exists avg,
     caption_sentiments E posts <> [] /\
     avg = average (caption_sentiments E posts) /\
     _analyze_sentiment E posts =
       Return (SentimentReport {|
         overall := round_ndigits avg 2;
         sentiment_trend :=
           if Qgtb avg 0 then "Positive"%string else "Negative"%string;
         emotional_tone :=
           if Qgtb avg (3 # 10) then "Very Positive"%string
           else if Qgtb avg 0 then "Positive"%string
           else if Qgtb avg (- (3 # 10)) then "Neutral"%string
           else "Negative"%string |})).
Proof.
  destruct (caption_sentiments E posts) as [| s l] eqn:Hs.
  - left. split; [reflexivity |]. unfold _analyze_sentiment. now rewrite Hs.
  - right. eexists. split; [discriminate | split; [reflexivity |]].
    apply analyze_sentiment_of_mean. rewrite Hs. reflexivity.
Qed.

(** *** A classifier that may fail *)

Lemma truthy_caption (p : Post) :
  truthy (Some (get (caption p) ""%string)) = has_caption p.
Proof. unfold has_caption. destruct (caption p) as [[| c s] |]; reflexivity. Qed.

Lemma caption_sentiments_raising_mapM (classify : string -> result Q)
    (posts : list Post) :
  caption_sentiments_raising classify posts
  = mapM (fun p => classify (caption_of p)) (filter has_caption posts).
Proof.
  induction posts as [| p posts IH]; [reflexivity |].
  cbn [caption_sentiments_raising filter]. rewrite truthy_caption.
  destruct (has_caption p); [| exact IH].
  cbn [mapM]. fold (caption_of p). now rewrite IH.
Qed.

Lemma caption_sentiments_raising_total (E : Extractor) (posts : list Post) :
  caption_sentiments_raising (fun text => Return (analyze_sentiment E text))
    posts
  = Return (caption_sentiments E posts).
Proof.
  induction posts as [| p posts IH]; [reflexivity |].
  cbn [caption_sentiments_raising caption_sentiments].
  destruct (truthy (Some (get (caption p) ""%string))); [| exact IH].
  cbn [bind]. now rewrite IH.
Qed.

(** With a classifier that answers for every text the aggregator of the
    total model is recovered. *)
Lemma analyze_sentiment_raising_total (E : Extractor) (posts : list Post) :
  _analyze_sentiment_raising (fun text => Return (analyze_sentiment E text))
    posts
  = _analyze_sentiment E posts.
Proof.
  unfold _analyze_sentiment_raising, _analyze_sentiment.
  now rewrite caption_sentiments_raising_total.
Qed.

(** A comprehension returns when every element does, with one result per
    element; otherwise it raises what the first failing element raises. *)
Lemma mapM_cases {A B : Type} (f : A -> result B) (l : list A) :
  (exists r, mapM f l = Return r /\ length r = length l /\
             forall x, In x l -> exists y, f x = Return y)
  \/
  (exists e l1 x l2, mapM f l = Raise e /\ l = l1 ++ x :: l2 /\
                     f x = Raise e /\
                     forall y, In y l1 -> exists z, f y = Return z).
Proof.
  induction l as [| a l IH].
  - left. exists []. repeat split. intros x [].
  - cbn [mapM]. destruct (f a) as [b | e] eqn:Ha; cbn [bind].
    + destruct IH as [(r & Hr & Hlen & Hall) | (e & l1 & x & l2 & Hr & -> & Hx & Hl1)].
      * left. exists (b :: r). rewrite Hr. cbn [bind length].
        repeat split; [now rewrite Hlen |].
        intros x [<- | Hx]; [now exists b | now apply Hall].
      * right. exists e, (a :: l1), x, l2. rewrite Hr.
        repeat split; [assumption |].
        intros y [<- | Hy]; [now exists b | now apply Hl1].
    + right. exists e, [], a, l. repeat split; [assumption |]. intros y [].
Qed.

Lemma mapM_first_raise {A B : Type} (f : A -> result B) (l1 l2 : list A)
    (x : A) (e : exn) :
  (forall y, In y l1 -> exists z, f y = Return z) ->
  f x = Raise e ->
  mapM f (l1 ++ x :: l2) = Raise e.
Proof.
  intros Hl1 Hx. induction l1 as [| a l1 IH]; cbn [app mapM].
  - now rewrite Hx.
  - destruct (Hl1 a (or_introl eq_refl)) as [z ->]. cbn [bind].
    rewrite IH; [reflexivity |]. intros y Hy. apply Hl1. now right.
Qed.

Lemma filter_split {A : Type} (f : A -> bool) (l l1 l2 : list A) (x : A) :
  filter f l = l1 ++ x :: l2 ->
  exists before after,
    l = before ++ x :: after /\ filter f before = l1 /\ f x = true.
Proof.
  revert l1. induction l as [| a l IH]; intros l1 H; cbn [filter] in H.
  - destruct l1; discriminate.
  - destruct (f a) eqn:Ha.
    + destruct l1 as [| b l1]; cbn [app] in H; injection H as -> H.
      * exists [], l. repeat split. assumption.
      * destruct (IH _ H) as (before & after & -> & <- & Hx).
        exists (b :: before), after. cbn [app filter]. rewrite Ha.
        repeat split. assumption.
    + destruct (IH _ H) as (before & after & -> & <- & Hx).
      exists (a :: before), after. cbn [app filter]. rewrite Ha.
      repeat split. assumption.
Qed.

Lemma analyze_sentiment_raising_of_scores (classify : string -> result Q)
    (posts : list Post) (sentiments : list Q) :
  caption_sentiments_raising classify posts = Return sentiments ->
  (sentiments = [] /\
   _analyze_sentiment_raising classify posts
   = Return (SentimentError "No captions to analyze"))
  \/
  (sentiments <> [] /\
   exists m, _analyze_sentiment_raising classify posts
             = Return (SentimentReport m) /\
             overall m = round_ndigits (average sentiments) 2).
Proof.
  intros H. unfold _analyze_sentiment_raising. rewrite H. cbn [bind].
  destruct sentiments as [| s l]; [left; now split | right].
  split; [discriminate |]. cbn [is_empty mean bind].
  eexists. split; reflexivity.
Qed.

(** X4: what the classifier raises goes through the sentiment aggregator. It
    answers the error object exactly when no post has a non-empty caption;
    it answers a report exactly when some post has one and the classifier
    answers for every such caption; it raises exactly what the classifier
    raises on the first caption, in post order, for which it fails; and
    the posts without a caption can be removed without changing the
    outcome. *)
Theorem sentiment_needs_captions_and_answers
    (classify : string -> result Q) (posts : list Post) :
  ((forall p, In p posts -> has_caption p = false) <->
   _analyze_sentiment_raising classify posts
   = Return (SentimentError "No captions to analyze")) /\
  ((exists m, _analyze_sentiment_raising classify posts
              = Return (SentimentReport m)) <->
   (exists p, In p posts /\ has_caption p = true) /\
   (forall p, In p posts -> has_caption p = true ->
              exists s, classify (caption_of p) = Return s)) /\
  (forall e,
     _analyze_sentiment_raising classify posts = Raise e <->
     exists before p after,
       posts = before ++ p :: after /\
       has_caption p = true /\
       classify (caption_of p) = Raise e /\
       forall q, In q before -> has_caption q = true ->
                 exists s, classify (caption_of q) = Return s) /\
  _analyze_sentiment_raising classify posts
  = _analyze_sentiment_raising classify (filter has_caption posts).
Proof.
  assert (Hidem : _analyze_sentiment_raising classify posts
                  = _analyze_sentiment_raising classify
                      (filter has_caption posts)).
  { unfold _analyze_sentiment_raising.
    now rewrite !caption_sentiments_raising_mapM, filter_has_caption_idem. }
  assert (Hnone : (forall p, In p posts -> has_caption p = false) <->
                  filter has_caption posts = []).
  { clear. induction posts as [| p posts IH]; cbn [filter].
    - split; [reflexivity | intros _ p []].
    - destruct (has_caption p) eqn:Hc.
      + split; [| discriminate].
        intros H. rewrite (H p (or_introl eq_refl)) in Hc. discriminate.
      + rewrite <- IH. split.
        * intros H q Hq. apply H. now right.
        * intros H q [<- | Hq]; [assumption | now apply H]. }
  assert (Hsome : (exists p, In p posts /\ has_caption p = true) <->
                  filter has_caption posts <> []).
  { split.
    - intros (p & Hp & Hc) Hnil.
      rewrite (proj2 Hnone Hnil p Hp) in Hc. discriminate.
    - intros Hne. destruct (filter has_caption posts) as [| p l] eqn:Hf;
        [congruence |].
      assert (Hin : In p (filter has_caption posts))
        by (rewrite Hf; now left).
      apply filter_In in Hin. now exists p. }
  pose proof (caption_sentiments_raising_mapM classify posts) as Hmap.
  destruct (mapM_cases (fun p => classify (caption_of p))
              (filter has_caption posts))
    as [(r & Hr & Hlen & Hall) | (e0 & l1 & x & l2 & Hr & Hl & Hx & Hl1)].
  - (* every classified caption is answered *)
    rewrite Hr in Hmap.
    assert (Hall' : forall p, In p posts -> has_caption p = true ->
                              exists s, classify (caption_of p) = Return s).
    { intros p Hp Hc. apply Hall. apply filter_In. now split. }
    destruct (analyze_sentiment_raising_of_scores classify posts Hmap)
      as [[Hnil Hres] | (Hne & m & Hres & _)].
    + assert (Hf : filter has_caption posts = []).
      { rewrite Hnil in Hlen. cbn in Hlen.
        destruct (filter has_caption posts); [reflexivity | discriminate]. }
      split; [| split; [| split; [| exact Hidem]]].
      * split; [intros _; exact Hres | intros _; exact (proj2 Hnone Hf)].
      * split.
        -- intros (m & Hm). rewrite Hres in Hm. discriminate.
        -- intros (Hex & _). apply (proj1 Hsome) in Hex. contradiction.
      * intros e. split.
        -- intros He. rewrite Hres in He. discriminate.
        -- intros (before & p & after & Hposts & Hc & _).
           rewrite (proj2 Hnone Hf p) in Hc; [discriminate |].
           rewrite Hposts. apply in_elt.
    + assert (Hf : filter has_caption posts <> []).
      { intros Hf. rewrite Hf in Hlen. cbn in Hlen.
        destruct r; [congruence | discriminate]. }
      split; [| split; [| split; [| exact Hidem]]].
      * split.
        -- intros H. apply (proj1 Hnone) in H. contradiction.
        -- intros H. rewrite Hres in H. discriminate.
      * split.
        -- intros _. split; [exact (proj2 Hsome Hf) | exact Hall'].
        -- intros _. now exists m.
      * intros e. split.
        -- intros He. rewrite Hres in He. discriminate.
        -- intros (before & p & after & Hposts & Hc & Hraise & _).
           assert (Hin : In p posts) by (rewrite Hposts; apply in_elt).
           destruct (Hall' p Hin Hc) as [s Hs]. congruence.
  - (* the first caption whose classification fails *)
    assert (Hres : _analyze_sentiment_raising classify posts = Raise e0).
    { unfold _analyze_sentiment_raising. now rewrite Hmap, Hr. }
    destruct (@filter_split _ has_caption posts l1 l2 x Hl)
      as (before & after & Hposts & Hbefore & Hc).
    assert (Hin : In x posts) by (rewrite Hposts; apply in_elt).
    split; [| split; [| split; [| exact Hidem]]].
    + split.
      * intros H. rewrite (H x Hin) in Hc. discriminate.
      * intros H. rewrite Hres in H. discriminate.
    + split.
      * intros (m & Hm). rewrite Hres in Hm. discriminate.
      * intros (_ & Hall). destruct (Hall x Hin Hc) as [s Hs]. congruence.
    + intros e. split.
      * intros He. rewrite Hres in He. injection He as <-.
        exists before, x, after.
        split; [exact Hposts | split; [exact Hc | split; [exact Hx |]]].
        intros q Hq Hqc. apply Hl1. rewrite <- Hbefore. apply filter_In.
        now split.
      * intros (before' & p & after' & Hposts' & Hpc & Hraise & Hreturns).
        rewrite Hres. f_equal.
        rewrite Hposts', filter_app in Hr. cbn [filter] in Hr.
        rewrite Hpc in Hr.
        rewrite (@mapM_first_raise _ _ (fun p => classify (caption_of p))
                   (filter has_caption before') (filter has_caption after')
                   p e) in Hr; [congruence | | exact Hraise].
        intros y Hy. apply filter_In in Hy. destruct Hy as [Hy Hyc].
        now apply Hreturns.
Qed.

(** X5: in a sentiment report the trend and the tone never disagree: the trend
    is Positive exactly for the tones Positive and Very Positive. *)
Theorem sentiment_trend_matches_tone (E : Extractor) (posts : list Post)
    (m : SentimentMetrics) :
  _analyze_sentiment E posts = Return (SentimentReport m) ->
  (sentiment_trend m = "Positive"%string <->
   emotional_tone m = "Positive"%string \/
   emotional_tone m = "Very Positive"%string) /\
  (sentiment_trend m = "Negative"%string <->
   emotional_tone m = "Neutral"%string \/
   emotional_tone m = "Negative"%string).
Proof.
  intros H.
  destruct (analyze_sentiment_cases E posts) as [[_ H1] | (avg & _ & _ & H1)];
    rewrite H1 in H; [discriminate |].
  injection H as <-. cbn [sentiment_trend emotional_tone].
  destruct (Qgtb_spec avg (3 # 10)), (Qgtb_spec avg 0),
    (Qgtb_spec avg (- (3 # 10)));
    try (exfalso; lra);
    (split; split; intros H;
     try (destruct H as [H | H]); try discriminate H; try reflexivity;
     tauto).
Qed.

Lemma sentiment_trend_matches_tone_witness :
  exists m,
    _analyze_sentiment (fixed_extractor [] 0 (9 # 10)) [caption_post "great"]
      = Return (SentimentReport m) /\
    (sentiment_trend m = "Positive"%string <->
     emotional_tone m = "Positive"%string \/
     emotional_tone m = "Very Positive"%string).
Proof.
  eexists. split; [reflexivity |].
  apply (@sentiment_trend_matches_tone (fixed_extractor [] 0 (9 # 10))
           [caption_post "great"] _ eq_refl).
Defined.

(** X6: the signed score of [sentiment.py] stays within [-1, 1] when the
    classifier's score is a probability, and then so does the overall
    sentiment of every report. *)
Theorem overall_sentiment_in_range (sentiment_model : string -> string * Q)
    (infer : string -> string -> result Q)
    (cluster : string -> result (list (Z * Z * Z)))
    (posts : list Post) (m : SentimentMetrics) :
  (forall text, 0 <= snd (sentiment_model text) /\
                snd (sentiment_model text) <= 1) ->
  _analyze_sentiment (extractor_with sentiment_model infer cluster) posts
    = Return (SentimentReport m) ->
  (forall text, - (1) <= analyze_sentiment_with sentiment_model text /\
                analyze_sentiment_with sentiment_model text <= 1) /\
  - (1) <= overall m /\ overall m <= 1.
Proof.
  intros Hprob H.
  assert (Hsigned :
    forall text, - (1) <= analyze_sentiment_with sentiment_model text /\
                 analyze_sentiment_with sentiment_model text <= 1).
  { intros text. unfold analyze_sentiment_with.
    specialize (Hprob text). destruct (sentiment_model text) as [label score].
    cbn [snd] in Hprob. destruct (String.eqb label "POSITIVE"); lra. }
  split; [exact Hsigned |].
  destruct (analyze_sentiment_cases (extractor_with sentiment_model infer cluster)
              posts) as [[_ H1] | (avg & Hne & Havg & H1)];
    rewrite H1 in H; [discriminate |].
  injection H as <-. cbn [overall].
  apply (@round_ndigits_bounds (-1) 1 avg 2); rewrite Havg.
  - apply (@average_bounds (- (1)) 1); [assumption |].
    intros x Hx. rewrite caption_sentiments_filter in Hx.
    apply in_map_iff in Hx. destruct Hx as (p & <- & _). apply Hsigned.
  - apply (@average_bounds (- (1)) 1); [assumption |].
    intros x Hx. rewrite caption_sentiments_filter in Hx.
    apply in_map_iff in Hx. destruct Hx as (p & <- & _). apply Hsigned.
Qed.

Lemma overall_sentiment_in_range_witness :
  exists m,
    _analyze_sentiment
      (extractor_with (fun _ => ("NEGATIVE"%string, 97 # 100))
         (fun _ _ => Raise ValueError) (fun _ => Raise ValueError))
      [caption_post "meh"; bare_post]
      = Return (SentimentReport m) /\
    - (1) <= overall m /\ overall m <= 1.
Proof.
  eexists. split; [reflexivity |].
  apply (@overall_sentiment_in_range
           (fun _ => ("NEGATIVE"%string, 97 # 100))
           (fun _ _ => Raise ValueError) (fun _ => Raise ValueError)
           [caption_post "meh"; bare_post] _).
  - intros _. cbn [snd]. lra.
  - reflexivity.
Defined.

(** ** Engagement: order, reversal and bounds *)

Lemma analyze_engagement_report (posts : list Post) (followers_ : Z) :
  posts <> [] ->
  _analyze_engagement posts followers_ =
    Return (EngagementReport {|
      avg_likes :=
        round_half_even (average (map inject_Z (map likes_of posts)));
      avg_comments :=
        round_half_even (average (map inject_Z (map comments_of posts)));
      engagement_rate :=
        round_ndigits
          (if (0 <? followers_)%Z
           then (average (map inject_Z (map likes_of posts))
                 + average (map inject_Z (map comments_of posts)))
                / inject_Z followers_ * 100
           else 0) 2;
      engagement_trend :=
        if Qgtb
             (average (map engagement_of
                         (firstn (Nat.min 3 (length posts)) posts)))
             (average (map engagement_of
                         (skipn (length posts - Nat.min 3 (length posts))
                            posts)))
        then "Increasing"%string
        else if Qltb
                  (average (map engagement_of
                              (firstn (Nat.min 3 (length posts)) posts)))
                  (average (map engagement_of
                              (skipn (length posts - Nat.min 3 (length posts))
                                 posts)))
        then "Decreasing"%string
        else "Stable"%string |}).
Proof. intros Hne. exact (analyze_engagement_nonempty followers_ Hne). Qed.

(** X7: with one, two or three posts the two trend windows are the same posts,
    so the trend is always Stable, whatever the counts are. *)
Theorem engagement_trend_stable_up_to_three (posts : list Post)
    (followers_ : Z) :
  posts <> [] -> (length posts <= 3)%nat ->
  trend_of (_analyze_engagement posts followers_) = Some "Stable"%string.
Proof.
  intros Hne Hlen. rewrite (analyze_engagement_report followers_ Hne).
  cbn [trend_of engagement_trend].
  replace (Nat.min 3 (length posts)) with (length posts) by lia.
  rewrite Nat.sub_diag, firstn_all. cbn [skipn].
  unfold Qltb. fold (Qgtb (average (map engagement_of posts))
                       (average (map engagement_of posts))).
  rewrite Qgtb_irrefl by reflexivity. reflexivity.
Qed.

Lemma engagement_trend_stable_up_to_three_witness :
  trend_of (_analyze_engagement
              [counted_post 900 40; counted_post 5 0; counted_post 70 7] 1000)
  = Some "Stable"%string.
Proof.
  apply engagement_trend_stable_up_to_three; [discriminate | cbn; lia].
Defined.

(** X8: the averages and the engagement rate do not depend on the order of the
    posts (only the trend does). *)
Theorem engagement_averages_ignore_order (posts posts' : list Post)
    (followers_ : Z) :
  Permutation posts posts' -> posts <> [] ->
  exists m m',
    _analyze_engagement posts followers_ = Return (EngagementReport m) /\
    _analyze_engagement posts' followers_ = Return (EngagementReport m') /\
    avg_likes m = avg_likes m' /\
    avg_comments m = avg_comments m' /\
    engagement_rate m = engagement_rate m'.
Proof.
  intros Hperm Hne.
  assert (Hne' : posts' <> []).
  { intros ->. apply Permutation_sym, Permutation_nil in Hperm. contradiction. }
  assert (Hl : average (map inject_Z (map likes_of posts))
               == average (map inject_Z (map likes_of posts')))
    by (apply average_Permutation; now do 2 apply Permutation_map).
  assert (Hc : average (map inject_Z (map comments_of posts))
               == average (map inject_Z (map comments_of posts')))
    by (apply average_Permutation; now do 2 apply Permutation_map).
  eexists. eexists.
  split; [apply (analyze_engagement_report followers_ Hne) |].
  split; [apply (analyze_engagement_report followers_ Hne') |].
  cbn [avg_likes avg_comments engagement_rate].
  split; [now apply round_half_even_compat |].
  split; [now apply round_half_even_compat |].
  apply round_ndigits_compat.
  destruct (0 <? followers_)%Z; [rewrite Hl, Hc |]; reflexivity.
Qed.

Lemma engagement_averages_ignore_order_witness :
  exists m m',
    _analyze_engagement [counted_post 10 1; counted_post 30 2] 500
      = Return (EngagementReport m) /\
    _analyze_engagement [counted_post 30 2; counted_post 10 1] 500
      = Return (EngagementReport m') /\
    avg_likes m = avg_likes m' /\
    avg_comments m = avg_comments m' /\
    engagement_rate m = engagement_rate m'.
Proof.
  apply engagement_averages_ignore_order; [apply perm_swap | discriminate].
Defined.

Lemma average_rev (l : list Q) : average (rev l) == average l.
Proof. apply average_Permutation, Permutation_sym, Permutation_rev. Qed.

(** X9: reading the posts in the opposite order swaps the two trend windows:
    Increasing becomes Decreasing and back, Stable stays; the empty list has
    no trend either way. *)
Theorem engagement_trend_reversed (posts : list Post) (followers_ : Z) :
  trend_of (_analyze_engagement (rev posts) followers_)
  = option_map opposite_trend
      (trend_of (_analyze_engagement posts followers_)).
Proof.
  destruct posts as [| p ps] eqn:Hposts; [reflexivity |].
  rewrite <- Hposts.
  assert (Hne : posts <> []) by (rewrite Hposts; discriminate).
  assert (Hne' : rev posts <> []).
  { intros H. apply (f_equal (@length Post)) in H.
    rewrite length_rev, Hposts in H. discriminate. }
  rewrite (analyze_engagement_report followers_ Hne).
  rewrite (analyze_engagement_report followers_ Hne').
  cbn [trend_of engagement_trend option_map]. rewrite length_rev.
  set (n := Nat.min 3 (length posts)).
  rewrite firstn_rev, skipn_rev, !map_rev.
  replace (length posts - (length posts - n))%nat with n by (unfold n; lia).
  set (recent := average (map engagement_of (firstn n posts))).
  set (older :=
         average (map engagement_of (skipn (length posts - n) posts))).
  rewrite (Qgtb_compat (average_rev _) (average_rev _)).
  rewrite (Qltb_compat (average_rev _) (average_rev _)).
  fold recent older. f_equal.
  change (Qltb older recent) with (Qgtb recent older).
  change (Qltb recent older) with (Qgtb older recent).
  destruct (Qgtb_spec recent older), (Qgtb_spec older recent);
    try reflexivity; exfalso; lra.
Qed.

Lemma int_list_bounds (lo hi : Z) (f : Post -> Z) (posts : list Post) :
  (forall p, In p posts -> (lo <= f p <= hi)%Z) ->
  forall x, In x (map inject_Z (map f posts)) ->
            inject_Z lo <= x /\ x <= inject_Z hi.
Proof.
  intros H x Hx. rewrite map_map in Hx. apply in_map_iff in Hx.
  destruct Hx as (p & <- & Hp). rewrite <- !Zle_Qle. now apply H.
Qed.

(** *** The averages as floats *)

Lemma mean_of_ints_nonempty (to_float : Q -> Q) (l : list Q) :
  l <> [] ->
  mean_of_ints to_float l
  = Return (if is_integer (average l) then average l
            else to_float (average l)).
Proof. intros H. unfold mean_of_ints. now rewrite (mean_nonempty H). Qed.

(** On a non-empty post list the aggregator returns a report whose averages
    are the rounded means of the counts. *)
Lemma analyze_engagement_in_averages (to_float : Q -> Q)
    (rounded_rate : Q -> Q -> Z -> Q) (posts : list Post) (followers_ : Z) :
  posts <> [] ->
  let mean_likes := average (map inject_Z (map likes_of posts)) in
  let mean_comments := average (map inject_Z (map comments_of posts)) in
  exists m,
    _analyze_engagement_in to_float rounded_rate posts followers_
    = Return (EngagementReport m) /\
    avg_likes m
    = round_half_even (if is_integer mean_likes then mean_likes
                       else to_float mean_likes) /\
    avg_comments m
    = round_half_even (if is_integer mean_comments then mean_comments
                       else to_float mean_comments).
Proof.
  intros Hne mean_likes mean_comments.
  set (n := Nat.min 3 (length posts)).
  assert (Hlen : (0 < length posts)%nat)
    by (destruct posts; [congruence | cbn; lia]).
  unfold _analyze_engagement_in.
  rewrite (is_empty_false Hne).
  rewrite !is_empty_false by (now apply map_nonempty).
  rewrite !mean_of_ints_nonempty by (now repeat apply map_nonempty).
  cbn [bind]. fold mean_likes mean_comments.
  unfold range.
  replace (Nat.min 3 (length posts) - 0)%nat with n by (unfold n; lia).
  rewrite window_seq by (unfold n; lia). cbn [bind skipn].
  rewrite mean_of_ints_nonempty.
  2:{ apply map_nonempty. destruct posts; [congruence |].
      unfold n. cbn. discriminate. }
  cbn [bind].
  replace (Nat.max 0 (length posts - 3)) with (length posts - n)%nat
    by (unfold n; lia).
  replace (length posts - (length posts - n))%nat with n by (unfold n; lia).
  rewrite window_seq by (unfold n; lia). cbn [bind].
  rewrite firstn_all2 by (rewrite length_skipn; unfold n; lia).
  rewrite mean_of_ints_nonempty.
  2:{ apply map_nonempty. intros Hnil.
      apply (f_equal (@length Post)) in Hnil.
      rewrite length_skipn in Hnil. cbn [length] in Hnil. lia. }
  cbn [bind]. eexists. split; [reflexivity |]. split; reflexivity.
Qed.

(** Converting to a float never leaves an interval whose ends are integers
    of magnitude at most 2^53. *)
Lemma to_float_bounds (to_float : Q -> Q) (lo hi : Z) (x : Q) :
  float_rounding to_float ->
  (- 2 ^ 53 <= lo)%Z -> (hi <= 2 ^ 53)%Z ->
  inject_Z lo <= x -> x <= inject_Z hi ->
  inject_Z lo <= to_float x /\ to_float x <= inject_Z hi.
Proof.
  intros L Hlo Hhi H1 H2.
  assert (Hlh : (lo <= hi)%Z) by (rewrite Zle_Qle; lra).
  pose proof (@to_float_integer _ L lo ltac:(lia)) as El.
  pose proof (@to_float_integer _ L hi ltac:(lia)) as Eh.
  pose proof (@to_float_monotone _ L _ _ H1) as M1.
  pose proof (@to_float_monotone _ L _ _ H2) as M2.
  split; lra.
Qed.

(** X10: the reported averages stay within the range of the counts they
    average, in the floating-point arithmetic of the code: with counts of
    magnitude at most 2^53, likes between [lo] and [hi] give an average
    between [lo] and [hi], and so for the comments; in particular counts
    that are not negative give averages that are not negative. *)
Theorem engagement_averages_within_range (to_float : Q -> Q)
    (rounded_rate : Q -> Q -> Z -> Q)
    (posts : list Post) (followers_ : Z) (lo hi lo' hi' : Z) :
  float_rounding to_float ->
  posts <> [] ->
  (- 2 ^ 53 <= lo)%Z -> (hi <= 2 ^ 53)%Z ->
  (- 2 ^ 53 <= lo')%Z -> (hi' <= 2 ^ 53)%Z ->
  (forall p, In p posts -> (lo <= likes_of p <= hi)%Z) ->
  (forall p, In p posts -> (lo' <= comments_of p <= hi')%Z) ->
  exists m,
    _analyze_engagement_in to_float rounded_rate posts followers_
    = Return (EngagementReport m) /\
    (lo <= avg_likes m <= hi)%Z /\
    (lo' <= avg_comments m <= hi')%Z.
Proof.
  intros L Hne Hlo Hhi Hlo' Hhi' Hl Hc.
  destruct (@analyze_engagement_in_averages to_float rounded_rate posts
              followers_ Hne)
    as (m & Hm & Hal & Hac).
  exists m. split; [exact Hm |]. rewrite Hal, Hac.
  assert (Hne1 : map inject_Z (map likes_of posts) <> [])
    by now do 2 apply map_nonempty.
  assert (Hne2 : map inject_Z (map comments_of posts) <> [])
    by now do 2 apply map_nonempty.
  destruct (@average_bounds _ _ _ Hne1 (@int_list_bounds lo hi likes_of posts Hl))
    as [L1 L2].
  destruct (@average_bounds _ _ _ Hne2
              (@int_list_bounds lo' hi' comments_of posts Hc)) as [C1 C2].
  destruct (@to_float_bounds to_float lo hi _ L Hlo Hhi L1 L2) as [F1 F2].
  destruct (@to_float_bounds to_float lo' hi' _ L Hlo' Hhi' C1 C2) as [G1 G2].
  destruct (is_integer (average (map inject_Z (map likes_of posts))));
    destruct (is_integer (average (map inject_Z (map comments_of posts))));
    repeat split;
    first [ now apply round_half_even_ge | now apply round_half_even_le ].
Qed.

(** The exact conversion is one instance. *)
Lemma exact_float_rounding : float_rounding (fun x => x).
Proof. split; [intros x y H; exact H | intros n _; reflexivity]. Qed.

Lemma engagement_averages_within_range_witness :
  exists m,
    _analyze_engagement_in (fun x => x)
      (fun avg_likes avg_comments followers =>
         round_ndigits
           ((avg_likes + avg_comments) / inject_Z followers * 100) 2)
      [counted_post 10 1; bare_post; counted_post 31 2] 500
      = Return (EngagementReport m) /\
    (0 <= avg_likes m <= 31)%Z /\
    (0 <= avg_comments m <= 2)%Z.
Proof.
  apply engagement_averages_within_range.
  - exact exact_float_rounding.
  - discriminate.
  - apply Z.leb_le. reflexivity.
  - apply Z.leb_le. reflexivity.
  - apply Z.leb_le. reflexivity.
  - apply Z.leb_le. reflexivity.
  - intros p [<- | [<- | [<- | []]]]; cbn; lia.
  - intros p [<- | [<- | [<- | []]]]; cbn; lia.
Defined.

(** ** Brand analysis over the images *)

Lemma brand_features_from (E : Extractor) (posts : list Post)
    (all_colors : list string) (aesthetic_scores : list Q) :
  fold_left (brand_step E) posts (all_colors, aesthetic_scores)
  = (all_colors
     ++ flat_map (fun p => extract_colors E (get (image_url p) ""%string))
          (filter has_image posts),
     aesthetic_scores
     ++ map (fun p => analyze_image_clip E (get (image_url p) ""%string)
                        "brand consistent aesthetic professional")
          (filter has_image posts)).
Proof.
  revert all_colors aesthetic_scores.
  induction posts as [| p posts IH]; intros all_colors aesthetic_scores.
  - cbn. now rewrite !app_nil_r.
  - cbn [fold_left filter]. unfold brand_step at 2.
    change (truthy (image_url p)) with (has_image p).
    destruct (has_image p).
    + rewrite IH. cbn [flat_map map app]. now rewrite <- !app_assoc.
    + apply IH.
Qed.

(** What the loop over the posts collects: the palettes and the alignment
    scores of the posts that have an image, in post order. *)
Lemma brand_features_spec (E : Extractor) (posts : list Post) :
  brand_features E posts
  = (flat_map (fun p => extract_colors E (get (image_url p) ""%string))
       (filter has_image posts),
     map (fun p => analyze_image_clip E (get (image_url p) ""%string)
                     "brand consistent aesthetic professional")
       (filter has_image posts)).
Proof. unfold brand_features. now rewrite brand_features_from. Qed.

Lemma filter_has_image_idem (posts : list Post) :
  filter has_image (filter has_image posts) = filter has_image posts.
Proof.
  induction posts as [| p posts IH]; [reflexivity |].
  cbn [filter]. destruct (has_image p) eqn:Hp; [| assumption].
  cbn [filter]. rewrite Hp, IH. reflexivity.
Qed.

(** X11: posts without an image add nothing to the brand analysis, and when no
    post has an image the score is 0, there is no dominant colour, and the
    labels are High and Weak. *)
Theorem brand_looks_at_images_only (E : Extractor) (posts : list Post) :
  _analyze_brand_consistency E posts
    = _analyze_brand_consistency E (filter has_image posts) /\
  ((forall p, In p posts -> has_image p = false) ->
   let r := _analyze_brand_consistency E posts in
   consistency_score r == 0 /\ dominant_colors r = [] /\
   color_variance r = "High"%string /\ brand_alignment r = "Weak"%string).
Proof.
  split.
  - unfold _analyze_brand_consistency.
    rewrite (brand_features_spec E (filter has_image posts)).
    rewrite (brand_features_spec E posts), filter_has_image_idem.
    reflexivity.
  - intros Hnone.
    assert (Hf : filter has_image posts = []).
    { induction posts as [| p posts IH]; [reflexivity |].
      cbn [filter]. rewrite (Hnone p (or_introl eq_refl)).
      apply IH. intros q Hq. apply Hnone. now right. }
    unfold _analyze_brand_consistency. rewrite brand_features_spec, Hf.
    cbn. repeat split; reflexivity.
Qed.

Lemma raw_consistency_score_bounds (scores : list Q) :
  (forall x, In x scores -> 0 <= x /\ x <= 1) ->
  0 <= raw_consistency_score scores /\ raw_consistency_score scores <= 100.
Proof.
  intros H. unfold raw_consistency_score, np_mean.
  destruct scores as [| s scores]; cbn [is_empty]; [lra |].
  destruct (@average_bounds 0 1 (s :: scores)) as [H0 H1];
    [discriminate | exact H |]. lra.
Qed.

(** X12: when the image-text alignment is a probability, as a softmax output is
    (and the 0.0 answered after a failure), the reported consistency score
    lies between 0 and 100. *)
Theorem consistency_score_in_range (sentiment_model : string -> string * Q)
    (infer : string -> string -> result Q)
    (cluster : string -> result (list (Z * Z * Z))) (posts : list Post) :
  (forall url prompt p, infer url prompt = Return p -> 0 <= p /\ p <= 1) ->
  let r := _analyze_brand_consistency
             (extractor_with sentiment_model infer cluster) posts in
  0 <= consistency_score r /\ consistency_score r <= 100.
Proof.
  intros Hprob r.
  destruct (brand_analysis_fields (extractor_with sentiment_model infer cluster)
              posts) as (Hs & _).
  fold r in Hs. rewrite Hs.
  apply (@round_ndigits_bounds 0 100).
  - apply raw_consistency_score_bounds. rewrite brand_features_spec. cbn [snd].
    intros x Hx. apply in_map_iff in Hx. destruct Hx as (p & <- & _).
    cbn [extractor_with analyze_image_clip]. unfold analyze_image_clip_with.
    destruct (infer _ _) as [q |] eqn:Hq; [now apply (Hprob _ _ _ Hq) | lra].
  - apply raw_consistency_score_bounds. rewrite brand_features_spec. cbn [snd].
    intros x Hx. apply in_map_iff in Hx. destruct Hx as (p & <- & _).
    cbn [extractor_with analyze_image_clip]. unfold analyze_image_clip_with.
    destruct (infer _ _) as [q |] eqn:Hq; [now apply (Hprob _ _ _ Hq) | lra].
Qed.

Lemma consistency_score_in_range_witness :
  let r := _analyze_brand_consistency
             (extractor_with (fun _ => ("POSITIVE"%string, 1))
                (fun url _ => if String.eqb url "a.jpg" then Return (87 # 100)
                              else Raise ValueError)
                (fun _ => Raise ValueError))
             [image_post "a.jpg"; image_post "b.jpg"; bare_post] in
  0 <= consistency_score r /\ consistency_score r <= 100.
Proof.
  apply consistency_score_in_range.
  intros url prompt p. destruct (String.eqb url "a.jpg"); [| discriminate].
  intros H. injection H as <-. lra.
Defined.

(** ** The dominant colours are the most frequent ones *)

Lemma StronglySorted_app_cross {A : Type} (R : A -> A -> Prop)
    (l1 l2 : list A) :
  StronglySorted R (l1 ++ l2) ->
  forall x y, In x l1 -> In y l2 -> R x y.
Proof.
  induction l1 as [| a l1 IH]; cbn [app]; intros Hs x y Hx Hy;
    [contradiction |].
  apply StronglySorted_inv in Hs. destruct Hs as [Hs Ha].
  destruct Hx as [<- | Hx].
  - rewrite Forall_forall in Ha. apply Ha. apply in_or_app. now right.
  - now apply IH.
Qed.

Lemma rank_colors_spec (all_colors : list string) :
  exists ranking,
    rank_colors all_colors = firstn 5 ranking /\
    (forall c, In c ranking <-> In c all_colors) /\
    StronglySorted
      (fun a b =>
         (occurrences String.eqb b all_colors
          < occurrences String.eqb a all_colors)%nat \/
         (occurrences String.eqb a all_colors
          = occurrences String.eqb b all_colors /\
          (position String.eqb a all_colors
           < position String.eqb b all_colors)%nat))
      ranking.
Proof.
  unfold rank_colors.
  destruct (@count_all_spec _ _ String.eqb_spec all_colors)
    as (Hget & Hin & Hsorted).
  set (d := count_all String.eqb all_colors) in *.
  set (key := fun x => dict_get String.eqb d x 0).
  exists (sorted_reverse key (keys d)). split; [reflexivity | split].
  - intros c. rewrite sorted_reverse_In. apply Hin.
  - apply StronglySorted_weaken
      with (2 := sorted_reverse_sorted key Hsorted).
    intros a b _ _. unfold ranked_before, key. rewrite !Hget. tauto.
Qed.

(** X13: no colour is left out of the dominant colours in favour of a less
    frequent one; every dominant colour was extracted from some image; and
    when fewer than five colours are reported, every extracted colour is
    among them. *)
Theorem dominant_colors_are_the_most_frequent (E : Extractor)
    (posts : list Post) :
  let all_colors := fst (brand_features E posts) in
  let dominant := dominant_colors (_analyze_brand_consistency E posts) in
  (forall c c',
     In c dominant -> In c' all_colors ->
     (occurrences String.eqb c all_colors
      < occurrences String.eqb c' all_colors)%nat ->
     In c' dominant) /\
  (forall c, In c dominant -> In c all_colors) /\
  ((length dominant < 5)%nat -> forall c, In c all_colors -> In c dominant).
Proof.
  intros all_colors dominant.
  destruct (brand_analysis_fields E posts) as (_ & Hdom & _).
  fold all_colors dominant in Hdom.
  destruct (rank_colors_spec all_colors) as (ranking & Hrank & Hin & Hsorted).
  rewrite Hrank in Hdom. rewrite Hdom. clear Hdom Hrank dominant.
  split; [| split].
  - intros c c' Hc Hc' Hless.
    destruct (in_dec string_dec c' (firstn 5 ranking)) as [Hyes | Hno];
      [assumption | exfalso].
    rewrite <- (firstn_skipn 5 ranking) in Hsorted.
    assert (Hrest : In c' (skipn 5 ranking)).
    { apply Hin in Hc'. rewrite <- (firstn_skipn 5 ranking) in Hc'.
      apply in_app_or in Hc'. tauto. }
    pose proof (StronglySorted_app_cross _ _ Hsorted c c' Hc Hrest) as Hcc.
    cbv beta in Hcc. lia.
  - intros c Hc. apply Hin. rewrite <- (firstn_skipn 5 ranking).
    apply in_or_app. now left.
  - intros Hfew c Hc. apply Hin in Hc.
    rewrite length_firstn in Hfew. rewrite firstn_all2 by lia. assumption.
Qed.

(** ** When every image fails *)

Lemma flat_map_ext_in {A B : Type} (f g : A -> list B) (l : list A) :
  (forall a, In a l -> f a = g a) -> flat_map f l = flat_map g l.
Proof.
  induction l as [| a l IH]; intros H; [reflexivity |].
  cbn [flat_map]. rewrite (H a (or_introl eq_refl)), IH; [reflexivity |].
  intros b Hb. apply H. now right.
Qed.

Lemma count_fallback_from {A : Type} (l : list A) (k : nat) :
  fold_left (count_step String.eqb) (flat_map (fun _ => fallback_palette) l)
    [("#000000"%string, k); ("#FFFFFF"%string, k); ("#808080"%string, k)]
  = [("#000000"%string, (k + length l)%nat);
     ("#FFFFFF"%string, (k + length l)%nat);
     ("#808080"%string, (k + length l)%nat)].
Proof.
  revert k. induction l as [| a l IH]; intros k.
  - cbn. now rewrite Nat.add_0_r.
  - cbn [flat_map length]. rewrite fold_left_app.
    replace (fold_left (count_step String.eqb) fallback_palette _)
      with [("#000000"%string, (k + 1)%nat); ("#FFFFFF"%string, (k + 1)%nat);
            ("#808080"%string, (k + 1)%nat)] by reflexivity.
    rewrite IH. now replace (k + 1 + length l)%nat with (k + S (length l))%nat
      by lia.
Qed.

Lemma rank_fallback {A : Type} (l : list A) :
  l <> [] ->
  rank_colors (flat_map (fun _ => fallback_palette) l) = fallback_palette.
Proof.
  destruct l as [| a l]; [congruence | intros _].
  unfold rank_colors, count_all. cbn [flat_map]. rewrite fold_left_app.
  replace (fold_left (count_step String.eqb) fallback_palette [])
    with [("#000000"%string, 1%nat); ("#FFFFFF"%string, 1%nat);
          ("#808080"%string, 1%nat)] by reflexivity.
  rewrite count_fallback_from.
  set (n := (1 + length l)%nat).
  set (key := fun x => dict_get String.eqb _ x 0).
  assert (K1 : key "#000000"%string = n) by reflexivity.
  assert (K2 : key "#FFFFFF"%string = n) by reflexivity.
  assert (K3 : key "#808080"%string = n) by reflexivity.
  clearbody key.
  unfold keys, sorted_reverse, fallback_palette.
  cbn [map fst fold_right insert_desc].
  rewrite K2, K3, Nat.ltb_irrefl. cbn [insert_desc].
  rewrite K1, K2, Nat.ltb_irrefl. reflexivity.
Qed.

(** X14: when every image fetch fails, [clip_analysis] answers its fallbacks and
    the brand analysis of a profile with at least one image is always the
    same: score 0, the three fallback colours, High variance and Weak
    alignment. *)
Theorem brand_when_every_image_fails (sentiment_model : string -> string * Q)
    (infer : string -> string -> result Q)
    (cluster : string -> result (list (Z * Z * Z))) (posts : list Post) :
  (forall url, exists e, cluster url = Raise e) ->
  (forall url prompt, exists e, infer url prompt = Raise e) ->
  (exists p, In p posts /\ has_image p = true) ->
  let r := _analyze_brand_consistency
             (extractor_with sentiment_model infer cluster) posts in
  consistency_score r == 0 /\
  dominant_colors r = ["#000000"; "#FFFFFF"; "#808080"]%string /\
  color_variance r = "High"%string /\
  brand_alignment r = "Weak"%string.
Proof.
  intros Hcluster Hinfer (p & Hp & Himg) r.
  set (E := extractor_with sentiment_model infer cluster) in *.
  destruct (brand_analysis_fields E posts) as (Hs & Hd & Hv & Ha).
  fold r in Hs, Hd, Hv, Ha. rewrite Hs, Hd, Hv, Ha. clear Hs Hd Hv Ha.
  rewrite brand_features_spec. cbn [fst snd].
  assert (Hne : filter has_image posts <> []).
  { intros H. assert (Hin : In p (filter has_image posts))
      by (apply filter_In; now split).
    rewrite H in Hin. contradiction. }
  assert (Hzero :
    raw_consistency_score
      (map (fun p => analyze_image_clip E (get (image_url p) ""%string)
                       "brand consistent aesthetic professional")
         (filter has_image posts)) == 0).
  { unfold raw_consistency_score, np_mean.
    rewrite (is_empty_false (map_nonempty _ Hne)).
    destruct (@average_bounds 0 0
                (map (fun p => analyze_image_clip E
                                 (get (image_url p) ""%string)
                                 "brand consistent aesthetic professional")
                   (filter has_image posts))) as [H0 H1].
    - now apply map_nonempty.
    - intros x Hx. apply in_map_iff in Hx. destruct Hx as (q & <- & _).
      unfold E. cbn [extractor_with analyze_image_clip].
      unfold analyze_image_clip_with.
      destruct (Hinfer (get (image_url q) ""%string)
                  "brand consistent aesthetic professional"%string)
        as [e ->]. lra.
    - lra. }
  split; [| split; [| split]].
  - rewrite (round_ndigits_compat 1 Hzero). reflexivity.
  - rewrite (@flat_map_ext_in _ _ _ (fun _ => fallback_palette)).
    + now apply rank_fallback.
    + intros q _. unfold E. cbn [extractor_with extract_colors].
      unfold extract_colors_with.
      destruct (Hcluster (get (image_url q) ""%string)) as [e ->].
      reflexivity.
  - apply color_variance_cases. lra.
  - apply brand_alignment_cases. lra.
Qed.

Lemma brand_when_every_image_fails_witness :
  dominant_colors
    (_analyze_brand_consistency
       (extractor_with (fun _ => ("POSITIVE"%string, 1))
          (fun _ _ => Raise ValueError) (fun _ => Raise ValueError))
       [image_post "a.jpg"; bare_post; image_post "b.jpg"])
  = ["#000000"; "#FFFFFF"; "#808080"]%string.
Proof.
  apply (@brand_when_every_image_fails
           (fun _ => ("POSITIVE"%string, 1))
           (fun _ _ => Raise ValueError) (fun _ => Raise ValueError)
           [image_post "a.jpg"; bare_post; image_post "b.jpg"]).
  - intros _. now exists ValueError.
  - intros _ _. now exists ValueError.
  - exists (image_post "a.jpg"). split; [now left | reflexivity].
Defined.

(** ** The palette written in hexadecimal *)

Lemma channel_cases (n : Z) :
  channel n -> In n (map Z.of_nat (seq 0 256)).
Proof.
  intros Hn. unfold channel in Hn.
  replace n with (Z.of_nat (Z.to_nat n)) by lia.
  apply in_map, in_seq. lia.
Qed.

(** Checked on the 256 channel values: two characters each, pairwise
    different, none of them the upper-case FF. *)
Lemma format_02x_table :
  forallb
    (fun a =>
       (String.length (format_02x a) =? 2)%nat
       && negb (String.eqb (format_02x a) "FF")
       && forallb
            (fun b =>
               implb (String.eqb (format_02x a) (format_02x b)) (a =? b)%Z)
            (map Z.of_nat (seq 0 256)))
    (map Z.of_nat (seq 0 256)) = true.
Proof. vm_compute. reflexivity. Qed.

Lemma format_02x_channel (a : Z) :
  channel a ->
  String.length (format_02x a) = 2%nat /\
  format_02x a <> "FF"%string /\
  (forall b, channel b -> format_02x a = format_02x b -> a = b).
Proof.
  intros Ha. pose proof format_02x_table as T.
  rewrite forallb_forall in T. specialize (T a (channel_cases Ha)).
  apply andb_true_iff in T. destruct T as [T T3].
  apply andb_true_iff in T. destruct T as [T1 T2].
  split; [now apply Nat.eqb_eq | split].
  - intros H. rewrite H in T2. discriminate.
  - intros b Hb Heq. rewrite forallb_forall in T3.
    specialize (T3 b (channel_cases Hb)).
    rewrite Heq, String.eqb_refl in T3. cbn [implb] in T3.
    now apply Z.eqb_eq.
Qed.

Lemma two_chars (s : string) :
  String.length s = 2%nat -> exists c1 c2, s = String c1 (String c2 "").
Proof.
  destruct s as [| c1 [| c2 [| c3 s]]]; cbn; intros H; try discriminate.
  now exists c1, c2.
Qed.

Lemma hex_color_chars (color : Z * Z * Z) :
  rgb color ->
  exists r1 r2 g1 g2 b1 b2,
    format_02x (fst (fst color)) = String r1 (String r2 "") /\
    format_02x (snd (fst color)) = String g1 (String g2 "") /\
    format_02x (snd color) = String b1 (String b2 "") /\
    hex_color color
    = String "#" (String r1 (String r2 (String g1 (String g2
        (String b1 (String b2 "")))))).
Proof.
  destruct color as [[r g] b]. intros (Hr & Hg & Hb). cbn [fst snd] in *.
  destruct (@two_chars _ (proj1 (@format_02x_channel r Hr))) as (r1 & r2 & Er).
  destruct (@two_chars _ (proj1 (@format_02x_channel g Hg))) as (g1 & g2 & Eg).
  destruct (@two_chars _ (proj1 (@format_02x_channel b Hb))) as (b1 & b2 & Eb).
  exists r1, r2, g1, g2, b1, b2. unfold hex_color. rewrite Er, Eg, Eb.
  repeat split.
Qed.

Lemma hex_color_injective (c c' : Z * Z * Z) :
  rgb c -> rgb c' -> hex_color c = hex_color c' -> c = c'.
Proof.
  intros Hc Hc' Heq.
  destruct (@hex_color_chars c Hc)
    as (r1 & r2 & g1 & g2 & b1 & b2 & Er & Eg & Eb & E).
  destruct (@hex_color_chars c' Hc')
    as (r1' & r2' & g1' & g2' & b1' & b2' & Er' & Eg' & Eb' & E').
  rewrite E, E' in Heq. injection Heq as -> -> -> -> -> ->.
  destruct c as [[r g] b], c' as [[r' g'] b'].
  destruct Hc as (Hr & Hg & Hb), Hc' as (Hr' & Hg' & Hb').
  cbn [fst snd] in *.
  rewrite <- Er' in Er. rewrite <- Eg' in Eg. rewrite <- Eb' in Eb.
  apply (proj2 (proj2 (@format_02x_channel r Hr)) _ Hr') in Er.
  apply (proj2 (proj2 (@format_02x_channel g Hg)) _ Hg') in Eg.
  apply (proj2 (proj2 (@format_02x_channel b Hb)) _ Hb') in Eb.
  congruence.
Qed.

(** X15: when the clustering succeeds, the palette has one seven-character
    entry per cluster centre, different centres give different entries, and
    no entry is the upper-case "#FFFFFF" of the fallback palette: a white
    centre is written "#ffffff" and is counted as another colour. *)
Theorem extracted_palette_faithful
    (cluster : string -> result (list (Z * Z * Z))) (image_url_ : string)
    (centres : list (Z * Z * Z)) :
  cluster image_url_ = Return centres ->
  Forall rgb centres ->
  let palette := extract_colors_with cluster image_url_ in
  length palette = length centres /\
  Forall (fun s => String.length s = 7%nat) palette /\
  (NoDup centres -> NoDup palette) /\
  ~ In "#FFFFFF"%string palette.
Proof.
  intros Hcluster Hrgb palette. unfold palette, extract_colors_with.
  rewrite Hcluster. clear Hcluster palette.
  split; [apply length_map | split; [| split]].
  - apply Forall_map. apply Forall_impl with (2 := Hrgb).
    intros c Hc.
    destruct (@hex_color_chars c Hc) as (? & ? & ? & ? & ? & ? & _ & _ & _ & E).
    rewrite E. reflexivity.
  - intros Hnd. induction Hnd as [| c l Hnotin Hnd IH]; cbn [map];
      constructor.
    + intros Hin. apply in_map_iff in Hin. destruct Hin as (c' & Heq & Hc').
      inversion Hrgb as [| ? ? Hc Hl]; subst.
      rewrite Forall_forall in Hl.
      apply (@hex_color_injective c' c (Hl c' Hc') Hc) in Heq. now subst.
    + apply IH. now inversion Hrgb.
  - intros Hin. apply in_map_iff in Hin. destruct Hin as (c & Heq & Hc).
    rewrite Forall_forall in Hrgb. specialize (Hrgb c Hc).
    destruct (@hex_color_chars c Hrgb)
      as (r1 & r2 & ? & ? & ? & ? & Er & _ & _ & E).
    rewrite E in Heq. injection Heq as -> ->.
    destruct Hrgb as (Hr & _).
    exact (proj1 (proj2 (@format_02x_channel _ Hr)) Er).
Qed.

Lemma extracted_palette_faithful_witness :
  extract_colors_with
    (fun _ => Return [(255, 255, 255); (0, 128, 7)]%Z) "a.jpg"
  = ["#ffffff"; "#008007"]%string /\
  ~ In "#FFFFFF"%string
      (extract_colors_with
         (fun _ => Return [(255, 255, 255); (0, 128, 7)]%Z) "a.jpg").
Proof.
  split; [reflexivity |].
  apply (@extracted_palette_faithful
           (fun _ => Return [(255, 255, 255); (0, 128, 7)]%Z) "a.jpg"
           [(255, 255, 255); (0, 128, 7)]%Z eq_refl).
  repeat constructor; cbn; lia.
Defined.

(** ** Posting: short spans and posts without a timestamp *)

Lemma format_1f_compat (x y : Q) : x == y -> format_1f x = format_1f y.
Proof.
  intros H. unfold format_1f.
  rewrite (@round_half_even_compat (Qabs x * 10) (Qabs y * 10))
    by (rewrite H; reflexivity).
  rewrite (Qltb_compat H (Qeq_refl 0)). reflexivity.
Qed.

Lemma post_dates_length (posts : list Post) (dates : list datetime) :
  post_dates_of posts = Return dates -> (length dates <= length posts)%nat.
Proof.
  unfold post_dates_of, dated. intros H.
  assert (Hlen : length dates
                 = length (filter (fun post => truthy (timestamp post)) posts)).
  { revert dates H.
    induction (filter (fun post => truthy (timestamp post)) posts)
      as [| p l IH]; intros dates H; cbn [mapM] in H.
    - injection H as <-. reflexivity.
    - destruct (parse_timestamp p); cbn [bind] in H; [| discriminate].
      destruct (mapM parse_timestamp l); cbn [bind] in H; [| discriminate].
      injection H as <-. cbn [length]. f_equal. now apply IH. }
  rewrite Hlen. apply filter_length_le.
Qed.

Lemma week_divisor_floor (days : Z) :
  (0 <= days <= 7)%Z -> py_max (inject_Z days / 7) 1 == 1.
Proof.
  intros [H0 H7]. rewrite Zle_Qle in H7. change (inject_Z 7) with 7 in H7.
  unfold py_max. destruct (Qgtb_spec 1 (inject_Z days / 7)) as [H | H].
  - reflexivity.
  - apply Qnot_lt_le in H. apply Qle_antisym; [| assumption].
    apply Qle_shift_div_r; lra.
Qed.

(** X16: when all the timestamps lie within a span of less than eight days, the
    divisor is one week: the frequency is the number of posts itself, and
    the consistency is Good up to five posts and High above, never Low. *)
Theorem posting_within_a_week (posts : list Post) (dates : list datetime) :
  post_dates_of posts = Return dates ->
  (2 <= length dates)%nat ->
  comparable dates = true ->
  (forall d d', In d dates -> In d' dates ->
     (instant d - instant d' < 8 * 86400000000)%Z) ->
  exists r,
    _analyze_posting_patterns posts = Return r /\
    frequency r
    = (format_1f (inject_Z (Z.of_nat (length posts))) ++ " posts/week")%string /\
    (posting_consistency r = "Good"%string <-> (length posts <= 5)%nat) /\
    (posting_consistency r = "High"%string <-> (5 < length posts)%nat) /\
    posting_consistency r <> "Low"%string.
Proof.
  intros Hd Hlen Hcmp Hspan.
  destruct (@analyze_posting_patterns_dated _ _ Hd Hlen Hcmp)
    as (latest & earliest & h & Hl & He & Hbounds & _ & Hr).
  pose proof (post_dates_length _ Hd) as Hposts.
  set (td := (instant latest - instant earliest)%Z) in *.
  assert (Htd : (0 <= td < 8 * 86400000000)%Z).
  { split; [pose proof (Hbounds latest Hl); unfold td; lia |].
    now apply Hspan. }
  assert (Hdays : (0 <= timedelta_days td <= 7)%Z).
  { unfold timedelta_days. split; [apply Z.div_pos; lia |].
    apply Z.lt_succ_r. apply Z.div_lt_upper_bound; lia. }
  set (freq := inject_Z (Z.of_nat (length posts))
               / py_max (inject_Z (timedelta_days td) / 7) 1) in *.
  assert (Hfreq : freq == inject_Z (Z.of_nat (length posts))).
  { unfold freq. rewrite (week_divisor_floor Hdays). field. }
  assert (Hn : 2 <= inject_Z (Z.of_nat (length posts))).
  { change 2 with (inject_Z 2). rewrite <- Zle_Qle. lia. }
  assert (H5 : (length posts <= 5)%nat <->
               inject_Z (Z.of_nat (length posts)) <= 5).
  { change 5 with (inject_Z 5). rewrite <- Zle_Qle. lia. }
  destruct (consistency_cases freq) as (Hgood & Hlow & Hhigh).
  eexists. split; [exact Hr |]. cbv zeta. cbn [frequency posting_consistency].
  fold freq. split; [now rewrite (format_1f_compat Hfreq) |].
  split; [| split].
  - rewrite Hgood, H5. split; intros H; lra.
  - rewrite Hhigh. split; intros H.
    + apply Nat.nle_gt. intros Hle. apply H5 in Hle. lra.
    + apply Nat.nle_gt in H. rewrite H5 in H. lra.
  - rewrite Hlow. lra.
Qed.

Lemma posting_within_a_week_witness :
  exists r,
    _analyze_posting_patterns
      [timed_post "2025-08-01T09:30:00Z"; bare_post;
       timed_post "2025-08-04T22:00:00Z"] = Return r /\
    frequency r = "3.0 posts/week"%string /\
    posting_consistency r <> "Low"%string.
Proof.
  destruct (@posting_within_a_week
              [timed_post "2025-08-01T09:30:00Z"; bare_post;
               timed_post "2025-08-04T22:00:00Z"] _ eq_refl
              ltac:(cbn; lia) eq_refl) as (r & Hr & Hf & _ & _ & Hlow).
  - intros d d' [<- | [<- | []]] [<- | [<- | []]]; vm_compute; reflexivity.
  - exists r. split; [exact Hr | split; [rewrite Hf; reflexivity | exact Hlow]].
Defined.

(** X17: posts without a timestamp never change the optimal posting time (they
    do count in the frequency, which divides the number of all posts). *)
Theorem optimal_time_ignores_undated_posts (posts : list Post) :
  optimal_time_of (_analyze_posting_patterns posts)
  = optimal_time_of (_analyze_posting_patterns (dated posts)).
Proof.
  assert (Hdates : post_dates_of (dated posts) = post_dates_of posts).
  { unfold post_dates_of, dated. f_equal.
    induction posts as [| p posts IH]; [reflexivity |].
    cbn [filter]. destruct (truthy (timestamp p)) eqn:Hp; [| assumption].
    cbn [filter]. rewrite Hp, IH. reflexivity. }
  unfold _analyze_posting_patterns. rewrite Hdates.
  destruct (post_dates_of posts) as [dates | e] eqn:Hd.
  - assert (Hempty : is_empty (dated posts) = true -> dates = []).
    { unfold post_dates_of in Hd. destruct (dated posts); [| discriminate].
      cbn in Hd. intros _. now injection Hd as <-. }
    destruct (is_empty posts) eqn:Hp.
    { destruct posts; [reflexivity | discriminate]. }
    destruct (is_empty (dated posts)) eqn:Hdp.
    { rewrite (Hempty eq_refl). reflexivity. }
    cbn [bind]. destruct (length dates <? 2)%nat; [reflexivity |].
    destruct (datetime_max dates); cbn [bind]; [| reflexivity].
    destruct (datetime_min dates); cbn [bind]; [| reflexivity].
    destruct (datetime_sub _ _); cbn [bind]; [| reflexivity].
    rewrite !posts_per_week_returns. cbn [bind].
    destruct (if is_empty (map hour dates) then _ else _); reflexivity.
  - destruct (is_empty posts) eqn:Hp.
    { destruct posts; [discriminate Hd | discriminate]. }
    destruct (is_empty (dated posts)) eqn:Hdp; [| reflexivity].
    unfold post_dates_of in Hd. destruct (dated posts); discriminate.
Qed.

(** *** The order of the posts *)

Lemma mapM_Permutation {A B : Type} (f : A -> result B) (l l' : list A) :
  Permutation l l' ->
  forall r, mapM f l = Return r ->
  exists r', mapM f l' = Return r' /\ Permutation r r'.
Proof.
  induction 1 as [| x l l' _ IH | x y l | l l' l'' _ IH1 _ IH2]; intros r Hr.
  - exists r. split; [assumption | apply Permutation_refl].
  - cbn [mapM] in *. destruct (f x) as [b |]; cbn [bind] in *;
      [| discriminate].
    destruct (mapM f l) as [bs |]; cbn [bind] in Hr; [| discriminate].
    injection Hr as <-. destruct (IH bs eq_refl) as (bs' & -> & Hperm).
    cbn [bind]. exists (b :: bs'). split; [reflexivity | now constructor].
  - cbn [mapM] in *.
    destruct (f y) as [b |]; cbn [bind] in *; [| discriminate].
    destruct (f x) as [a |]; cbn [bind] in *; [| discriminate].
    destruct (mapM f l) as [bs |]; cbn [bind] in *; [| discriminate].
    injection Hr as <-. exists (a :: b :: bs).
    split; [reflexivity | apply perm_swap].
  - destruct (IH1 r Hr) as (r1 & Hr1 & Hp1).
    destruct (IH2 r1 Hr1) as (r2 & Hr2 & Hp2).
    exists r2. split; [assumption | now apply Permutation_trans with r1].
Qed.

Lemma filter_Permutation {A : Type} (f : A -> bool) (l l' : list A) :
  Permutation l l' -> Permutation (filter f l) (filter f l').
Proof.
  induction 1 as [| x l l' _ IH | x y l | l l' l'' _ IH1 _ IH2]; cbn [filter].
  - constructor.
  - destruct (f x); [now constructor | assumption].
  - destruct (f x), (f y); try apply Permutation_refl. apply perm_swap.
  - now apply Permutation_trans with (filter f l').
Qed.

Lemma comparable_Permutation (l l' : list datetime) :
  Permutation l l' -> comparable l = true -> comparable l' = true.
Proof.
  unfold comparable. intros Hperm H. apply orb_true_iff in H.
  apply orb_true_iff.
  destruct H as [H | H]; [left | right]; rewrite forallb_forall in *;
    intros d Hd; apply H; apply Permutation_in with (1 := Permutation_sym Hperm);
    assumption.
Qed.

(** X18: the frequency and the consistency are the same for every order of the
    posts (the optimal time on a tie and the engagement trend are not). *)
Theorem posting_frequency_ignores_order (posts posts' : list Post)
    (dates : list datetime) :
  Permutation posts posts' ->
  post_dates_of posts = Return dates ->
  (2 <= length dates)%nat ->
  comparable dates = true ->
  exists r r',
    _analyze_posting_patterns posts = Return r /\
    _analyze_posting_patterns posts' = Return r' /\
    frequency r = frequency r' /\
    posting_consistency r = posting_consistency r'.
Proof.
  intros Hperm Hd Hlen Hcmp.
  destruct (@mapM_Permutation _ _ parse_timestamp (dated posts) (dated posts')
              (filter_Permutation _ Hperm) dates Hd) as (dates' & Hd' & Hpd).
  fold (post_dates_of posts') in Hd'.
  assert (Hlen' : (2 <= length dates')%nat)
    by now rewrite <- (Permutation_length Hpd).
  pose proof (comparable_Permutation Hpd Hcmp) as Hcmp'.
  destruct (@analyze_posting_patterns_dated _ _ Hd Hlen Hcmp)
    as (latest & earliest & h & Hl & He & Hb & _ & Hr).
  destruct (@analyze_posting_patterns_dated _ _ Hd' Hlen' Hcmp')
    as (latest' & earliest' & h' & Hl' & He' & Hb' & _ & Hr').
  assert (Hlatest : instant latest = instant latest').
  { pose proof (Hb' latest (Permutation_in _ Hpd Hl)).
    pose proof (Hb latest' (Permutation_in _ (Permutation_sym Hpd) Hl')).
    lia. }
  assert (Hearliest : instant earliest = instant earliest').
  { pose proof (Hb' earliest (Permutation_in _ Hpd He)).
    pose proof (Hb earliest' (Permutation_in _ (Permutation_sym Hpd) He')).
    lia. }
  eexists. eexists. split; [exact Hr | split; [exact Hr' |]].
  cbv zeta. cbn [frequency posting_consistency].
  rewrite Hlatest, Hearliest, (Permutation_length Hperm).
  split; reflexivity.
Qed.

Lemma posting_frequency_ignores_order_witness :
  exists r r',
    _analyze_posting_patterns
      [timed_post "2025-08-01T09:30:00Z"; timed_post "2025-08-20T22:00:00Z"]
      = Return r /\
    _analyze_posting_patterns
      [timed_post "2025-08-20T22:00:00Z"; timed_post "2025-08-01T09:30:00Z"]
      = Return r' /\
    frequency r = frequency r' /\
    posting_consistency r = posting_consistency r'.
Proof.
  apply (@posting_frequency_ignores_order
           [timed_post "2025-08-01T09:30:00Z";
            timed_post "2025-08-20T22:00:00Z"]
           [timed_post "2025-08-20T22:00:00Z";
            timed_post "2025-08-01T09:30:00Z"] _ (perm_swap _ _ _) eq_refl).
  - cbn. lia.
  - reflexivity.
Defined.

(** ** The report as a whole and the service *)

Lemma generate_insights_length (b : BrandAnalysis) (e : EngagementAnalysis)
    (s : SentimentAnalysis) :
  (length (_generate_insights b e s) <= 3)%nat.
Proof.
  unfold _generate_insights.
  destruct (Qgtb (consistency_score b) 80);
    [| destruct (Qltb (consistency_score b) 60)];
    (destruct (Qgtb (get_engagement_rate e) 3);
     [| destruct (Qltb (get_engagement_rate e) 1)]);
    (destruct (Qgtb (get_overall s) (1 # 2));
     [| destruct (Qltb (get_overall s) 0)]);
    cbn [app length]; lia.
Qed.

Lemma generate_mood_suggestions_length (b : BrandAnalysis)
    (s : SentimentAnalysis) :
  length (_generate_mood_suggestions b s) = 6%nat.
Proof.
  unfold _generate_mood_suggestions, general_suggestions.
  destruct (Qgtb (consistency_score b) 75);
    destruct (Qgtb (get_overall s) (3 # 10)); reflexivity.
Qed.

(** What a returned report is made of. *)
Lemma analyze_profile_inv (E : Extractor) (now : string)
    (profile_data : Profile) (report : AnalysisReport) :
  analyze_profile E now profile_data = Return (Analysis report) ->
  let posts_ := get (posts profile_data) [] in
  posts_ <> [] /\
  profile report
  = {| summary_username := username profile_data;
       summary_followers := followers profile_data;
       summary_following := following profile_data;
       posts_count := length posts_ |} /\
  branding report = _analyze_brand_consistency E posts_ /\
  _analyze_engagement posts_ (get (followers profile_data) 0%Z)
    = Return (engagement report) /\
  _analyze_sentiment E posts_ = Return (sentiment report) /\
  _analyze_posting_patterns posts_ = Return (posting report) /\
  insights report
  = _generate_insights (branding report) (engagement report)
      (sentiment report) /\
  mood_suggestions report
  = _generate_mood_suggestions (branding report) (sentiment report) /\
  generated_at report = now.
Proof.
  intros H posts_. unfold analyze_profile in H. fold posts_ in H.
  destruct (is_empty posts_) eqn:Hempty; [discriminate |].
  destruct (_analyze_engagement posts_ _) as [ea |]; cbn [bind] in H;
    [| discriminate].
  destruct (_analyze_sentiment E posts_) as [sa |]; cbn [bind] in H;
    [| discriminate].
  destruct (_analyze_posting_patterns posts_) as [pa |]; cbn [bind] in H;
    [| discriminate].
  injection H as <-. cbn.
  repeat split. intros Hnil. rewrite Hnil in Hempty. discriminate.
Qed.

(** X19: with a sentiment classifier that answers for every caption (an
    [Extractor]; the two image functions catch their own failures), and for
    posts whose timestamps, where present, are parsed and comparable, the
    analysis returns a full report, whatever other keys the posts or the
    profile lack: it counts the posts, carries the profile keys over as they
    are, holds the four aggregates of the same posts (a missing follower
    count read as 0), at most three insights and exactly six suggestions. *)
Theorem analyze_profile_full_report (E : Extractor) (now : string)
    (profile_data : Profile) (dates : list datetime) :
  get (posts profile_data) [] <> [] ->
  post_dates_of (get (posts profile_data) []) = Return dates ->
  comparable dates = true ->
  exists report,
    analyze_profile E now profile_data = Return (Analysis report) /\
    posts_count (profile report) = length (get (posts profile_data) []) /\
    summary_followers (profile report) = followers profile_data /\
    branding report
    = _analyze_brand_consistency E (get (posts profile_data) []) /\
    _analyze_engagement (get (posts profile_data) [])
      (get (followers profile_data) 0%Z) = Return (engagement report) /\
    _analyze_sentiment E (get (posts profile_data) [])
      = Return (sentiment report) /\
    _analyze_posting_patterns (get (posts profile_data) [])
      = Return (posting report) /\
    (length (insights report) <= 3)%nat /\
    length (mood_suggestions report) = 6%nat.
Proof.
  intros Hne Hd Hcmp.
  destruct (@analyze_profile_returns E now profile_data dates Hd Hcmp)
    as [_ Hrep].
  destruct (Hrep Hne) as [report Hreport]. exists report.
  destruct (analyze_profile_inv _ _ _ Hreport)
    as (_ & Hp & Hb & He & Hs & Hpo & Hi & Hm & _).
  split; [exact Hreport |].
  rewrite Hp, Hi, Hm. cbn [posts_count summary_followers].
  repeat split; try assumption.
  - apply generate_insights_length.
  - apply generate_mood_suggestions_length.
Qed.

Lemma analyze_profile_full_report_witness :
  exists report,
    analyze_profile (fixed_extractor ["#102030"%string] (1 # 2) (1 # 5))
      "2025-08-08T12:00:00"
      {| username := None; followers := None; following := None;
         posts := Some [bare_post; timed_post "2025-08-01T09:30:00Z"] |}
    = Return (Analysis report) /\
    posts_count (profile report) = 2%nat /\
    length (mood_suggestions report) = 6%nat.
Proof.
  destruct (@analyze_profile_full_report
              (fixed_extractor ["#102030"%string] (1 # 2) (1 # 5))
              "2025-08-08T12:00:00"
              {| username := None; followers := None; following := None;
                 posts := Some [bare_post; timed_post "2025-08-01T09:30:00Z"] |}
              _ ltac:(discriminate) eq_refl eq_refl)
    as (report & Hr & Hc & _ & _ & _ & _ & _ & _ & Hm).
  exists report. split; [exact Hr | split; [exact Hc | exact Hm]].
Defined.

Lemma scraped_posts_count (R : Draws) (username_ : string) (posts_limit : Z) :
  get (posts (scrape_instagram_profile R username_ posts_limit)) []
  = map (scraped_post R) (range 0 (Z.to_nat (Z.min posts_limit 12))).
Proof. reflexivity. Qed.

(** X20: what [POST /analyze-profile] answers, by the number of posts asked for:
    none or fewer gives a success response that wraps the error object; one
    to eight give a success response with a full report on that many posts;
    nine or more, the default of twelve included, give the status 500,
    because the data source then generates timestamps that are no dates. *)
Theorem analyze_profile_endpoint_outcomes (E : Extractor) (R : Draws)
    (now username_ : string) (posts_limit : Z) :
  ((posts_limit <= 0)%Z ->
   analyze_profile_endpoint E R now username_ posts_limit
   = Success (AnalysisError "No posts found for analysis")) /\
  ((1 <= posts_limit <= 8)%Z ->
   exists report,
     analyze_profile_endpoint E R now username_ posts_limit
     = Success (Analysis report) /\
     posts_count (profile report) = Z.to_nat posts_limit) /\
  ((9 <= posts_limit)%Z ->
   analyze_profile_endpoint E R now username_ posts_limit
   = HTTPException 500 ValueError).
Proof.
  unfold analyze_profile_endpoint. cbv zeta.
  pose proof (scraped_posts_count R username_ posts_limit) as Hposts.
  split; [| split].
  - intros Hlimit.
    replace (Z.to_nat (Z.min posts_limit 12)) with 0%nat in Hposts by lia.
    unfold analyze_profile. rewrite Hposts. reflexivity.
  - intros Hlimit.
    assert (Hk : exists k, (k <= 7)%nat /\
                           Z.to_nat (Z.min posts_limit 12) = S k /\
                           Z.to_nat posts_limit = S k).
    { exists (Z.to_nat posts_limit - 1)%nat. lia. }
    destruct Hk as (k & Hk & Hmin & Hto). rewrite Hmin in Hposts.
    assert (Hreport : exists report,
              analyze_profile E now
                (scrape_instagram_profile R username_ posts_limit)
              = Return (Analysis report)).
    { do 8 (destruct k as [| k];
            [ eapply (@analyze_profile_returns E now
                        (scrape_instagram_profile R username_ posts_limit));
              [ rewrite Hposts; cbv; reflexivity
              | reflexivity
              | rewrite Hposts; discriminate ] |]).
      lia. }
    destruct Hreport as [report Hreport]. exists report.
    rewrite Hreport. split; [reflexivity |].
    destruct (analyze_profile_inv _ _ _ Hreport) as (_ & Hp & _).
    rewrite Hp, Hposts, Hto. cbn [posts_count].
    rewrite length_map. unfold range. rewrite length_seq. lia.
  - intros Hlimit.
    assert (Hk : exists k, (k <= 3)%nat /\
                           Z.to_nat (Z.min posts_limit 12) = (9 + k)%nat).
    { exists (Z.to_nat (Z.min posts_limit 12) - 9)%nat. lia. }
    destruct Hk as (k & Hk & Hmin). rewrite Hmin in Hposts.
    rewrite (@analyze_profile_posting_raise E now
               (scrape_instagram_profile R username_ posts_limit) ValueError);
      [reflexivity | |]; rewrite Hposts.
    + destruct k; discriminate.
    + do 4 (destruct k as [| k]; [vm_compute; reflexivity |]). lia.
Qed.

(* ===================================================================== *)
(** * Brand labels and posting frequency in binary64 *)
(* ===================================================================== *)

(** The properties of this part hold for whatever floats [numpy] and the
    interpreter compute: the mean, the quotient, the rounding and the
    formatting are arguments of the aggregators. *)

(** ** Brand labels *)

Lemma analyze_brand_consistency_in_fields (mean_times_100 : list Q -> Q)
    (round_1 : Q -> Q) (E : Extractor) (posts : list Post) :
  let aesthetic_scores := snd (brand_features E posts) in
  let score := unrounded_score mean_times_100 aesthetic_scores in
  let r := _analyze_brand_consistency_in mean_times_100 round_1 E posts in
  consistency_score r
  = (if is_empty aesthetic_scores then 0 else round_1 score) /\
  dominant_colors r = rank_colors (fst (brand_features E posts)) /\
  color_variance r = color_variance_of score /\
  brand_alignment r = brand_alignment_of score.
Proof.
  unfold _analyze_brand_consistency_in.
  destruct (brand_features E posts) as [all_colors aesthetic_scores].
  simpl. repeat split.
Qed.

(** With the exact mean and rounding the aggregator is the one on
    rationals, field by field. *)
Lemma analyze_brand_consistency_exact (E : Extractor) (posts : list Post) :
  let r :=
    _analyze_brand_consistency_in (fun l => np_mean l * 100)
      (fun x => round_ndigits x 1) E posts in
  let r' := _analyze_brand_consistency E posts in
  consistency_score r == consistency_score r' /\
  dominant_colors r = dominant_colors r' /\
  color_variance r = color_variance r' /\
  brand_alignment r = brand_alignment r'.
Proof.
  unfold _analyze_brand_consistency_in, _analyze_brand_consistency.
  destruct (brand_features E posts) as [all_colors [| s l]];
    cbn; repeat split; reflexivity.
Qed.

(** C7, as the code has it: the labels are read from the score before it is
    rounded, [score] = the mean alignment times 100 as [numpy] computes it,
    and 0 when no alignment score was collected. On that score the
    thresholds are strict and the first match wins: the colour variance is
    Low iff [score > 80], Moderate iff [60 < score <= 80], High otherwise;
    the alignment is Strong iff [score > 75], Moderate iff
    [50 < score <= 75], Weak otherwise; a score of exactly 80 gives the
    variance Moderate and a score of exactly 75 the alignment Moderate. The
    reported [consistency_score] is that score rounded to one decimal, and 0
    (with High and Weak) when no alignment score was collected. *)
Theorem brand_labels_on_unrounded_score (mean_times_100 : list Q -> Q)
    (round_1 : Q -> Q) (E : Extractor) (posts : list Post) :
  let aesthetic_scores := snd (brand_features E posts) in
  let score := unrounded_score mean_times_100 aesthetic_scores in
  let r := _analyze_brand_consistency_in mean_times_100 round_1 E posts in
  (color_variance r = "Low"%string <-> 80 < score) /\
  (color_variance r = "Moderate"%string <-> 60 < score /\ score <= 80) /\
  (color_variance r = "High"%string <-> score <= 60) /\
  (brand_alignment r = "Strong"%string <-> 75 < score) /\
  (brand_alignment r = "Moderate"%string <-> 50 < score /\ score <= 75) /\
  (brand_alignment r = "Weak"%string <-> score <= 50) /\
  (score == 80 -> color_variance r = "Moderate"%string) /\
  (score == 75 -> brand_alignment r = "Moderate"%string) /\
  (aesthetic_scores <> [] ->
   score = mean_times_100 aesthetic_scores /\
   consistency_score r = round_1 score) /\
  (aesthetic_scores = [] ->
   score = 0 /\ consistency_score r = 0 /\
   color_variance r = "High"%string /\ brand_alignment r = "Weak"%string).
Proof.
  intros aesthetic_scores score r.
  destruct (analyze_brand_consistency_in_fields mean_times_100 round_1 E posts)
    as (Hs & _ & Hv & Ha).
  fold aesthetic_scores score r in Hs, Hv, Ha.
  destruct (color_variance_cases score) as (V1 & V2 & V3).
  destruct (brand_alignment_cases score) as (A1 & A2 & A3).
  rewrite Hv, Ha, Hs.
  split; [exact V1 |]. split; [exact V2 |]. split; [exact V3 |].
  split; [exact A1 |]. split; [exact A2 |]. split; [exact A3 |].
  split; [intros H; apply V2; lra |].
  split; [intros H; apply A2; lra |].
  split.
  - intros H. unfold score, unrounded_score.
    rewrite (is_empty_false H). split; reflexivity.
  - intros H. unfold score, unrounded_score. rewrite H. cbn [is_empty].
    repeat split.
Qed.

(** The labels do not follow the reported score: one image with alignment
    0.8004 gives the score 80.04, reported as 80.0, with the variance Low
    and not Moderate. *)
Lemma reported_80_with_low_variance :
  consistency_score
    (_analyze_brand_consistency (fixed_extractor [] (8004 # 10000) 0)
       [image_post "p.jpg"]) == 80 /\
  color_variance
    (_analyze_brand_consistency (fixed_extractor [] (8004 # 10000) 0)
       [image_post "p.jpg"]) = "Low"%string /\
  color_variance
    (_analyze_brand_consistency (fixed_extractor [] (8004 # 10000) 0)
       [image_post "p.jpg"]) <> "Moderate"%string.
Proof. vm_compute. repeat split; discriminate. Qed.

(** ** Posting frequency *)

Lemma weeks_of_ge_1 (fdiv : Q -> Q -> Q) (date_range : Z) :
  1 <= weeks_of fdiv date_range.
Proof. apply py_max_ge_1. Qed.

Lemma posts_per_week_in_returns (fdiv : Q -> Q -> Q) (post_count : nat)
    (date_range : Z) :
  posts_per_week_in fdiv post_count date_range
  = Return (fdiv (inject_Z (Z.of_nat post_count)) (weeks_of fdiv date_range)).
Proof.
  unfold posts_per_week_in.
  destruct (Qeq_bool (weeks_of fdiv date_range) 0) eqn:Hw; [| reflexivity].
  apply Qeq_bool_eq in Hw. pose proof (weeks_of_ge_1 fdiv date_range). lra.
Qed.

Lemma analyze_posting_patterns_in_dated (fdiv : Q -> Q -> Q)
    (fmt_1f : Q -> string) (posts : list Post) (dates : list datetime) :
  post_dates_of posts = Return dates ->
  (2 <= length dates)%nat ->
  comparable dates = true ->
  exists latest earliest optimal_hour,
    In latest dates /\ In earliest dates /\
    (forall d, In d dates ->
       (instant earliest <= instant d <= instant latest)%Z) /\
    mode Z.eqb (map hour dates) = Return optimal_hour /\
    _analyze_posting_patterns_in fdiv fmt_1f posts =
      Return
        (let freq :=
           fdiv (inject_Z (Z.of_nat (length posts)))
             (weeks_of fdiv
                (timedelta_days (instant latest - instant earliest))) in
         {| frequency := (fmt_1f freq ++ " posts/week")%string;
            optimal_time := (format_02d optimal_hour ++ ":00")%string;
            posting_consistency := consistency_of freq |}).
Proof.
  intros Hd Hlen Hcmp.
  assert (Hne : is_empty posts = false).
  { destruct posts; [| reflexivity].
    cbn in Hd. injection Hd as <-. cbn in Hlen. lia. }
  destruct dates as [| d0 rest] eqn:Edates; [cbn in Hlen; lia |].
  destruct (@max_from_spec rest d0) as (latest & Hmax & Hmaxin & Hmaxle).
  { intros x Hx. apply (@comparable_same _ _ _ Hcmp); [now right | now left]. }
  destruct (@min_from_spec rest d0) as (earliest & Hmin & Hminin & Hminle).
  { intros x Hx. apply (@comparable_same _ _ _ Hcmp); [now right | now left]. }
  destruct (@mode_spec _ _ Z.eqb_spec (map hour (d0 :: rest)))
    as (h & Hmode & _); [discriminate |].
  exists latest, earliest, h.
  split; [assumption | split; [assumption | split; [| split]]].
  - intros d Hin. split; [now apply Hminle | now apply Hmaxle].
  - exact Hmode.
  - unfold _analyze_posting_patterns_in. rewrite Hne, Hd. cbn [bind].
    replace (length (d0 :: rest) <? 2)%nat with false
      by (symmetry; apply Nat.ltb_ge; exact Hlen).
    cbn [datetime_max datetime_min]. rewrite Hmax, Hmin. cbn [bind].
    rewrite datetime_sub_same by (now apply (@comparable_same _ _ _ Hcmp)).
    cbn [bind]. rewrite posts_per_week_in_returns. cbn [bind].
    cbn [map is_empty] in *. rewrite Hmode. reflexivity.
Qed.

(** Every post with a timestamp: as many dates as posts. *)
Lemma post_dates_all_dated (posts : list Post) (dates : list datetime) :
  post_dates_of posts = Return dates ->
  (forall p, In p posts -> truthy (timestamp p) = true) ->
  length dates = length posts.
Proof.
  unfold post_dates_of, dated. intros H Hall.
  assert (Hf : filter (fun post => truthy (timestamp post)) posts = posts).
  { clear H. induction posts as [| p l IH]; [reflexivity |].
    cbn [filter]. rewrite (Hall p (or_introl eq_refl)). f_equal.
    apply IH. intros q Hq. apply Hall. now right. }
  rewrite Hf in H. clear Hf Hall. revert dates H.
  induction posts as [| p l IH]; intros dates H; cbn [mapM] in H.
  - injection H as <-. reflexivity.
  - destruct (parse_timestamp p); cbn [bind] in H; [| discriminate].
    destruct (mapM parse_timestamp l); cbn [bind] in H; [| discriminate].
    injection H as <-. cbn [length]. f_equal. now apply IH.
Qed.

(** The divisor for a span of no day at all, and for two weeks. *)
Lemma weeks_of_0 (fdiv : Q -> Q -> Q) (fmt_1f : Q -> string) :
  float_laws fdiv fmt_1f -> weeks_of fdiv 0 = 1.
Proof.
  intros L. unfold weeks_of, py_max.
  assert (H : fdiv (inject_Z 0) 7 == inject_Z 0).
  { apply (@fdiv_exact _ _ L 0 7 0); [split; [lia | ] | | reflexivity].
    - apply Z.leb_le. reflexivity.
    - apply Z.leb_le. reflexivity. }
  rewrite (Qgtb_compat (Qeq_refl 1) H). reflexivity.
Qed.

Lemma weeks_of_14 (fdiv : Q -> Q -> Q) (fmt_1f : Q -> string) :
  float_laws fdiv fmt_1f -> weeks_of fdiv 14 == 2.
Proof.
  intros L. unfold weeks_of, py_max.
  assert (H : fdiv (inject_Z 14) 7 == inject_Z 2).
  { apply (@fdiv_exact _ _ L 14 7 2); [split; [lia | ] | | reflexivity].
    - apply Z.leb_le. reflexivity.
    - apply Z.leb_le. reflexivity. }
  rewrite (Qgtb_compat (Qeq_refl 1) H). cbn. exact H.
Qed.

Lemma append_assoc_str (a b c : string) :
  ((a ++ b) ++ c)%string = (a ++ b ++ c)%string.
Proof. induction a as [| x a IH]; cbn; [reflexivity | now rewrite IH]. Qed.

(** With exact division and formatting the aggregator is the one on
    rationals. *)
Lemma analyze_posting_patterns_in_exact (posts : list Post) :
  _analyze_posting_patterns_in Qdiv format_1f posts
  = _analyze_posting_patterns posts.
Proof. reflexivity. Qed.

(** C9, as the code has it: with at least two parsed timestamps the frequency
    is the number of all the posts of the list, those without a timestamp
    included, divided in floating point by [max(date_range_days / 7, 1)],
    where [date_range_days] is the whole days between the latest and the
    earliest timestamp; it is printed with one decimal and the suffix
    posts/week, and the consistency is Good iff [1 <= frequency <= 5], Low
    iff [frequency < 1], High iff [frequency > 5]. The number of posts is
    the number of timestamps when every post has one. When all timestamps
    are the same instant the divisor is 1 week and the frequency is the
    number of posts. For a list of exactly 2 posts whose timestamps are 14
    days apart the frequency is 1.0 posts/week and the consistency Good. *)
Theorem posting_frequency_counts_all_posts (fdiv : Q -> Q -> Q)
    (fmt_1f : Q -> string) (posts : list Post) (dates : list datetime) :
  float_laws fdiv fmt_1f ->
  post_dates_of posts = Return dates ->
  (2 <= length dates)%nat ->
  comparable dates = true ->
  exists latest earliest r,
    In latest dates /\ In earliest dates /\
    (forall d, In d dates ->
       (instant earliest <= instant d <= instant latest)%Z) /\
    _analyze_posting_patterns_in fdiv fmt_1f posts = Return r /\
    let date_range_days :=
      timedelta_days (instant latest - instant earliest) in
    let weeks := py_max (fdiv (inject_Z date_range_days) 7) 1 in
    let freq := fdiv (inject_Z (Z.of_nat (length posts))) weeks in
    frequency r = (fmt_1f freq ++ " posts/week")%string /\
    (posting_consistency r = "Good"%string <-> 1 <= freq /\ freq <= 5) /\
    (posting_consistency r = "Low"%string <-> freq < 1) /\
    (posting_consistency r = "High"%string <-> 5 < freq) /\
    (length dates <= length posts)%nat /\
    ((forall p, In p posts -> truthy (timestamp p) = true) ->
     length posts = length dates) /\
    ((forall d d', In d dates -> In d' dates -> instant d = instant d') ->
     weeks = 1 /\
     ((Z.of_nat (length posts) <= 2 ^ 53)%Z ->
      frequency r
      = (str (Z.of_nat (length posts)) ++ ".0 posts/week")%string)) /\
    (length posts = 2%nat ->
     (instant latest - instant earliest = 14 * 86400000000)%Z ->
     frequency r = "1.0 posts/week"%string /\
     posting_consistency r = "Good"%string).
Proof.
  intros L Hd Hlen Hcmp.
  destruct (@analyze_posting_patterns_in_dated fdiv fmt_1f posts dates
              Hd Hlen Hcmp)
    as (latest & earliest & h & Hl & He & Hb & _ & Hr).
  exists latest, earliest. eexists.
  split; [exact Hl |]. split; [exact He |]. split; [exact Hb |].
  split; [exact Hr |].
  cbv zeta. cbn [frequency posting_consistency].
  change (weeks_of fdiv (timedelta_days (instant latest - instant earliest)))
    with (py_max
            (fdiv (inject_Z (timedelta_days
                               (instant latest - instant earliest))) 7) 1).
  set (weeks :=
         py_max
           (fdiv (inject_Z (timedelta_days
                              (instant latest - instant earliest))) 7) 1).
  set (freq := fdiv (inject_Z (Z.of_nat (length posts))) weeks).
  destruct (consistency_cases freq) as (G & Lo & Hi).
  split; [reflexivity |]. split; [exact G |]. split; [exact Lo |].
  split; [exact Hi |].
  split; [exact (post_dates_length posts Hd) |].
  split; [intros Hall; symmetry; exact (post_dates_all_dated posts Hd Hall) |].
  split.
  - intros Hsame.
    assert (Hw : weeks = 1).
    { unfold weeks. rewrite (Hsame latest earliest Hl He), Z.sub_diag.
      exact (weeks_of_0 L). }
    split; [exact Hw |]. intros Hn.
    assert (Hf : freq == inject_Z (Z.of_nat (length posts))).
    { unfold freq. rewrite Hw.
      apply (@fdiv_exact _ _ L (Z.of_nat (length posts)) 1
               (Z.of_nat (length posts))); [| lia | lia].
      split; [lia |]. apply Z.leb_le. reflexivity. }
    rewrite (@fmt_1f_compat _ _ L _ _ Hf).
    rewrite (@fmt_1f_integer _ _ L) by lia.
    apply append_assoc_str.
  - intros Hn Hspan.
    assert (Hw : weeks == 2).
    { unfold weeks. rewrite Hspan. exact (weeks_of_14 L). }
    assert (Hf : freq == inject_Z 1).
    { unfold freq. rewrite Hn.
      rewrite (@fdiv_compat _ _ L _ _ _ _ (Qeq_refl _) Hw).
      apply (@fdiv_exact _ _ L 2 2 1); [split; [lia |] | | reflexivity];
        apply Z.leb_le; reflexivity. }
    split.
    + rewrite (@fmt_1f_compat _ _ L _ _ Hf).
      rewrite (@fmt_1f_integer _ _ L) by (split; [lia | apply Z.leb_le; reflexivity]).
      reflexivity.
    + apply G. change (inject_Z 1) with 1 in Hf. lra.
Qed.

Lemma round_half_even_integer (n : Z) : round_half_even (inject_Z n) = n.
Proof.
  unfold round_half_even. rewrite Qfloor_Z.
  assert (H : Qltb (inject_Z n - inject_Z n) (1 # 2) = true)
    by (apply Qltb_true; lra).
  now rewrite H.
Qed.

Lemma format_1f_integer (n : Z) :
  (0 <= n)%Z -> format_1f (inject_Z n) = (str n ++ ".0")%string.
Proof.
  intros Hn. unfold format_1f.
  assert (Ht : Qabs (inject_Z n) * 10 == inject_Z (n * 10)).
  { rewrite Qabs_pos;
      [ rewrite inject_Z_mult; reflexivity
      | change 0 with (inject_Z 0); rewrite <- Zle_Qle; exact Hn ]. }
  rewrite (round_half_even_compat Ht), round_half_even_integer.
  rewrite Z.div_mul by lia. rewrite Z.mod_mul by lia.
  assert (Hs : Qltb (inject_Z n) 0 = false).
  { apply Qltb_false. change 0 with (inject_Z 0). now rewrite <- Zle_Qle. }
  rewrite Hs. reflexivity.
Qed.

(** The exact operations on rationals are one instance. *)
Lemma exact_float_laws : float_laws Qdiv format_1f.
Proof.
  split.
  - intros a a' b b' Ha Hb. now rewrite Ha, Hb.
  - intros a b q Hb _ ->. rewrite inject_Z_mult. field.
    change 0 with (inject_Z 0). rewrite inject_Z_injective. lia.
  - exact format_1f_compat.
  - intros n [Hn _]. now apply format_1f_integer.
Qed.

Lemma posting_frequency_counts_all_posts_witness :
  exists r,
    _analyze_posting_patterns_in Qdiv format_1f
      [timed_post "2025-08-01T09:30:00Z"; timed_post "2025-08-15T09:30:00Z"]
    = Return r /\
    frequency r = "1.0 posts/week"%string /\
    posting_consistency r = "Good"%string.
Proof.
  destruct (@posting_frequency_counts_all_posts Qdiv format_1f
              [timed_post "2025-08-01T09:30:00Z";
               timed_post "2025-08-15T09:30:00Z"]
              _ exact_float_laws eq_refl ltac:(cbn; lia) eq_refl)
    as (latest & earliest & r & _ & _ & _ & Hr & _).
  exists r. split; [exact Hr |].
  cbv in Hr. injection Hr as <-. split; reflexivity.
Defined.


(** An undated post counts: two timestamps exactly 14 days apart with one
    post without a timestamp between them give 3 / 2 = 1.5 posts/week, not
    1.0. *)
Lemma frequency_counts_undated_posts :
  (exists d1 d2,
     post_dates_of
       [timed_post "2025-08-01T09:30:00Z"; bare_post;
        timed_post "2025-08-15T09:30:00Z"] = Return [d1; d2] /\
     (instant d2 - instant d1 = 14 * 86400000000)%Z) /\
  (exists r,
     _analyze_posting_patterns
       [timed_post "2025-08-01T09:30:00Z"; bare_post;
        timed_post "2025-08-15T09:30:00Z"] = Return r /\
     frequency r = "1.5 posts/week"%string /\
     frequency r <> "1.0 posts/week"%string /\
     posting_consistency r = "Good"%string).
Proof.
  split.
  - eexists. eexists. split; [vm_compute; reflexivity |]. vm_compute. reflexivity.
  - eexists. split; [vm_compute; reflexivity |].
    cbn [frequency posting_consistency]. repeat split. discriminate.
Qed.

(** End of the development. *)

